(** * California wildfire-risk data scripts: a shallow embedding

    The repository is a collection of stand-alone Python download scripts.
    This development embeds the three of them that carry decision logic:

    - [scripts/download_noaa_climate_divisions.py] : the fixed-width
      climate-division decoder and the outer join of its three tables;
    - [scripts/download_weather_data.py] : the year-chunked fetch loop;
    - [scripts/download_population_data.py] : the Census API download.

    Python values are modelled as the interpreter has them: [str] as a list
    of characters (code points 0..255), [int] as [Z], [float] as IEEE 754
    binary64 (the kernel's primitive [float]), [None] as [None].
    Network, file system and environment are explicit arguments or explicit
    state. *)

From Stdlib Require Import ZArith Ascii String List Bool Lia.
From Stdlib Require Import Floats.
From Stdlib Require Import Numbers.DecimalString.
From Stdlib Require DecimalPos DecimalZ.
From stdpp Require Import base list strings gmap sets.

Local Open Scope Z_scope.

(** ** Python text primitives *)

Module PyText.

(** A Python [str] restricted to the code points 0..255. *)
Definition pystr := list ascii.

Definition lit (s : string) : pystr := list_ascii_of_string s.

Definition code (c : ascii) : Z := Z.of_N (N_of_ascii c).

Definition in_range (lo hi : Z) (c : ascii) : bool :=
  (lo <=? code c) && (code c <=? hi).

(** [str.isspace] on one character (Py_UNICODE_ISSPACE): TAB..CR, FS..US,
    SPACE, NEL and NBSP are the white-space code points below 256. *)
Definition isspace (c : ascii) : bool :=
  in_range 9 13 c || in_range 28 32 c || (code c =? 133) || (code c =? 160).

(** The C-level Py_ISSPACE used inside [int()] and [float()]. *)
Definition c_isspace (c : ascii) : bool :=
  in_range 9 13 c || (code c =? 32).

Definition isdigit (c : ascii) : bool := in_range 48 57 c.

Definition digit_val (c : ascii) : Z := code c - 48.

Fixpoint lstrip_with (sp : ascii -> bool) (s : pystr) : pystr :=
  match s with
  | [] => []
  | c :: t => if sp c then lstrip_with sp t else s
  end.

Definition rstrip_with (sp : ascii -> bool) (s : pystr) : pystr :=
  rev (lstrip_with sp (rev s)).

Definition strip_with (sp : ascii -> bool) (s : pystr) : pystr :=
  rstrip_with sp (lstrip_with sp s).

(** [s.strip()] *)
Definition strip (s : pystr) : pystr := strip_with isspace s.

(** [s[a:b]] for [0 <= a <= b]; Python clamps both ends to [len(s)]. *)
Definition slice (a b : nat) (s : pystr) : pystr := take (b - a) (drop a s).

(** [s.lower()] on the code points 0..255: A..Z and the Latin-1 capitals
    (all of 192..222 but the multiplication sign 215) move up by 32. *)
Definition lower_char (c : ascii) : ascii :=
  if in_range 65 90 c || (in_range 192 222 c && negb (code c =? 215))
  then ascii_of_N (N_of_ascii c + 32) else c.

Definition lower (s : pystr) : pystr := map lower_char s.

(** ASCII-only lower-casing (Py_TOLOWER), used by [float()] for
    [inf] and [nan]. *)
Definition c_lower_char (c : ascii) : ascii :=
  if in_range 65 90 c then ascii_of_N (N_of_ascii c + 32) else c.

Definition pystr_eqb (a b : pystr) : bool := bool_decide (a = b).

(** [str(n)] for an [int]. *)
Definition str_of_int (n : Z) : pystr :=
  lit (NilZero.string_of_int (Z.to_int n)).

End PyText.

(** ** Python numbers: [int()], [float()] and binary64 arithmetic *)

Module PyNum.
Import PyText.

(** A Python [float]: an IEEE 754 binary64 number. *)
Definition pyfloat := float.

Definition fdiv (x y : pyfloat) : pyfloat := PrimFloat.div x y.
Definition fmul (x y : pyfloat) : pyfloat := PrimFloat.mul x y.

(** The literal [100.0]. *)
Definition hundred : pyfloat := 100%float.

(** [_PyUnicode_TransformDecimalAndSpaceToASCII]: below 127 a character is
    kept; above, white space becomes a blank, and anything that is not a
    decimal digit becomes ['?'] and ends the string.  No code point in
    127..255 is a decimal digit. *)
Fixpoint to_ascii_decimal (s : pystr) : pystr :=
  match s with
  | [] => []
  | c :: t =>
      if code c <? 127 then c :: to_ascii_decimal t
      else if isspace c then " "%char :: to_ascii_decimal t
      else ["?"%char]
  end.

Definition is_underscore (c : ascii) : bool := code c =? 95.

(** The underscore rule of numeric literals: an underscore is allowed only
    after a digit and only before a digit.  [prev] is the character read
    last ([None] at the start). *)
Fixpoint underscores_ok (prev : option ascii) (s : pystr) : bool :=
  match s with
  | [] => match prev with Some p => negb (is_underscore p) | None => true end
  | c :: t =>
      (if is_underscore c
       then match prev with Some p => isdigit p | None => false end
       else match prev with
            | Some p => if is_underscore p then isdigit c else true
            | None => true
            end)
      && underscores_ok (Some c) t
  end.

Definition remove_underscores (s : pystr) : pystr :=
  List.filter (fun c => negb (is_underscore c)) s.

Definition digits_val (ds : pystr) : Z :=
  fold_left (fun acc c => 10 * acc + digit_val c) ds 0.

Definition all_digits (ds : pystr) : bool := forallb isdigit ds.

(** An optional sign. [true] is minus. *)
Definition split_sign (s : pystr) : bool * pystr :=
  match s with
  | c :: t =>
      if code c =? 45 then (true, t)
      else if code c =? 43 then (false, t)
      else (false, s)
  | [] => (false, [])
  end.

(** [int(s)] for a [str] in base 10; [None] is [ValueError]. *)
Definition py_int (s : pystr) : option Z :=
  let s1 := strip_with c_isspace (to_ascii_decimal s) in
  let '(neg, body) := split_sign s1 in
  if underscores_ok None body then
    let ds := remove_underscores body in
    match ds with
    | [] => None
    | _ :: _ =>
        if all_digits ds
        then Some (if neg then - digits_val ds else digits_val ds)
        else None
    end
  else None.

(** Cut [s] at the first character satisfying [p]; the separator is
    dropped.  The second component is [None] when there is none. *)
Fixpoint cut_at (p : ascii -> bool) (s : pystr) : pystr * option pystr :=
  match s with
  | [] => ([], None)
  | c :: t =>
      if p c then ([], Some t)
      else let '(a, b) := cut_at p t in (c :: a, b)
  end.

Definition is_dot (c : ascii) : bool := code c =? 46.
Definition is_exp_mark (c : ascii) : bool := (code c =? 101) || (code c =? 69).

(** The correctly rounded binary64 value of [(-1)^neg * m * 10^e]
    for [m >= 0], as C's [strtod] computes it: the exact integer rounded
    once, or the exact quotient of two integers rounded once. *)
Definition decimal_to_float (neg : bool) (m e : Z) : pyfloat :=
  SF2Prim
    match m with
    | Zpos p =>
        if 0 <=? e
        then binary_normalize prec emax ((if neg then Zneg p else Zpos p) * 10 ^ e) 0 false
        else SFdiv prec emax (S754_finite neg p 0)
                   (S754_finite false (Z.to_pos (10 ^ (- e))) 0)
    | _ => S754_zero neg
    end.

(** An optional sign and one digit at least: the exponent of a decimal
    literal, after the [e]. *)
Definition signed_digits (s : pystr) : option Z :=
  let '(neg, ds) := split_sign s in
  match ds with
  | [] => None
  | _ :: _ =>
      if all_digits ds
      then Some (if neg then - digits_val ds else digits_val ds)
      else None
  end.

(** A decimal literal without its sign: digits, an optional point and
    digits (one digit at least in all), an optional exponent. *)
Definition parse_decimal (neg : bool) (body : pystr) : option pyfloat :=
  let '(mant, ex) := cut_at is_exp_mark body in
  let '(ip, fr) := cut_at is_dot mant in
  let fp := match fr with Some f => f | None => [] end in
  if all_digits ip && all_digits fp && negb (bool_decide (ip ++ fp = [])) then
    match ex with
    | None =>
        Some (decimal_to_float neg (digits_val (ip ++ fp)) (- Z.of_nat (length fp)))
    | Some x =>
        match signed_digits x with
        | Some e =>
            Some (decimal_to_float neg (digits_val (ip ++ fp)) (e - Z.of_nat (length fp)))
        | None => None
        end
    end
  else None.

(** [inf], [infinity] and [nan], in any letter case. *)
Definition parse_inf_or_nan (neg : bool) (body : pystr) : option pyfloat :=
  let b := map c_lower_char body in
  if pystr_eqb b (lit "inf") || pystr_eqb b (lit "infinity")
  then Some (if neg then neg_infinity else infinity)
  else if pystr_eqb b (lit "nan") then Some nan
  else None.

(** [float(s)] for a [str]; [None] is [ValueError]. *)
Definition py_float (s : pystr) : option pyfloat :=
  let s1 := to_ascii_decimal s in
  if underscores_ok None s1 then
    let s2 := strip_with c_isspace (remove_underscores s1) in
    let '(neg, body) := split_sign s2 in
    match parse_decimal neg body with
    | Some x => Some x
    | None => parse_inf_or_nan neg body
    end
  else None.

(** [round(x)] for a finite float: the nearest integer, ties to even.
    [None] for an infinity or a NaN, where Python raises. *)
Definition py_round (x : pyfloat) : option Z :=
  match Prim2SF x with
  | S754_zero _ => Some 0
  | S754_finite s m e =>
      let mag :=
        if 0 <=? e then Z.shiftl (Zpos m) e
        else
          let q := Z.shiftr (Zpos m) (- e) in
          let r := Zpos m - Z.shiftl q (- e) in
          match Z.compare (2 * r) (Z.shiftl 1 (- e)) with
          | Lt => q
          | Gt => q + 1
          | Eq => if Z.even q then q else q + 1
          end in
      Some (if s then - mag else mag)
  | _ => None
  end.

End PyNum.

(** ** scripts/download_noaa_climate_divisions.py *)

Module ClimateDivisions.
Import PyText PyNum.

(** A cell of a value column; [None] is the missing value
    (Python's [None], the NaN that pandas fills in). *)
Definition cell := option pyfloat.

(** The composite key [(division_code, year, month)]. *)
Definition key : Type := pystr * Z * Z.

(** One dictionary appended to [data]. *)
Record record := mk_record {
  division_code : pystr;
  year : Z;
  month : Z;
  value : cell;
}.

Definition record_key (r : record) : key := (division_code r, year r, month r).

(** [range(a, b, s)] for [a <= b] and [0 < s]. *)
Definition range_step (a b s : nat) : list nat :=
  map (fun k => a + k * s)%nat (seq 0 ((b - a + s - 1) / s)).

Definition sentinel : pystr := lit "-9999".

(** Lines 54-62: one monthly field, from its five raw characters. *)
Definition decode_field (raw : pystr) : cell :=
  let value_str := strip raw in
  if negb (pystr_eqb value_str []) && negb (pystr_eqb value_str sentinel) then
    match py_float value_str with
    | Some x => Some (fdiv x hundred)
    | None => None
    end
  else None.

(** What one iteration of the line loop does. *)
Inductive line_result :=
  | Skipped                       (* [continue] at line 45 *)
  | Raised                        (* [int()] raised ValueError *)
  | Decoded (rs : list record).   (* twelve records appended *)

Definition monthly_values (line : pystr) : list cell :=
  map (fun i => decode_field (slice i (i + 5) line)) (range_step 8 68 5).

(** [enumerate(xs, 1)] *)
Definition enumerate1 {A} (xs : list A) : list (Z * A) :=
  imap (fun i x => (Z.of_nat i + 1, x)) xs.

(** Lines 43-71: the body of the loop over the lines of the file. *)
Definition decode_line (raw : pystr) : line_result :=
  let line := strip raw in
  if (length line <? 68)%nat then Skipped
  else
    let code := strip (slice 0 4 line) in
    match py_int (slice 4 8 line) with
    | None => Raised
    | Some y =>
        Decoded (map (fun mv => mk_record code y (fst mv) (snd mv))
                     (enumerate1 (monthly_values line)))
    end.

(** Reading a file: each step yields the next line or raises
    (the file cannot be opened, its bytes cannot be decoded). *)
Inductive read_event :=
  | Line (l : pystr)
  | ReadError.

Definition file := list read_event.

(** A [DataFrame] keyed by [(division_code, year, month)].  A frame built
    from an empty list of dictionaries has no columns at all, not even the
    key columns. *)
Record row := mk_row { row_key : key; row_cells : list cell }.

Inductive frame :=
  | NoColumns
  | Frame (cols : list pystr) (rows : list row).

Definition frame_rows (f : frame) : list row :=
  match f with NoColumns => [] | Frame _ rs => rs end.

(** [len(df)] *)
Definition frame_len (f : frame) : nat := length (frame_rows f).

(** The labels of the key columns. *)
Definition key_labels : list pystr := [lit "division_code"; lit "year"; lit "month"].

Definition is_key_label (col : pystr) : bool := existsb (pystr_eqb col) key_labels.

(** What [process_climate_file] returns.  In the dictionary of lines
    66-71 the value is stored last, under [data_type.lower()]: when that
    is the label of a key column, the value takes the place of that key
    in every dictionary, and the frame has the three key columns only,
    the column [label] holding the decoded values of [data]. *)
Inductive table :=
  | Keyed (df : frame)
  | KeyOverwritten (label : pystr) (data : list record).

(** [len(df)] for what [process_climate_file] returns. *)
Definition table_len (t : table) : nat :=
  match t with
  | Keyed df => frame_len df
  | KeyOverwritten _ data => length data
  end.

(** [pd.DataFrame(data)] for the dictionaries of [process_climate_file],
    whose value is stored under [col]. *)
Definition DataFrame (col : pystr) (data : list record) : table :=
  match data with
  | [] => Keyed NoColumns
  | _ :: _ =>
      if is_key_label col then KeyOverwritten col data
      else Keyed (Frame [col] (map (fun r => mk_row (record_key r) [value r]) data))
  end.

(** The loop of lines 42-71 with the handler of lines 73-75:
    [None] once anything raised. *)
Fixpoint read_lines (f : file) (data : list record) : option (list record) :=
  match f with
  | [] => Some data
  | ReadError :: _ => None
  | Line l :: rest =>
      match decode_line l with
      | Skipped => read_lines rest data
      | Raised => None
      | Decoded rs => read_lines rest (data ++ rs)
      end
  end.

(** [process_climate_file(filepath, data_type)]; [f] is what reading
    [filepath] yields. *)
Definition process_climate_file (f : file) (data_type : pystr) : option table :=
  match read_lines f [] with
  | Some data => Some (DataFrame (lower data_type) data)
  | None => None
  end.

(** *** The outer join *)

Fixpoint pystr_ltb (a b : pystr) : bool :=
  match a, b with
  | [], [] => false
  | [], _ :: _ => true
  | _ :: _, [] => false
  | x :: a', y :: b' =>
      if code x <? code y then true
      else if code y <? code x then false
      else pystr_ltb a' b'
  end.

(** Lexicographic order on keys, as pandas sorts them. *)
Definition key_ltb (a b : key) : bool :=
  let '(d1, y1, m1) := a in
  let '(d2, y2, m2) := b in
  if pystr_ltb d1 d2 then true
  else if pystr_ltb d2 d1 then false
  else if y1 <? y2 then true
  else if y2 <? y1 then false
  else m1 <? m2.

Definition key_eqb (a b : key) : bool := bool_decide (a = b).

Fixpoint insert_row (r : row) (rs : list row) : list row :=
  match rs with
  | [] => [r]
  | x :: t =>
      if key_ltb (row_key x) (row_key r) then x :: insert_row r t
      else r :: rs
  end.

(** A stable sort of the rows by key. *)
Definition sort_rows (rs : list row) : list row := foldr insert_row [] rs.

Definition nulls (n : nat) : list cell := replicate n None.

Definition matches (k : key) (rs : list row) : list row :=
  List.filter (fun r => key_eqb (row_key r) k) rs.

Definition has_key (k : key) (rs : list row) : bool :=
  existsb (fun r => key_eqb (row_key r) k) rs.

(** Rows of an outer join before sorting: every left row paired with each
    right row of its key, or padded with nulls when there is none; then
    the right rows whose key the left frame lacks, padded on the left. *)
Definition join_rows (nl nr : nat) (ls rs : list row) : list row :=
  flat_map (fun l =>
      match matches (row_key l) rs with
      | [] => [mk_row (row_key l) (row_cells l ++ nulls nr)]
      | ms => map (fun r => mk_row (row_key l) (row_cells l ++ row_cells r)) ms
      end) ls
  ++ map (fun r => mk_row (row_key r) (nulls nl ++ row_cells r))
       (List.filter (fun r => negb (has_key (row_key r) ls)) rs).

Definition mem_str (c : pystr) (cs : list pystr) : bool :=
  existsb (pystr_eqb c) cs.

(** Value columns present on both sides get the suffixes [_x] and [_y]. *)
Definition suffixed (sfx : pystr) (others cs : list pystr) : list pystr :=
  map (fun c => if mem_str c others then c ++ sfx else c) cs.

(** [pd.merge(l, r, on=['division_code', 'year', 'month'], how='outer')];
    [None] is the KeyError raised when a frame lacks the key columns. *)
Definition merge_outer (l r : frame) : option frame :=
  match l, r with
  | Frame lc ls, Frame rc rs =>
      Some (Frame (suffixed (lit "_x") rc lc ++ suffixed (lit "_y") lc rc)
                  (sort_rows (join_rows (length lc) (length rc) ls rs)))
  | _, _ => None
  end.

(** *** [main] *)

Definition files_to_download : list (pystr * pystr) :=
  [ (lit "precipitation", lit "climdiv-ca-pcpncy-v1.0.0-20250905.txt");
    (lit "max_temperature", lit "climdiv-ca-tmaxcy-v1.0.0-20250905.txt");
    (lit "min_temperature", lit "climdiv-ca-tmincy-v1.0.0-20250905.txt");
    (lit "readme", lit "climdiv-inv-readme.txt") ].

(** The provider: for a file name, [None] when the download fails, else
    what reading the downloaded file yields. *)
Definition provider := pystr -> option file.

(** Lines 101-106: the entries of [downloaded_files], in order. *)
Definition download_all (web : provider) : list (pystr * file) :=
  omap (fun df => match web (snd df) with
                  | Some f => Some (fst df, f)
                  | None => None
                  end) files_to_download.

(** Lines 112-121: the loop that fills [processed_dfs]. *)
Fixpoint process_all (downloaded : list (pystr * file)) (processed_dfs : list table)
  : list table :=
  match downloaded with
  | [] => processed_dfs
  | (data_type, f) :: rest =>
      if pystr_eqb data_type (lit "readme") then process_all rest processed_dfs
      else
        match process_climate_file f data_type with
        | Some df => process_all rest (processed_dfs ++ [df])
        | None => process_all rest processed_dfs
        end
  end.

(** Lines 126-129: [merged_df] after the loop over [processed_dfs[1:]]. *)
Fixpoint merge_loop (merged_df : frame) (dfs : list frame) : option frame :=
  match dfs with
  | [] => Some merged_df
  | df :: rest =>
      match merge_outer merged_df df with
      | Some m => merge_loop m rest
      | None => None
      end
  end.

Definition key_year (k : key) : Z := snd (fst k).
Definition key_month (k : key) : Z := snd k.

Definition year_in_range (r : row) : bool :=
  (2000 <=? key_year (row_key r)) && (key_year (row_key r) <=? 2025).

(** Line 132; a frame without a [year] column raises KeyError. *)
Definition filter_years (f : frame) : option frame :=
  match f with
  | NoColumns => None
  | Frame cs rs => Some (Frame cs (List.filter year_in_range rs))
  end.

(** A row of the saved file: the merged row and its [date],
    the first day of the month. *)
Record out_row := mk_out { out_data : row; out_date : Z * Z * Z }.

Definition add_date (r : row) : out_row :=
  mk_out r (key_year (row_key r), key_month (row_key r), 1).

Inductive main_result :=
  | NoData                                   (* line 151 *)
  | Crashed                                  (* an exception left [main] *)
  | Saved (cols : list pystr) (rows : list out_row).

(** Lines 124-151, from [processed_dfs] on. *)
Definition merge_and_save (processed_dfs : list frame) : main_result :=
  match processed_dfs with
  | [] => NoData
  | first :: rest =>
      match merge_loop first rest with
      | None => Crashed
      | Some merged =>
          match filter_years merged with
          | None => Crashed
          | Some NoColumns => Crashed
          | Some (Frame cs rs) => Saved cs (map add_date rs)
          end
      end
  end.

(** The tables as keyed frames.  Every table [main] collects is one,
    since none of its three data types is the label of a key column. *)
Definition keyed_frames (ts : list table) : list frame :=
  omap (fun t => match t with Keyed df => Some df | KeyOverwritten _ _ => None end) ts.

Definition main (web : provider) : main_result :=
  merge_and_save (keyed_frames (process_all (download_all web) [])).

End ClimateDivisions.

(** ** scripts/download_weather_data.py *)

Module Weather.
Import PyText PyNum.

(** One element of the [results] array of the provider's answer. *)
Record observation := mk_obs {
  station : pystr;
  date : pystr;
  datatype : pystr;
  obs_value : pyfloat;
}.

(** A [DataFrame] of observations; [pd.concat] appends the rows. *)
Definition dataframe := list observation.

(** Lines 151-163: the query parameters of one request. *)
Record request := mk_request {
  datasetid : pystr;
  locationid : pystr;
  datatypeid : pystr;
  startdate : pystr;
  enddate : pystr;
  units : pystr;
  limit : Z;
  offset : Z;
  stationid : option pystr;
}.

(** The decoded body of an answer. *)
Inductive body :=
  | Undecodable                    (* [response.json()] raises *)
  | WithoutResults                 (* no ['results'] entry *)
  | Results (df : dataframe).

(** What [requests.get] does for one request. *)
Inductive reply :=
  | Raises
  | Http (status_code : Z) (b : body).

Definition server := request -> reply.

Definition datatypes : list pystr := [lit "TMAX"; lit "TMIN"; lit "PRCP"].

(** [range(a, b)] on integers. *)
Definition range_int (a b : Z) : list Z :=
  map (fun i => a + Z.of_nat i) (seq 0 (Z.to_nat (b - a))).

Definition yearly_file (year : Z) : pystr :=
  lit "california_weather_" ++ str_of_int year ++ lit ".csv".

Definition combined_file (start_year end_year : Z) : pystr :=
  lit "california_weather_" ++ str_of_int start_year ++ lit "_"
    ++ str_of_int end_year ++ lit "_combined.csv".

(** The local variables of [download_weather_data_yearly], the files of
    the output directory, and the requests issued so far. *)
Record state := mk_state {
  all_data : list dataframe;
  total_records : nat;
  files : gmap pystr dataframe;
  issued : list request;
}.

(** Line 162, [if station_id:]: [None] and the empty string are false,
    and no [stationid] is sent for them. *)
Definition if_station (station_id : option pystr) : option pystr :=
  match station_id with
  | Some (c :: s) => Some (c :: s)
  | Some [] => None
  | None => None
  end.

Definition make_request (dataset_id : pystr) (station_id : option pystr)
    (year : Z) (dt : pystr) : request :=
  mk_request dataset_id (lit "FIPS:06") dt
    (str_of_int year ++ lit "-01-01") (str_of_int year ++ lit "-12-31")
    (lit "metric") 1000 1 (if_station station_id).

(** Lines 151-187: one turn of the inner loop. *)
Definition fetch_one (srv : server) (dataset_id : pystr)
    (station_id : option pystr) (year : Z) (st : state) (dt : pystr) : state :=
  let rq := make_request dataset_id station_id year dt in
  let st' := mk_state (all_data st) (total_records st) (files st) (issued st ++ [rq]) in
  match srv rq with
  | Http code b =>
      if code =? 200 then
        match b with
        | Results df =>
            mk_state (all_data st ++ [df]) (total_records st + length df)
                     (files st) (issued st')
        | WithoutResults => st'
        | Undecodable => st'          (* caught at line 184 *)
        end
      else st'
  | Raises => st'                     (* caught at line 184 *)
  end.

(** Lines 190-194: the snapshot written after the inner loop. *)
Definition save_yearly (year : Z) (st : state) : state :=
  match all_data st with
  | [] => st
  | _ :: _ =>
      mk_state (all_data st) (total_records st)
               (<[yearly_file year := concat (all_data st)]> (files st))
               (issued st)
  end.

(** Lines 144-194: one turn of the outer loop. *)
Definition fetch_year (srv : server) (dataset_id : pystr)
    (station_id : option pystr) (st : state) (year : Z) : state :=
  save_yearly year (fold_left (fetch_one srv dataset_id station_id year) datatypes st).

Definition fetch_years (srv : server) (dataset_id : pystr)
    (station_id : option pystr) (years : list Z) (st : state) : state :=
  fold_left (fetch_year srv dataset_id station_id) years st.

(** Lines 197-217. *)
Definition save_combined (start_year end_year : Z) (st : state) : state * dataframe :=
  match all_data st with
  | [] => (st, [])
  | _ :: _ =>
      let weather_df := concat (all_data st) in
      (mk_state (all_data st) (total_records st)
                (<[combined_file start_year end_year := weather_df]> (files st))
                (issued st),
       weather_df)
  end.

(** [download_weather_data_yearly(dataset_id, start_year, end_year,
    station_id)], run against [srv] in an output directory holding [fs]. *)
Definition download_weather_data_yearly (srv : server) (fs : gmap pystr dataframe)
    (dataset_id : pystr) (start_year end_year : Z) (station_id : option pystr)
  : state * dataframe :=
  save_combined start_year end_year
    (fetch_years srv dataset_id station_id (range_int start_year (end_year + 1))
       (mk_state [] 0 fs [])).

End Weather.

(** ** scripts/download_population_data.py *)

Module Census.
Import PyText PyNum.

Definition california_counties : list (pystr * pystr) :=
  map (fun p => (lit (fst p), lit (snd p)))
  [ ("Alameda", "001"); ("Alpine", "003"); ("Amador", "005"); ("Butte", "007");
    ("Calaveras", "009"); ("Colusa", "011"); ("Contra Costa", "013"); ("Del Norte", "015");
    ("El Dorado", "017"); ("Fresno", "019"); ("Glenn", "021"); ("Humboldt", "023");
    ("Imperial", "025"); ("Inyo", "027"); ("Kern", "029"); ("Kings", "031");
    ("Lake", "033"); ("Lassen", "035"); ("Los Angeles", "037"); ("Madera", "039");
    ("Marin", "041"); ("Mariposa", "043"); ("Mendocino", "045"); ("Merced", "047");
    ("Modoc", "049"); ("Mono", "051"); ("Monterey", "053"); ("Napa", "055");
    ("Nevada", "057"); ("Orange", "059"); ("Placer", "061"); ("Plumas", "063");
    ("Riverside", "065"); ("Sacramento", "067"); ("San Benito", "069"); ("San Bernardino", "071");
    ("San Diego", "073"); ("San Francisco", "075"); ("San Joaquin", "077"); ("San Luis Obispo", "079");
    ("San Mateo", "081"); ("Santa Barbara", "083"); ("Santa Clara", "085"); ("Santa Cruz", "087");
    ("Shasta", "089"); ("Sierra", "091"); ("Siskiyou", "093"); ("Solano", "095");
    ("Sonoma", "097"); ("Stanislaus", "099"); ("Sutter", "101"); ("Tehama", "103");
    ("Trinity", "105"); ("Tulare", "107"); ("Tuolumne", "109"); ("Ventura", "111");
    ("Yolo", "113"); ("Yuba", "115") ]%string.

(** [{v: k for k, v in california_counties.items()}] *)
Definition fips_to_name : gmap pystr pystr :=
  list_to_map (rev (map (fun p => (snd p, fst p)) california_counties)).

(** The request of lines 58-77: the URL and the query parameters. *)
Record request := mk_request { url : pystr; params : list (pystr * pystr) }.

Definition census_request (year : Z) (api_key : pystr) : request :=
  let '(base_url, variables) :=
    if 2010 <=? year
    then (lit "https://api.census.gov/data/2022/acs/acs5",
          lit "B01003_001E,B01001_002E,B01001_026E")
    else (lit "https://api.census.gov/data/" ++ str_of_int year ++ lit "/dec/pl",
          lit "P001001,P002002,P002026") in
  mk_request base_url
    [ (lit "get", variables); (lit "for", lit "county:*");
      (lit "in", lit "state:06"); (lit "key", api_key) ].

(** A value of the JSON table the API answers with: a string or [null]. *)
Definition json_value := option pystr.

(** The decoded answer. *)
Inductive payload :=
  | NotJson                                (* [response.json()] raises *)
  | EmptyArray                             (* [data[0]] raises *)
  | Table (header : list pystr) (rows : list (list json_value)).

Inductive reply :=
  | RequestFailed       (* RequestException, or a status [raise_for_status] rejects *)
  | Answer (p : payload).

Definition server := request -> reply.

Section Frames.

(** The numbers of a float column; they belong to the pandas library. *)
Context {number : Type}.

(** A cell of the frame. *)
Inductive cell :=
  | CStr (s : pystr)
  | CNull
  | CInt (n : Z)
  | CNum (x : number).

Record frame := mk_frame { columns : list pystr; rows : list (list cell) }.

Definition cell_of_json (v : json_value) : cell :=
  match v with Some s => CStr s | None => CNull end.

Definition max_len {A} (rs : list (list A)) : nat :=
  foldr (fun r m => Nat.max (length r) m) 0%nat rs.

(** Short rows are padded with nulls up to the longest one. *)
Definition pad_row (n : nat) (r : list cell) : list cell :=
  r ++ replicate (n - length r) CNull.

(** [pd.DataFrame(rows, columns=header)]; [None] is the ValueError raised
    when the longest row and the header differ in length. *)
Definition DataFrame (header : list pystr) (rs : list (list json_value)) : option frame :=
  match rs with
  | [] => Some (mk_frame header [])
  | _ :: _ =>
      if Nat.eqb (max_len rs) (length header)
      then Some (mk_frame header (map (fun r => pad_row (length header) (map cell_of_json r)) rs))
      else None
  end.

Definition rename_map (year : Z) : list (pystr * pystr) :=
  if 2010 <=? year
  then [ (lit "B01003_001E", lit "total_population");
         (lit "B01001_002E", lit "male_population");
         (lit "B01001_026E", lit "female_population");
         (lit "state", lit "state_fips"); (lit "county", lit "county_fips") ]
  else [ (lit "P001001", lit "total_population");
         (lit "P002002", lit "male_population");
         (lit "P002026", lit "female_population");
         (lit "state", lit "state_fips"); (lit "county", lit "county_fips") ].

Fixpoint assoc (k : pystr) (m : list (pystr * pystr)) : option pystr :=
  match m with
  | [] => None
  | (k', v) :: t => if pystr_eqb k k' then Some v else assoc k t
  end.

(** [df.rename(columns=m)] *)
Definition rename (m : list (pystr * pystr)) (f : frame) : frame :=
  mk_frame (map (fun c => match assoc c m with Some c' => c' | None => c end) (columns f))
           (rows f).

Definition count_col (c : pystr) (cs : list pystr) : nat :=
  length (List.filter (pystr_eqb c) cs).

Fixpoint index_of (c : pystr) (cs : list pystr) : nat :=
  match cs with
  | [] => 0
  | x :: t => if pystr_eqb c x then 0 else S (index_of c t)
  end.

(** [df[c]] as a column; [None] when the label is absent (KeyError) or
    names several columns (the result is then no column). *)
Definition series (c : pystr) (f : frame) : option (list cell) :=
  if Nat.eqb (count_col c (columns f)) 1
  then Some (map (fun r => default CNull (r !! index_of c (columns f))) (rows f))
  else None.

Fixpoint set_where (c : pystr) (cs : list pystr) (v : cell) (r : list cell) : list cell :=
  match cs, r with
  | x :: cs', y :: r' => (if pystr_eqb c x then v else y) :: set_where c cs' v r'
  | _, _ => r
  end.

(** [df[c] = v] for a scalar [v]: a new last column, or every column
    named [c] filled with [v]. *)
Definition assign_scalar (c : pystr) (v : cell) (f : frame) : frame :=
  if Nat.eqb (count_col c (columns f)) 0
  then mk_frame (columns f ++ [c]) (map (fun r => r ++ [v]) (rows f))
  else mk_frame (columns f) (map (set_where c (columns f) v) (rows f)).

(** The branch of [DataFrame.__setitem__] for a duplicated label: the
    value is list-like, [c] names several columns, and there are as many
    values as columns named [c]. *)
Definition one_per_column (c : pystr) (cs : list pystr) (vs : list cell) : bool :=
  Nat.ltb 1 (count_col c cs) && Nat.eqb (count_col c cs) (length vs).

(** One row of that branch: the i-th column named [c] is filled with the
    i-th value. *)
Fixpoint set_each (c : pystr) (cs : list pystr) (vs : list cell) (r : list cell)
  : list cell :=
  match cs, r with
  | x :: cs', y :: r' =>
      if pystr_eqb c x
      then default y (head vs) :: set_each c cs' (tail vs) r'
      else y :: set_each c cs' vs r'
  | _, _ => r
  end.

(** [df[c] = vs] for a column [vs] that has one value for each row: a new
    last column when no column is named [c]; in the branch for a
    duplicated label the values are taken one for each column, not one for
    each row; otherwise each row gets its value in every column named
    [c]. *)
Definition assign (c : pystr) (vs : list cell) (f : frame) : frame :=
  if Nat.eqb (count_col c (columns f)) 0
  then mk_frame (columns f ++ [c]) (zip_with (fun r v => r ++ [v]) (rows f) vs)
  else if one_per_column c (columns f) vs
  then mk_frame (columns f) (map (set_each c (columns f) vs) (rows f))
  else mk_frame (columns f) (zip_with (fun r v => set_where c (columns f) v r) (rows f) vs).

(** [pd.to_numeric(_, errors='coerce')], of the pandas library.  It
    converts a column as a whole: the type of the result (integers when
    every cell reads as one, floats otherwise), and with it the cell a
    numeric string becomes, depends on all the cells of the column.
    [to_numeric] is that conversion and [parse_number] the number pandas
    reads in one string, [None] when it reads none.  What is known of
    them is the documented contract: one cell is returned for each cell, a
    string in which no number is read becomes null, and a null stays
    null. *)
Record pandas := mk_pandas {
  parse_number : pystr -> option number;
  to_numeric : list cell -> list cell;
  to_numeric_length : forall vs, length (to_numeric vs) = length vs;
  to_numeric_coerce : forall vs i s,
    vs !! i = Some (CStr s) -> parse_number s = None ->
    to_numeric vs !! i = Some CNull;
  to_numeric_null : forall vs i,
    vs !! i = Some CNull -> to_numeric vs !! i = Some CNull;
}.

Variable pd : pandas.

(** Lines 111-112 for one column. *)
Definition coerce_column (f : option frame) (c : pystr) : option frame :=
  match f with
  | None => None
  | Some f =>
      match series c f with
      | Some vs => Some (assign c (to_numeric pd vs) f)
      | None => None
      end
  end.

Definition population_cols : list pystr :=
  [lit "total_population"; lit "male_population"; lit "female_population"].

(** [Series.map] with the FIPS dictionary on one cell. *)
Definition county_name_of (v : cell) : cell :=
  match v with
  | CStr s => match fips_to_name !! s with Some n => CStr n | None => CNull end
  | _ => CNull
  end.

Definition population_file (year : Z) : pystr :=
  lit "california_population_" ++ str_of_int year ++ lit ".csv".

(** Lines 84-123: from the decoded answer to the frame that is saved. *)
Definition build_frame (year : Z) (p : payload) : option frame :=
  match p with
  | Table header rs =>
      match DataFrame header rs with
      | Some df0 =>
          let df1 := rename (rename_map year) df0 in
          let df2 := assign_scalar (lit "year") (CInt year) df1 in
          match fold_left coerce_column population_cols (Some df2) with
          | Some df3 =>
              match series (lit "county_fips") df3 with
              | Some fips => Some (assign (lit "county_name") (map county_name_of fips) df3)
              | None => None
              end
          | None => None
          end
      | None => None
      end
  | _ => None
  end.

(** [download_census_data(year, data_dir)] against [srv], with [api_key]
    the value of CENSUS_API_KEY and [fs] the files of [data_dir]:
    the returned frame ([None] is Python's [None]) and the files after. *)
Definition download_census_data (srv : server) (api_key : pystr)
    (fs : gmap pystr frame) (year : Z) : option frame * gmap pystr frame :=
  match srv (census_request year api_key) with
  | RequestFailed => (None, fs)
  | Answer p =>
      match build_frame year p with
      | Some df => (Some df, <[population_file year := df]> fs)
      | None => (None, fs)
      end
  end.

End Frames.

Section AllYears.

Context {number : Type}.
Variable pd : @pandas number.

(** [pd.concat(frames, ignore_index=True)], of the pandas library;
    [None] when it raises. *)
Variable pd_concat : list (@frame number) -> option (@frame number).

Definition population_years : list Z := [2000; 2010; 2015; 2020; 2022; 2024].

Definition combined_population_file : pystr :=
  lit "california_population_combined.csv".

(** The provider during a run of several downloads: [web k] is what
    answers the request number [k] of the run, counted from 0.  The same
    request can so be answered differently at different times. *)
Definition provider_by_call := nat -> server.

(** Lines 145-151: one turn of the loop over the years; the state is
    [all_data] and the files of the data directory, and [srv] is what
    answers the request of this turn. *)
Definition collect_year (srv : server) (api_key : pystr)
    (st : list (@frame number) * gmap pystr (@frame number)) (year : Z)
  : list (@frame number) * gmap pystr (@frame number) :=
  match download_census_data pd srv api_key (snd st) year with
  | (Some df, fs') => (fst st ++ [df], fs')
  | (None, fs') => (fst st, fs')
  end.

(** The loop from its turn number [k] on; each turn issues one request. *)
Fixpoint collect_years (web : provider_by_call) (api_key : pystr) (k : nat)
    (years : list Z) (st : list (@frame number) * gmap pystr (@frame number))
  : list (@frame number) * gmap pystr (@frame number) :=
  match years with
  | [] => st
  | year :: rest =>
      collect_years web api_key (S k) rest (collect_year (web k) api_key st year)
  end.

Inductive run_result :=
  | NoData                              (* line 169: returns [None] *)
  | Combined (df : @frame number)       (* line 166 *)
  | ConcatRaised                        (* line 155 raises *)
  | SummaryRaised.                      (* line 163 raises, after the file is written *)

(** [download_all_population_data()].  The summary of line 163 reads
    [combined_df['year'].unique()], which needs the label [year] to name
    one column. *)
Definition download_all_population_data (web : provider_by_call) (api_key : pystr)
    (fs : gmap pystr (@frame number)) : run_result * gmap pystr (@frame number) :=
  let '(all_data, fs1) := collect_years web api_key 0 population_years ([], fs) in
  match all_data with
  | [] => (NoData, fs1)
  | _ :: _ =>
      match pd_concat all_data with
      | Some combined_df =>
          (if Nat.eqb (count_col (lit "year") (columns combined_df)) 1
              && negb (Nat.eqb (count_col (lit "county_name") (columns combined_df)) 0)
           then Combined combined_df else SummaryRaised,
           <[combined_population_file := combined_df]> fs1)
      | None => (ConcatRaised, fs1)
      end
  end.

End AllYears.

End Census.

(** ** Vocabulary of the properties *)

(** The re-encoding of a decoded monthly value back to the provider's
    fixed-point integer.  The scripts do not contain it; it is the inverse
    the decoder is measured against. *)
Module Reencode.
Import PyText PyNum ClimateDivisions.

(** The integer a fixed-width field holds: an optional sign and digits. *)
Definition field_int (f : pystr) : option Z := signed_digits (strip f).

(** The [k]-th monthly field of a stripped line, [k] from 0. *)
Definition monthly_field (k : nat) (line : pystr) : pystr :=
  slice (8 + 5 * k) (8 + 5 * k + 5) line.

(** A line long enough, whose year reads as an integer and whose twelve
    monthly fields each hold an integer. *)
Definition well_formed (raw : pystr) : bool :=
  let line := strip raw in
  (68 <=? length line)%nat
  && bool_decide (is_Some (py_int (slice 4 8 line)))
  && forallb (fun k => bool_decide (is_Some (field_int (monthly_field k line)))) (seq 0 12).

(** Times 100, the sentinel for null, nothing else. *)
Definition reencode_exact (c : cell) : pyfloat :=
  match c with
  | None => (-9999)%float
  | Some x => fmul x hundred
  end.

(** Times 100 rounded to the nearest integer, the sentinel for null. *)
Definition reencode (c : cell) : option Z :=
  match c with
  | None => Some (-9999)
  | Some x => py_round (fmul x hundred)
  end.

(** The characters of a signed integer literal. *)
Definition numchar (c : ascii) : bool :=
  isdigit c || (code c =? 43) || (code c =? 45).

(** [P] on every integer of [lo, lo + n). *)
Fixpoint forall_range (n : nat) (lo : Z) (P : Z -> bool) : bool :=
  match n with
  | O => true
  | S n' => P lo && forall_range n' (lo + 1) P
  end.

Definition opt_Z_eqb (a : option Z) (b : Z) : bool :=
  match a with Some z => z =? b | None => false end.

(** Decoding then re-encoding the integer [m] gives it back. *)
Definition roundtrip_ok (m : Z) : bool :=
  opt_Z_eqb (reencode (Some (fdiv (of_uint63 (Uint63.of_Z m)) hundred))) m.

(** The same for [-m]. *)
Definition roundtrip_neg_ok (m : Z) : bool :=
  opt_Z_eqb (reencode (Some (fdiv (- of_uint63 (Uint63.of_Z m))%float hundred))) (- m).

End Reencode.

(** Sample inputs and the vocabulary of tables: keys, look-ups, and the
    two halves of an outer join. *)
Module Tables.
Import PyText PyNum ClimateDivisions.

(** A line whose first monthly field holds 29. *)
Definition line_29 : pystr :=
  lit "04012000   29-9999  123  456  789 1011 1213 1415 1617 1819 2021 2223".

(** A line whose first monthly field holds no number. *)
Definition line_abcde : pystr :=
  lit "04012000abcde-9999  123  456  789 1011 1213 1415 1617 1819 2021 2223".

(** A step of reading that makes [process_climate_file] give up: the
    read itself raises, or the year of a long enough line is no integer. *)
Definition raises (ev : read_event) : bool :=
  match ev with
  | ReadError => true
  | Line l => match decode_line l with Raised => true | _ => false end
  end.

(** A file with a good line, then a line whose year is not a number. *)
Definition bad_year_file : file :=
  [ Line line_29;
    Line (lit "0401year   29-9999  123  456  789 1011 1213 1415 1617 1819 2021 2223") ].

(** The keys of the rows of a frame, as a list and as a set. *)
Definition keys (rs : list row) : list key := map row_key rs.

Definition keys_of (f : frame) : gset key := list_to_set (keys (frame_rows f)).

Definition ncols (f : frame) : nat :=
  match f with NoColumns => 0%nat | Frame cs _ => length cs end.

(** The value cells of the row of key [k], nulls when there is none. *)
Definition lookup_cells (rs : list row) (n : nat) (k : key) : list cell :=
  match List.find (fun r => key_eqb (row_key r) k) rs with
  | Some r => row_cells r
  | None => nulls n
  end.

Definition cells_at (f : frame) (k : key) : list cell :=
  lookup_cells (frame_rows f) (ncols f) k.

(** The keyed frame decoded from a file, [NoColumns] when there is none. *)
Definition table_of (f : file) (data_type : pystr) : frame :=
  match process_climate_file f data_type with
  | Some (Keyed df) => df
  | _ => NoColumns
  end.

(** Three tables whose keys overlap in part: 2000 in all three, 2001 in
    precipitation only, 1999 in minimum temperature only. *)
Definition line_2001 : pystr :=
  lit "04012001   10   20   30   40   50   60   70   80   90  100  110  120".

Definition line_1999 : pystr :=
  lit "04011999   11   21   31   41   51   61   71   81   91  101  111  121".

Definition sample_P : frame := table_of [Line line_29; Line line_2001] (lit "precipitation").
Definition sample_T : frame := table_of [Line line_29] (lit "max_temperature").
Definition sample_M : frame := table_of [Line line_1999; Line line_29] (lit "min_temperature").

(** A frame with columns. *)
Definition has_columns (f : frame) : bool :=
  match f with NoColumns => false | Frame _ _ => true end.

(** The row [o] carries the row [r]: it has its key, and its value cells
    among its own. *)
Definition row_carries (o r : row) : Prop :=
  row_key o = row_key r /\
  exists before after, row_cells o = before ++ row_cells r ++ after.

(** The records a line contributes. *)
Definition records_of (raw : pystr) : list record :=
  match decode_line raw with Decoded rs => rs | _ => [] end.

(** The rows an outer join makes of the left rows, and of the right rows
    whose key the left frame lacks, when no key repeats on the right. *)
Definition left_rows (nr : nat) (ls rs : list row) : list row :=
  map (fun l => mk_row (row_key l) (row_cells l ++ lookup_cells rs nr (row_key l))) ls.

Definition right_rows (nl : nat) (ls rs : list row) : list row :=
  map (fun r => mk_row (row_key r) (nulls nl ++ row_cells r))
      (List.filter (fun r => negb (has_key (row_key r) ls)) rs).

End Tables.

(** The units the weather loop fetches. *)
Module WeatherUnits.
Import PyText PyNum Weather.

(** The frame a request brings in: one when the answer has status 200
    and a [results] entry, none otherwise. *)
Definition unit_of (srv : server) (rq : request) : list dataframe :=
  match srv rq with
  | Http code (Results df) => if code =? 200 then [df] else []
  | _ => []
  end.

Definition requests_of_year (dataset_id : pystr) (station_id : option pystr)
    (year : Z) : list request :=
  map (make_request dataset_id station_id year) datatypes.

Definition units_of_year (srv : server) (dataset_id : pystr)
    (station_id : option pystr) (year : Z) : list dataframe :=
  flat_map (unit_of srv) (requests_of_year dataset_id station_id year).

Definition units_of_years (srv : server) (dataset_id : pystr)
    (station_id : option pystr) (years : list Z) : list dataframe :=
  flat_map (units_of_year srv dataset_id station_id) years.

(** The state [download_weather_data_yearly] starts from. *)
Definition initial (fs : gmap pystr dataframe) : state := mk_state [] 0 fs [].

(** A provider that fails on every TMIN request, answers 503 for PRCP in
    2021, and serves one observation for anything else. *)
Definition flaky_server : server := fun rq =>
  if pystr_eqb (datatypeid rq) (lit "TMIN") then Raises
  else if pystr_eqb (datatypeid rq) (lit "PRCP")
          && pystr_eqb (startdate rq) (lit "2021-01-01")
  then Http 503 Undecodable
  else Http 200 (Results [mk_obs (lit "GHCND:USW00023234") (startdate rq)
                                 (datatypeid rq) 12.5%float]).

End WeatherUnits.

(** The shape of a Census answer and the comparison of two frames. *)
Module CensusShape.
Import PyText PyNum Census.

Section Shape.
Context {number : Type}.

(** The header after [rename]. *)
Definition renamed_header (year : Z) (header : list pystr) : list pystr :=
  map (fun c => match assoc c (rename_map year) with Some c' => c' | None => c end) header.

(** What the answer must look like for lines 88-120 not to raise: no row
    longer than the header unless one is exactly as long, and each of the
    four columns the code reads present once. *)
Definition shape_ok (year : Z) (header : list pystr) (rs : list (list json_value)) : bool :=
  match rs with [] => true | _ :: _ => Nat.eqb (max_len rs) (length header) end
  && forallb (fun c => Nat.eqb (count_col c (renamed_header year header)) 1)
       (population_cols ++ [lit "county_fips"]).

(** Every row is as wide as the header. *)
Definition rectangular (f : @frame number) : Prop :=
  Forall (fun r => length r = length (columns f)) (rows f).

(** Two rows agree wherever the column is not [year]. *)
Definition rows_agree (cs : list pystr) (r1 r2 : list (@cell number)) : Prop :=
  length r1 = length r2 /\
  forall j, cs !! j <> Some (lit "year") -> r1 !! j = r2 !! j.

(** Two frames equal except for the content of the [year] column. *)
Definition same_but_year (f1 f2 : @frame number) : Prop :=
  columns f1 = columns f2 /\ Forall2 (rows_agree (columns f1)) (rows f1) (rows f2).

Definition opt_same_but_year (o1 o2 : option (@frame number)) : Prop :=
  match o1, o2 with
  | Some f1, Some f2 => same_but_year f1 f2
  | None, None => True
  | _, _ => False
  end.

End Shape.

(** An answer with one county whose male population is not a number. *)
Definition sample_header : list pystr :=
  [lit "B01003_001E"; lit "B01001_002E"; lit "B01001_026E"; lit "state"; lit "county"].

Definition sample_rows : list (list json_value) :=
  [ [Some (lit "1682353"); Some (lit "N/A"); Some (lit "852672"); Some (lit "06"); Some (lit "001")];
    [Some (lit "1204"); Some (lit "640"); None; Some (lit "06"); Some (lit "003")] ].

Definition sample_server : server := fun _ => Answer (Table sample_header sample_rows).

End CensusShape.

(** What a whole file decodes to. *)
Module FileRecords.
Import PyText PyNum ClimateDivisions Tables.

(** The records a reading step contributes. *)
Definition event_records (ev : read_event) : list record :=
  match ev with Line l => records_of l | ReadError => [] end.

Definition file_records (f : file) : list record := flat_map event_records f.

(** Is the line long enough to be processed? *)
Definition is_long (ev : read_event) : bool :=
  match ev with
  | Line l => (68 <=? length (strip l))%nat
  | ReadError => false
  end.

Definition long_lines (f : file) : nat := length (List.filter is_long f).

(** The division code and the year a line stands for, when it decodes. *)
Definition line_id (ev : read_event) : option (pystr * Z) :=
  match event_records ev with
  | r :: _ => Some (division_code r, year r)
  | [] => None
  end.

Definition line_ids (f : file) : list (pystr * Z) := omap line_id f.

(** Every row has one cell per value column. *)
Definition rect (f : frame) : Prop :=
  match f with
  | NoColumns => True
  | Frame cs rs => Forall (fun r => length (row_cells r) = length cs) rs
  end.

(** The three files [main] turns into tables. *)
Definition data_files : list pystr :=
  [ lit "climdiv-ca-pcpncy-v1.0.0-20250905.txt";
    lit "climdiv-ca-tmaxcy-v1.0.0-20250905.txt";
    lit "climdiv-ca-tmincy-v1.0.0-20250905.txt" ].

(** A provider serving one long line for precipitation and nothing else. *)
Definition one_file_provider : provider := fun name =>
  if pystr_eqb name (lit "climdiv-ca-pcpncy-v1.0.0-20250905.txt")
  then Some [Line line_29] else None.

End FileRecords.

(** The cells of the frame the Census download builds. *)
Module CensusCells.
Import PyText PyNum Census CensusShape.

Section Cells.
Context {number : Type}.
Variable pd : @pandas number.

(** The frame a download returns when [srv] answers its request; it does
    not depend on the files already there. *)
Definition frame_of (srv : server) (api_key : pystr) (year : Z) : option (@frame number) :=
  match srv (census_request year api_key) with
  | Answer p => build_frame pd year p
  | RequestFailed => None
  end.

(** A row of the answer as the frame first holds it. *)
Definition padded (header : list pystr) (r : list json_value) : list (@cell number) :=
  pad_row (length header) (map cell_of_json r).

(** What the answer holds in row [r] at position [j]; null where the row
    is too short. *)
Definition raw_cell (r : list json_value) (j : nat) : @cell number :=
  match r !! j with Some v => cell_of_json v | None => CNull end.

(** The column of the answer at position [j]. *)
Definition raw_column (rs : list (list json_value)) (j : nat) : list (@cell number) :=
  map (fun r => raw_cell r j) rs.

(** The column of a frame at position [j]. *)
Definition column_at (j : nat) (f : @frame number) : list (@cell number) :=
  map (fun r => default CNull (r !! j)) (rows f).

(** How many columns named [c] stand before position [j]. *)
Definition rank (c : pystr) (cs : list pystr) (j : nat) : nat := count_col c (take j cs).

(** The county name of a row of the answer, from the value at position
    [jf], the place of the API's [county]. *)
Definition county_cell (jf : nat) (r : list json_value) : @cell number :=
  county_name_of (raw_cell r jf).

(** The turns of the loop over the years from turn number [k] on: the
    number of each turn and its year. *)
Definition turns (k : nat) (years : list Z) : list (nat * Z) :=
  imap (fun i y => ((k + i)%nat, y)) years.

(** The frame the download of a turn returns. *)
Definition frame_of_turn (web : provider_by_call) (api_key : pystr) (t : nat * Z)
  : option (@frame number) :=
  frame_of (web (fst t)) api_key (snd t).

(** The frame of a turn, if the turn is for the year [y]. *)
Definition frame_for (web : provider_by_call) (api_key : pystr) (y : Z) (t : nat * Z)
  : option (@frame number) :=
  if Z.eqb (snd t) y then frame_of_turn web api_key t else None.

End Cells.

Definition is_population (x : pystr) : bool := existsb (pystr_eqb x) population_cols.

(** [pd.concat] on frames that all have the columns of the first one. *)
Definition stack_frames {number : Type} (fs : list (@frame number)) : option (@frame number) :=
  match fs with
  | [] => None
  | f :: _ => Some (mk_frame (columns f) (flat_map rows fs))
  end.

(** A conversion of a column for the examples: integers when every cell
    is a string Python reads as an integer, otherwise the floats Python
    reads, and null for what is no number. *)
Definition integer_string (v : @cell float) : bool :=
  match v with
  | CStr s =>
      match py_int s, py_float s with Some _, Some _ => true | _, _ => false end
  | _ => false
  end.

Definition integer_cell (v : @cell float) : @cell float :=
  match v with
  | CStr s => match py_int s with Some n => CInt n | None => CNull end
  | _ => v
  end.

Definition float_cell (v : @cell float) : @cell float :=
  match v with
  | CStr s => match py_float s with Some x => CNum x | None => CNull end
  | _ => v
  end.

Definition sample_to_numeric (vs : list (@cell float)) : list (@cell float) :=
  if forallb integer_string vs then map integer_cell vs else map float_cell vs.

Definition sample_pandas : @pandas float.
Proof.
  refine (@mk_pandas float py_float sample_to_numeric _ _ _).
  - intros vs. unfold sample_to_numeric.
    destruct (forallb integer_string vs); apply length_map.
  - intros vs i s Hi Hs. unfold sample_to_numeric.
    destruct (forallb integer_string vs) eqn:E.
    + exfalso. apply (proj1 (forallb_forall _ _)) with (x := CStr s) in E.
      * simpl in E. rewrite Hs in E. by destruct (py_int s).
      * apply list_elem_of_In. by apply list_elem_of_lookup_2 in Hi.
    + change (map ?g ?l) with (g <$> l). rewrite list_lookup_fmap, Hi. simpl.
      by rewrite Hs.
  - intros vs i Hi. unfold sample_to_numeric.
    destruct (forallb integer_string vs) eqn:E.
    + exfalso. apply (proj1 (forallb_forall _ _)) with (x := CNull) in E.
      * done.
      * apply list_elem_of_In. by apply list_elem_of_lookup_2 in Hi.
    + change (map ?g ?l) with (g <$> l). by rewrite list_lookup_fmap, Hi.
Defined.

(** A provider that serves the sample table for the ACS endpoint and
    fails for any other request. *)
Definition acs_only_server : server := fun rq =>
  if pystr_eqb (url rq) (lit "https://api.census.gov/data/2022/acs/acs5")
  then Answer (Table sample_header sample_rows) else RequestFailed.

(** During a run: the same, but the request of turn 3 (the year 2020)
    fails. *)
Definition acs_but_turn_3 : provider_by_call := fun k =>
  if Nat.eqb k 3 then (fun _ => RequestFailed) else acs_only_server.

(** An answer in which two columns are named [county_name]. *)
Definition named_header : list pystr :=
  [lit "B01003_001E"; lit "B01001_002E"; lit "B01001_026E"; lit "county_name";
   lit "state"; lit "county"; lit "county_name"].

Definition named_rows : list (list json_value) :=
  [ [Some (lit "1682353"); Some (lit "830000"); Some (lit "852672"); Some (lit "a");
     Some (lit "06"); Some (lit "001"); Some (lit "b")];
    [Some (lit "1204"); Some (lit "640"); Some (lit "564"); Some (lit "c");
     Some (lit "06"); Some (lit "003"); Some (lit "d")] ].

End CensusCells.

(** * Properties *)

Import PyText PyNum.

(** ** Text *)

Section StripFacts.
Variable sp : ascii -> bool.

Lemma lstrip_with_length (s : pystr) :
  (length (lstrip_with sp s) <= length s)%nat.
Proof.
  induction s as [|c t IH]; simpl; [lia|].
  destruct (sp c); simpl; lia.
Qed.

Lemma strip_with_length (s : pystr) :
  (length (strip_with sp s) <= length s)%nat.
Proof.
  unfold strip_with, rstrip_with.
  rewrite length_rev.
  etrans; [apply lstrip_with_length|].
  rewrite length_rev. apply lstrip_with_length.
Qed.

Lemma lstrip_with_spaces (ws s : pystr) :
  forallb sp ws = true -> lstrip_with sp (ws ++ s) = lstrip_with sp s.
Proof.
  induction ws as [|c t IH]; simpl; [done|].
  intros [Hc Ht]%andb_prop. rewrite Hc. auto.
Qed.

Lemma lstrip_with_app (s w : pystr) :
  lstrip_with sp (s ++ w) =
  match lstrip_with sp s with
  | [] => lstrip_with sp w
  | _ :: _ => lstrip_with sp s ++ w
  end.
Proof.
  induction s as [|c t IH]; simpl; [by destruct (lstrip_with sp w)|].
  destruct (sp c); [apply IH|done].
Qed.

Lemma lstrip_with_head (c : ascii) (t : pystr) :
  sp c = false -> lstrip_with sp (c :: t) = c :: t.
Proof. simpl. by intros ->. Qed.

Lemma lstrip_with_idem (s : pystr) :
  lstrip_with sp (lstrip_with sp s) = lstrip_with sp s.
Proof.
  induction s as [|c t IH]; simpl; [done|].
  destruct (sp c) eqn:E; [done|]. simpl. by rewrite E.
Qed.

Lemma rstrip_with_spaces (s ws : pystr) :
  forallb sp ws = true -> rstrip_with sp (s ++ ws) = rstrip_with sp s.
Proof.
  intros H. unfold rstrip_with. rewrite rev_app_distr.
  rewrite lstrip_with_spaces; [done|].
  rewrite forallb_forall in *. intros x Hx. apply H. by apply in_rev.
Qed.

Lemma strip_with_padded (ws1 s ws2 : pystr) :
  forallb sp ws1 = true -> forallb sp ws2 = true ->
  strip_with sp (ws1 ++ s ++ ws2) = strip_with sp s.
Proof.
  intros H1 H2. unfold strip_with.
  rewrite lstrip_with_spaces by done.
  rewrite lstrip_with_app.
  destruct (lstrip_with sp s) as [|c t] eqn:E.
  - assert (lstrip_with sp ws2 = []) as ->; [|done].
    clear -H2. induction ws2 as [|c t IH]; simpl; [done|].
    simpl in H2. apply andb_prop in H2 as [-> ?]. auto.
  - by apply rstrip_with_spaces.
Qed.

(** A string that neither starts nor ends with white space is its own
    strip. *)
Lemma strip_with_fixed (s : pystr) :
  match s with [] => True | c :: _ => sp c = false end ->
  match rev s with [] => True | c :: _ => sp c = false end ->
  strip_with sp s = s.
Proof.
  intros Hh Hl. unfold strip_with, rstrip_with.
  assert (lstrip_with sp s = s) as ->.
  { destruct s; [done|]. by apply lstrip_with_head. }
  assert (lstrip_with sp (rev s) = rev s) as ->.
  { destruct (rev s); [done|]. by apply lstrip_with_head. }
  apply rev_involutive.
Qed.

End StripFacts.

Lemma strip_length (s : pystr) : (length (strip s) <= length s)%nat.
Proof. apply strip_with_length. Qed.

(** ** The climate-division decoder *)

Import ClimateDivisions Reencode Tables.

(** The twelve records of a decoded line, one by one. *)
Lemma decode_line_records (raw : pystr) (rs : list record) :
  decode_line raw = Decoded rs ->
  (68 <= length (strip raw))%nat /\
  exists y, py_int (slice 4 8 (strip raw)) = Some y /\
  length rs = 12%nat /\
  forall k, (k < 12)%nat ->
    rs !! k = Some (mk_record (strip (slice 0 4 (strip raw))) y (Z.of_nat k + 1)
                              (decode_field (monthly_field k (strip raw)))).
Proof.
  unfold decode_line.
  destruct (Nat.ltb_spec (length (strip raw)) 68) as [|Hlen]; [done|].
  destruct (py_int _) as [y|] eqn:Hy; [|done].
  intros [= <-]. split; [done|]. exists y. split; [done|].
  unfold monthly_field. generalize (strip raw) as line. intros line.
  split; [reflexivity|].
  intros k Hk.
  do 12 (destruct k as [|k]; [reflexivity|]). lia.
Qed.

Lemma decode_line_short (raw : pystr) :
  (length (strip raw) < 68)%nat -> decode_line raw = Skipped.
Proof.
  intros H. unfold decode_line.
  by destruct (Nat.ltb_spec (length (strip raw)) 68); [|lia].
Qed.

Lemma read_lines_skip (pre post : file) (l : pystr) (data : list record) :
  decode_line l = Skipped ->
  read_lines (pre ++ Line l :: post) data = read_lines (pre ++ post) data.
Proof.
  intros Hl. revert data.
  induction pre as [|ev pre IH]; intros data; simpl.
  - by rewrite Hl.
  - destruct ev as [l'|]; [|done].
    destruct (decode_line l'); auto.
Qed.

(** C7: a line shorter than 68 characters yields no record and raises
    nothing: the loop goes on to the next line, and the file decodes to
    what it decodes to without that line. *)
Theorem short_line_is_skipped (raw : pystr) :
  (length raw < 68)%nat ->
  decode_line raw = Skipped /\
  forall (pre post : file) (data : list record) (data_type : pystr),
    read_lines (pre ++ Line raw :: post) data = read_lines (pre ++ post) data /\
    process_climate_file (pre ++ Line raw :: post) data_type
      = process_climate_file (pre ++ post) data_type.
Proof.
  intros H.
  assert (decode_line raw = Skipped) as Hs.
  { apply decode_line_short. pose proof (strip_length raw). lia. }
  split; [done|]. intros pre post data dt.
  split; [by apply read_lines_skip|].
  unfold process_climate_file. by rewrite read_lines_skip.
Qed.

Lemma short_line_is_skipped_witness :
  decode_line (lit "0401 2000") = Skipped.
Proof.
  refine (proj1 (short_line_is_skipped (lit "0401 2000") _)).
  vm_compute. lia.
Defined.

(** C9: the length test of line 44 is made on the stripped line: a line
    whose stripped length is under 68 is skipped, however long the raw
    line is, and a line that passes the test is decoded from the
    positions of the stripped line: the division code from characters
    0 to 3, the year from 4 to 7, and the field of month [k + 1] from the
    five characters at [8 + 5 * k].  White space around a line therefore
    changes nothing. *)
Theorem strip_precedes_length_check (raw : pystr) :
  ((length (strip raw) < 68)%nat -> decode_line raw = Skipped) /\
  ((68 <= length (strip raw))%nat ->
     decode_line raw =
     match py_int (slice 4 8 (strip raw)) with
     | Some y =>
         Decoded (map (fun k : nat =>
                         mk_record (strip (slice 0 4 (strip raw))) y (Z.of_nat k + 1)
                           (decode_field (slice (8 + 5 * k) (8 + 5 * k + 5) (strip raw))))
                      (seq 0 12))
     | None => Raised
     end) /\
  (forall ws1 ws2,
     forallb isspace ws1 = true -> forallb isspace ws2 = true ->
     decode_line (ws1 ++ raw ++ ws2) = decode_line raw).
Proof.
  split; [exact (decode_line_short raw)|]. split.
  - intros Hlen. unfold decode_line.
    destruct (Nat.ltb_spec (length (strip raw)) 68) as [|_]; [lia|].
    generalize (strip raw) as line. intros line.
    destruct (py_int (slice 4 8 line)) as [y|]; reflexivity.
  - intros ws1 ws2 H1 H2. unfold decode_line, strip.
    by rewrite strip_with_padded.
Qed.

Lemma strip_precedes_length_check_witness :
  (let raw := replicate 10 " "%char ++ lit "0401200000029" ++ replicate 60 " "%char in
   (68 <= length raw)%nat /\ decode_line raw = Skipped) /\
  (let raw := lit "   " ++ line_29 ++ replicate 5 " "%char in
   slice 0 4 raw = lit "   0" /\
   exists rs,
     decode_line raw = Decoded rs /\
     rs !! 0%nat = Some (mk_record (lit "0401") 2000 1 (Some (fdiv 29%float hundred))) /\
     rs !! 1%nat = Some (mk_record (lit "0401") 2000 2 None) /\
     rs !! 11%nat = Some (mk_record (lit "0401") 2000 12 (Some (fdiv 2223%float hundred)))).
Proof.
  split.
  - split; [vm_compute; lia|].
    apply (proj1 (strip_precedes_length_check _)). vm_compute. lia.
  - split; [reflexivity|]. eexists. split.
    + rewrite (proj1 (proj2 (strip_precedes_length_check _))) by (vm_compute; lia).
      vm_compute. reflexivity.
    + split; [|split]; reflexivity.
Defined.



(** ** Numeric literals *)

Ltac bool_Z :=
  rewrite ?orb_true_iff, ?andb_true_iff, ?orb_false_iff, ?andb_false_iff,
    ?negb_true_iff, ?negb_false_iff,
    ?Z.leb_le, ?Z.ltb_lt, ?Z.eqb_eq, ?Z.leb_gt, ?Z.ltb_ge, ?Z.eqb_neq.

Ltac bool_Z_in H :=
  rewrite ?orb_true_iff, ?andb_true_iff, ?orb_false_iff, ?andb_false_iff,
    ?negb_true_iff, ?negb_false_iff,
    ?Z.leb_le, ?Z.ltb_lt, ?Z.eqb_eq, ?Z.leb_gt, ?Z.ltb_ge, ?Z.eqb_neq in H.

Lemma numchar_code (c : ascii) :
  numchar c = true -> code c = 43 \/ code c = 45 \/ 48 <= code c <= 57.
Proof. unfold numchar, isdigit, in_range. bool_Z. lia. Qed.

Lemma isdigit_numchar (c : ascii) : isdigit c = true -> numchar c = true.
Proof. unfold numchar. by intros ->. Qed.

Lemma to_ascii_decimal_id (v : pystr) :
  forallb numchar v = true -> to_ascii_decimal v = v.
Proof.
  induction v as [|c t IH]; simpl; [done|].
  intros [Hc Ht]%andb_prop. apply numchar_code in Hc.
  destruct (Z.ltb_spec (code c) 127); [|lia]. by rewrite IH.
Qed.

Lemma underscores_ok_numchars (prev : option ascii) (v : pystr) :
  match prev with Some p => is_underscore p = false | None => True end ->
  forallb numchar v = true -> underscores_ok prev v = true.
Proof.
  revert prev. induction v as [|c t IH]; intros prev Hp; simpl.
  - intros _. destruct prev; [by rewrite Hp|done].
  - intros [Hc Ht]%andb_prop.
    assert (is_underscore c = false) as Hu.
    { apply numchar_code in Hc. unfold is_underscore. bool_Z. lia. }
    rewrite Hu. rewrite IH; [|done|done].
    destruct prev as [p|]; [by rewrite Hp|done].
Qed.

Lemma remove_underscores_id (v : pystr) :
  forallb numchar v = true -> remove_underscores v = v.
Proof.
  induction v as [|c t IH]; simpl; [done|].
  intros [Hc Ht]%andb_prop.
  assert (is_underscore c = false) as ->.
  { apply numchar_code in Hc. unfold is_underscore. bool_Z. lia. }
  simpl. by rewrite IH.
Qed.

Lemma lstrip_with_none (sp : ascii -> bool) (v : pystr) :
  forallb (fun c => negb (sp c)) v = true -> lstrip_with sp v = v.
Proof.
  destruct v as [|c t]; simpl; [done|].
  intros [Hc _]%andb_prop. apply negb_true_iff in Hc. by rewrite Hc.
Qed.

Lemma strip_with_none (sp : ascii -> bool) (v : pystr) :
  forallb (fun c => negb (sp c)) v = true -> strip_with sp v = v.
Proof.
  intros H. unfold strip_with, rstrip_with.
  rewrite (lstrip_with_none sp v H).
  rewrite lstrip_with_none; [apply rev_involutive|].
  rewrite forallb_forall in *. intros x Hx. apply H. by apply in_rev.
Qed.

Lemma numchars_no_c_space (v : pystr) :
  forallb numchar v = true -> forallb (fun c => negb (c_isspace c)) v = true.
Proof.
  rewrite !forallb_forall. intros H c Hc. apply H, numchar_code in Hc.
  unfold c_isspace, in_range. bool_Z. lia.
Qed.

Lemma cut_at_none (p : ascii -> bool) (v : pystr) :
  forallb (fun c => negb (p c)) v = true -> cut_at p v = (v, None).
Proof.
  induction v as [|c t IH]; simpl; [done|].
  intros [Hc Ht]%andb_prop. apply negb_true_iff in Hc.
  by rewrite Hc, IH.
Qed.

Lemma digits_not (p : ascii -> bool) (ds : pystr) :
  (forall c, isdigit c = true -> p c = false) ->
  all_digits ds = true -> forallb (fun c => negb (p c)) ds = true.
Proof.
  intros Hp. unfold all_digits. rewrite !forallb_forall.
  intros H c Hc. by rewrite (Hp c (H c Hc)).
Qed.

Lemma isdigit_not_exp (c : ascii) : isdigit c = true -> is_exp_mark c = false.
Proof. unfold isdigit, in_range, is_exp_mark. bool_Z. lia. Qed.

Lemma isdigit_not_dot (c : ascii) : isdigit c = true -> is_dot c = false.
Proof. unfold isdigit, in_range, is_dot. bool_Z. lia. Qed.

(** The digits of an unsigned literal parse as a decimal literal of
    exponent zero. *)
Lemma parse_decimal_digits (neg : bool) (ds : pystr) :
  ds <> [] -> all_digits ds = true ->
  parse_decimal neg ds = Some (decimal_to_float neg (digits_val ds) 0).
Proof.
  intros Hne Hd. unfold parse_decimal.
  rewrite (cut_at_none is_exp_mark ds) by (by apply digits_not; [apply isdigit_not_exp|]).
  rewrite (cut_at_none is_dot ds) by (by apply digits_not; [apply isdigit_not_dot|]).
  rewrite Hd, app_nil_r. simpl.
  by rewrite bool_decide_eq_false_2.
Qed.

(** How a signed integer literal is laid out. *)
Lemma signed_digits_inv (v : pystr) (n : Z) :
  signed_digits v = Some n ->
  exists (neg : bool) (ds : pystr),
    split_sign v = (neg, ds) /\ ds <> [] /\ all_digits ds = true /\
    n = (if neg then - digits_val ds else digits_val ds) /\
    forallb numchar v = true /\
    (length ds + (if neg then 1 else 0) <= length v)%nat.
Proof.
  unfold signed_digits.
  destruct (split_sign v) as [neg ds] eqn:Hs.
  destruct ds as [|d ds']; [done|].
  destruct (all_digits (d :: ds')) eqn:Hd; [|done].
  intros [= <-]. exists neg, (d :: ds').
  repeat split; try done.
  - assert (forallb numchar (d :: ds') = true) as Hn.
    { unfold all_digits in Hd. rewrite forallb_forall in *.
      intros c Hc. by apply isdigit_numchar, Hd. }
    unfold split_sign in Hs. destruct v as [|c t]; [done|].
    destruct (Z.eqb_spec (code c) 45) as [E|_].
    { injection Hs as <- ->.
      apply (andb_true_intro (b1 := numchar c)). split; [|exact Hn].
      unfold numchar. rewrite E. by rewrite orb_true_r. }
    destruct (Z.eqb_spec (code c) 43) as [E|_].
    { injection Hs as <- ->.
      apply (andb_true_intro (b1 := numchar c)). split; [|exact Hn].
      unfold numchar. rewrite E. simpl. by rewrite orb_true_r. }
    injection Hs; intros; subst. exact Hn.
  - unfold split_sign in Hs. destruct v as [|c t]; [done|].
    destruct (code c =? 45); [injection Hs; intros; subst; simpl; lia|].
    destruct (code c =? 43); injection Hs; intros; subst; simpl; lia.
Qed.

(** [float()] on a signed integer literal. *)
Lemma py_float_signed_digits (v : pystr) (neg : bool) (ds : pystr) :
  split_sign v = (neg, ds) -> ds <> [] -> all_digits ds = true ->
  forallb numchar v = true ->
  py_float v = Some (decimal_to_float neg (digits_val ds) 0).
Proof.
  intros Hs Hne Hd Hn. unfold py_float.
  rewrite (to_ascii_decimal_id v Hn).
  rewrite (underscores_ok_numchars None v I Hn).
  rewrite (remove_underscores_id v Hn).
  rewrite (strip_with_none c_isspace v (numchars_no_c_space v Hn)).
  rewrite Hs. by rewrite parse_decimal_digits.
Qed.

Lemma digits_val_bound (ds : pystr) :
  all_digits ds = true -> 0 <= digits_val ds < 10 ^ Z.of_nat (length ds).
Proof.
  unfold digits_val, all_digits.
  assert (forall acc, forallb isdigit ds = true -> 0 <= acc ->
            acc * 10 ^ Z.of_nat (length ds)
              <= fold_left (fun a c => 10 * a + digit_val c) ds acc
              < (acc + 1) * 10 ^ Z.of_nat (length ds)) as H.
  { induction ds as [|c t IH]; intros acc Hd Hacc.
    - simpl. lia.
    - simpl in Hd. apply andb_prop in Hd as [Hc Ht].
      unfold isdigit, in_range in Hc. bool_Z_in Hc.
      cbn [fold_left length].
      specialize (IH (10 * acc + digit_val c) Ht ltac:(unfold digit_val; lia)).
      rewrite Nat2Z.inj_succ, Z.pow_succ_r by lia.
      assert (0 <= digit_val c <= 9) as Hdv by (unfold digit_val; lia).
      pose proof (Z.pow_pos_nonneg 10 (Z.of_nat (length t)) ltac:(lia) ltac:(lia)) as Hpos.
      revert IH Hdv Hpos Hacc.
      generalize (fold_left (fun a c0 => 10 * a + digit_val c0) t (10 * acc + digit_val c)).
      generalize (10 ^ Z.of_nat (length t)). generalize (digit_val c).
      intros dv X F IH Hdv Hpos Hacc. nia. }
  intros Hd. specialize (H 0 Hd ltac:(lia)). lia.
Qed.

(** ** Integer literals in binary64 *)

Lemma binary_round_aux_neg (m e : Z) (l : location) :
  binary_round_aux prec emax true m e l
  = SFopp (binary_round_aux prec emax false m e l).
Proof.
  unfold binary_round_aux.
  destruct (shr_fexp prec emax m e l) as [mrs' e'].
  destruct (shr_fexp prec emax _ e' loc_Exact) as [mrs'' e''].
  destruct (shr_m mrs''); [done| |done].
  by destruct (Z.leb e'' (Z.sub emax prec)).
Qed.

Lemma binary_round_neg (p : positive) (e : Z) :
  binary_round prec emax true p e = SFopp (binary_round prec emax false p e).
Proof.
  unfold binary_round.
  destruct (shl_align p e _) as [mz ez].
  apply binary_round_aux_neg.
Qed.

Lemma to_Z_of_Z (m : Z) :
  0 <= m < 2 ^ 63 -> Uint63.to_Z (Uint63.of_Z m) = m.
Proof.
  intros H. rewrite Uint63.of_Z_spec. apply Z.mod_small.
  change Uint63.wB with (2 ^ 63). lia.
Qed.

(** A positive integer below [2^63] read as a decimal literal is the
    float the machine converts that integer to. *)
Lemma decimal_to_float_int (neg : bool) (m : Z) :
  0 < m < 2 ^ 63 ->
  decimal_to_float neg m 0
  = if neg then (- of_uint63 (Uint63.of_Z m))%float else of_uint63 (Uint63.of_Z m).
Proof.
  intros Hm. destruct m as [|p|p]; [lia| |lia].
  unfold decimal_to_float.
  change (0 <=? 0) with true. cbv iota.
  change (10 ^ 0) with 1. rewrite Z.mul_1_r.
  pose proof (of_uint63_spec (Uint63.of_Z (Zpos p))) as Hs.
  change (Uint63Axioms.to_Z (Uint63.of_Z (Z.pos p)))
    with (Uint63.to_Z (Uint63.of_Z (Z.pos p))) in Hs.
  rewrite to_Z_of_Z in Hs by lia.
  destruct neg.
  - rewrite <- (SF2Prim_Prim2SF (- of_uint63 (Uint63.of_Z (Z.pos p)))).
    f_equal. rewrite opp_spec, Hs.
    change (binary_normalize prec emax (Z.neg p) 0 false)
      with (binary_round prec emax true p 0).
    apply binary_round_neg.
  - rewrite <- (SF2Prim_Prim2SF (of_uint63 (Uint63.of_Z (Z.pos p)))).
    f_equal. by rewrite Hs.
Qed.

Lemma forall_range_spec (P : Z -> bool) (n : nat) (lo : Z) :
  forall_range n lo P = true ->
  forall z, lo <= z < lo + Z.of_nat n -> P z = true.
Proof.
  revert lo. induction n as [|n IH]; intros lo H z Hz; [lia|].
  simpl in H. apply andb_prop in H as [H0 H1].
  destruct (Z.eq_dec z lo) as [->|Hne]; [done|].
  apply (IH (lo + 1) H1). lia.
Qed.

Lemma opt_Z_eqb_true (a : option Z) (b : Z) :
  opt_Z_eqb a b = true -> a = Some b.
Proof.
  destruct a as [z|]; simpl; [|done]. by intros ->%Z.eqb_eq.
Qed.

(** Every integer a five-character field can hold survives the division
    by 100.0 followed by the multiplication by 100 and the rounding:
    five digits at most without a sign, four with one. *)
Lemma roundtrip_table :
  forall_range (Z.to_nat 100000) 0 roundtrip_ok = true.
Proof. vm_cast_no_check (eq_refl true). Qed.

Lemma roundtrip_neg_table :
  forall_range (Z.to_nat 10000) 0 roundtrip_neg_ok = true.
Proof. vm_cast_no_check (eq_refl true). Qed.

Lemma reencode_decimal (neg : bool) (m : Z) :
  0 <= m < (if neg then 10000 else 100000) ->
  reencode (Some (fdiv (decimal_to_float neg m 0) hundred))
  = Some (if neg then - m else m).
Proof.
  intros Hm.
  destruct (Z.eq_dec m 0) as [->|Hne].
  { destruct neg; vm_compute; reflexivity. }
  rewrite decimal_to_float_int by (destruct neg; lia).
  destruct neg.
  - apply opt_Z_eqb_true.
    apply (forall_range_spec _ _ _ roundtrip_neg_table m). lia.
  - apply opt_Z_eqb_true.
    apply (forall_range_spec _ _ _ roundtrip_table m). lia.
Qed.

Lemma slice_length (a b : nat) (s : pystr) : (length (slice a b s) <= b - a)%nat.
Proof. unfold slice. rewrite length_take. lia. Qed.

(** A monthly field that holds an integer decodes to a cell that
    re-encodes to that integer. *)
Lemma reencode_decode_field (raw : pystr) (n : Z) :
  (length raw <= 5)%nat ->
  field_int raw = Some n ->
  reencode (decode_field raw) = Some n.
Proof.
  intros Hlen Hn. unfold field_int in Hn. unfold decode_field.
  pose proof (strip_length raw) as Hs.
  destruct (signed_digits_inv _ _ Hn) as (neg & ds & Hsp & Hne & Hd & -> & Hnum & Hl).
  unfold pystr_eqb.
  destruct (decide (strip raw = [])) as [E|E0].
  { rewrite E in Hsp. unfold split_sign in Hsp. injection Hsp; intros; subst. by destruct Hne. }
  rewrite bool_decide_eq_false_2 by done.
  destruct (decide (strip raw = sentinel)) as [E|E].
  { rewrite bool_decide_eq_true_2 by done. simpl.
    rewrite E in Hsp. vm_compute in Hsp. injection Hsp; intros; subst.
    reflexivity. }
  rewrite bool_decide_eq_false_2 by done. simpl.
  rewrite (py_float_signed_digits _ _ _ Hsp Hne Hd Hnum).
  apply reencode_decimal.
  pose proof (digits_val_bound ds Hd) as Hb.
  destruct neg.
  - assert (10 ^ Z.of_nat (length ds) <= 10 ^ 4).
    { apply Z.pow_le_mono_r; lia. }
    lia.
  - assert (10 ^ Z.of_nat (length ds) <= 10 ^ 5).
    { apply Z.pow_le_mono_r; lia. }
    lia.
Qed.

(** ** C1 and C2: what a monthly field decodes to *)

(** C1, as stated, fails: a field holding 29 decodes to 0.29, and 0.29
    times 100 is 28.999999999999996 in binary64, not 29. *)
Lemma exact_reencode_loses_29 :
  well_formed line_29 = true /\
  exists rs r,
    decode_line line_29 = Decoded rs /\ rs !! 0%nat = Some r /\
    field_int (monthly_field 0 (strip line_29)) = Some 29 /\
    reencode_exact (value r) = 0x1.cffffffffffffp+4%float /\
    PrimFloat.eqb (reencode_exact (value r)) 29%float = false.
Proof.
  split; [vm_compute; reflexivity|].
  eexists _, _. split; [vm_compute; reflexivity|].
  split; [reflexivity|].
  split; [vm_compute; reflexivity|].
  split; vm_compute; reflexivity.
Qed.

(** C1, amended: for a well-formed line, decoding and then re-encoding
    with times 100, rounding to the nearest integer and the sentinel for
    null gives back the integer each of the twelve monthly fields held. *)
Theorem decode_reencode_roundtrip (raw : pystr) :
  well_formed raw = true ->
  exists rs, decode_line raw = Decoded rs /\ length rs = 12%nat /\
    forall k, (k < 12)%nat ->
      exists r n, rs !! k = Some r /\
        field_int (monthly_field k (strip raw)) = Some n /\
        reencode (value r) = Some n.
Proof.
  unfold well_formed.
  intros [[Hlen Hy]%andb_prop Hf]%andb_prop.
  apply Nat.leb_le in Hlen. apply bool_decide_eq_true in Hy as [y Hy].
  assert (decode_line raw = Decoded (records_of raw)) as Hdec.
  { unfold records_of, decode_line.
    destruct (Nat.ltb_spec (length (strip raw)) 68); [lia|].
    by rewrite Hy. }
  exists (records_of raw). split; [done|].
  destruct (decode_line_records _ _ Hdec) as (_ & y' & _ & Hl & Hk).
  split; [done|]. intros k Hlt.
  rewrite forallb_forall in Hf.
  specialize (Hf k ltac:(apply in_seq; lia)).
  apply bool_decide_eq_true in Hf as [n Hn].
  eexists _, n. split; [by apply Hk|]. split; [done|]. simpl.
  apply reencode_decode_field; [|done].
  unfold monthly_field. pose proof (slice_length (8 + 5 * k) (8 + 5 * k + 5) (strip raw)).
  lia.
Qed.

Lemma decode_reencode_roundtrip_witness :
  exists rs, decode_line line_29 = Decoded rs /\ length rs = 12%nat /\
    forall k, (k < 12)%nat ->
      exists r n, rs !! k = Some r /\
        field_int (monthly_field k (strip line_29)) = Some n /\
        reencode (value r) = Some n.
Proof.
  apply (decode_reencode_roundtrip line_29). vm_compute. reflexivity.
Defined.

(** C2, as stated, fails: a field that is neither empty nor the sentinel
    and that [float()] rejects decodes to null, not to a number. *)
Lemma unparsable_field_is_null :
  exists rs r,
    decode_line line_abcde = Decoded rs /\ rs !! 0%nat = Some r /\
    strip (monthly_field 0 (strip line_abcde)) = lit "abcde" /\
    lit "abcde" <> [] /\ lit "abcde" <> sentinel /\
    value r = None.
Proof.
  eexists _, _. split; [vm_compute; reflexivity|].
  split; [reflexivity|]. split; [vm_compute; reflexivity|].
  split; [done|]. split; [|reflexivity]. vm_compute. discriminate.
Qed.

(** C2, amended: each monthly field is trimmed; an empty field and the
    sentinel decode to null; any other field decodes to its value divided
    by 100.0 when [float()] accepts it, and to null when it does not. *)
Theorem monthly_field_decoding (raw : pystr) (rs : list record) :
  decode_line raw = Decoded rs ->
  forall k, (k < 12)%nat ->
    exists r, rs !! k = Some r /\ month r = Z.of_nat k + 1 /\
      let f := strip (monthly_field k (strip raw)) in
      (f = [] \/ f = sentinel -> value r = None) /\
      (f <> [] -> f <> sentinel ->
         match py_float f with
         | Some x => value r = Some (fdiv x hundred)
         | None => value r = None
         end).
Proof.
  intros Hdec k Hk.
  destruct (decode_line_records _ _ Hdec) as (_ & y & _ & _ & Hrs).
  eexists. split; [by apply Hrs|]. split; [done|]. simpl.
  unfold decode_field, pystr_eqb.
  generalize (strip (monthly_field k (strip raw))). intros f. split.
  - intros [->| ->]; [done|].
    by rewrite (bool_decide_eq_true_2 (sentinel = sentinel)), andb_false_r.
  - intros H1 H2. rewrite !bool_decide_eq_false_2 by done. simpl.
    by destruct (py_float f).
Qed.

Lemma monthly_field_decoding_witness :
  exists r, records_of line_29 !! 2%nat = Some r /\ month r = 3 /\
    value r = Some (fdiv 123%float hundred).
Proof.
  destruct (monthly_field_decoding line_29 (records_of line_29)
              ltac:(vm_compute; reflexivity) 2%nat ltac:(lia))
    as (r & Hr & Hm & _ & Hv).
  exists r. split; [exact Hr|]. split; [exact Hm|].
  apply (Hv ltac:(vm_compute; discriminate) ltac:(vm_compute; discriminate)).
Defined.

(** ** A file that cannot be read or decoded *)

Lemma read_lines_raises (f : file) (data : list record) :
  existsb raises f = true -> read_lines f data = None.
Proof.
  revert data. induction f as [|ev f IH]; intros data; simpl; [done|].
  destruct ev as [l|]; simpl; [|done].
  destruct (decode_line l); simpl; auto.
Qed.

Lemma read_lines_total (f : file) (data : list record) :
  existsb raises f = false -> is_Some (read_lines f data).
Proof.
  revert data. induction f as [|ev f IH]; intros data; simpl; [by eexists|].
  destruct ev as [l|]; simpl; [|done].
  destruct (decode_line l); simpl; auto. done.
Qed.

(** ** C3: the outer join *)

(** C3, as stated, fails: when a file repeats a line, the join has more
    rows than there are distinct keys. *)
Lemma repeated_line_multiplies_rows :
  let P := table_of [Line line_29; Line line_29] (lit "precipitation") in
  let T := table_of [Line line_29] (lit "max_temperature") in
  let M := table_of [Line line_29] (lit "min_temperature") in
  exists merged,
    merge_loop P [T; M] = Some merged /\
    frame_len merged = 24%nat /\
    size (keys_of P ∪ keys_of T ∪ keys_of M) = 12%nat.
Proof.
  eexists. split; [vm_compute; reflexivity|].
  split; [reflexivity|]. vm_compute. reflexivity.
Qed.

Section OuterJoin.

Lemma key_eqb_eq (a b : key) : key_eqb a b = true <-> a = b.
Proof. unfold key_eqb. apply bool_decide_eq_true. Qed.

Lemma key_eqb_refl (a : key) : key_eqb a a = true.
Proof. by apply key_eqb_eq. Qed.

Lemma has_key_In (k : key) (ls : list row) :
  has_key k ls = true <-> In k (keys ls).
Proof.
  unfold has_key, keys. rewrite existsb_exists, in_map_iff.
  split; intros (r & H1 & H2); exists r.
  - apply key_eqb_eq in H2. done.
  - split; [done|]. by apply key_eqb_eq.
Qed.

Lemma find_absent (k : key) (rs : list row) :
  ~ In k (keys rs) -> List.find (fun r => key_eqb (row_key r) k) rs = None.
Proof.
  induction rs as [|r rs IH]; simpl; [done|]. intros H.
  destruct (key_eqb (row_key r) k) eqn:E.
  - apply key_eqb_eq in E. tauto.
  - apply IH. tauto.
Qed.

Lemma find_present (r : row) (rs : list row) :
  NoDup (keys rs) -> In r rs ->
  List.find (fun x => key_eqb (row_key x) (row_key r)) rs = Some r.
Proof.
  induction rs as [|x rs IH]; simpl; [done|].
  intros Hnd [->|Hin]; [by rewrite key_eqb_refl|].
  apply NoDup_cons in Hnd as [Hx Hnd]. rewrite list_elem_of_In in Hx.
  destruct (key_eqb (row_key x) (row_key r)) eqn:E; [|by apply IH].
  apply key_eqb_eq in E. exfalso. apply Hx. rewrite E.
  by apply in_map.
Qed.

Lemma matches_absent (k : key) (rs : list row) :
  ~ In k (keys rs) -> matches k rs = [].
Proof.
  unfold matches. induction rs as [|r rs IH]; simpl; [done|]. intros H.
  destruct (key_eqb (row_key r) k) eqn:E.
  - apply key_eqb_eq in E. tauto.
  - apply IH. tauto.
Qed.

Lemma matches_present (r : row) (rs : list row) :
  NoDup (keys rs) -> In r rs -> matches (row_key r) rs = [r].
Proof.
  unfold matches. induction rs as [|x rs IH]; simpl; [done|].
  intros Hnd Hin. apply NoDup_cons in Hnd as [Hx Hnd].
  rewrite list_elem_of_In in Hx.
  destruct Hin as [->|Hin].
  - rewrite key_eqb_refl. f_equal.
    fold (matches (row_key r) rs). by apply matches_absent.
  - destruct (key_eqb (row_key x) (row_key r)) eqn:E; [|by apply IH].
    apply key_eqb_eq in E. exfalso. apply Hx. rewrite E. by apply in_map.
Qed.

Lemma In_keys (k : key) (rs : list row) :
  In k (keys rs) <-> exists r, In r rs /\ row_key r = k.
Proof.
  unfold keys. rewrite in_map_iff. split; intros (r & ? & ?); eauto.
Qed.

Lemma In_keys_dec (k : key) (rs : list row) :
  {In k (keys rs)} + {~ In k (keys rs)}.
Proof.
  destruct (has_key k rs) eqn:E.
  - left. by apply has_key_In.
  - right. intros H%has_key_In. congruence.
Qed.

(** With unique keys on the right, a left row meets one right row at
    most, and the padding of the join is a look-up. *)
Lemma join_one (nr : nat) (l : row) (rs : list row) :
  NoDup (keys rs) ->
  match matches (row_key l) rs with
  | [] => [mk_row (row_key l) (row_cells l ++ nulls nr)]
  | ms => map (fun r => mk_row (row_key l) (row_cells l ++ row_cells r)) ms
  end
  = [mk_row (row_key l) (row_cells l ++ lookup_cells rs nr (row_key l))].
Proof.
  intros Hnd. unfold lookup_cells.
  destruct (In_keys_dec (row_key l) rs) as [Hin|Hout].
  - apply In_keys in Hin as (r & Hr & Hk). rewrite <- Hk.
    by rewrite matches_present, find_present.
  - by rewrite matches_absent, find_absent.
Qed.

Lemma flat_map_singleton {A B} (f : A -> list B) (g : A -> B) (l : list A) :
  (forall x, f x = [g x]) -> flat_map f l = map g l.
Proof.
  intros H. induction l as [|x l IH]; simpl; [done|].
  by rewrite H, IH.
Qed.

Lemma join_rows_unique (nl nr : nat) (ls rs : list row) :
  NoDup (keys rs) ->
  join_rows nl nr ls rs = left_rows nr ls rs ++ right_rows nl ls rs.
Proof.
  intros Hnd. unfold join_rows, left_rows, right_rows. f_equal.
  apply flat_map_singleton. intros l. by apply join_one.
Qed.

Lemma keys_left_rows (nr : nat) (ls rs : list row) :
  keys (left_rows nr ls rs) = keys ls.
Proof. unfold keys, left_rows. rewrite map_map. by apply map_ext. Qed.

Lemma keys_right_rows (nl : nat) (ls rs : list row) :
  keys (right_rows nl ls rs)
  = keys (List.filter (fun r => negb (has_key (row_key r) ls)) rs).
Proof. unfold keys, right_rows. rewrite map_map. by apply map_ext. Qed.

Lemma NoDup_keys_filter (p : row -> bool) (rs : list row) :
  NoDup (keys rs) -> NoDup (keys (List.filter p rs)).
Proof.
  induction rs as [|r rs IH]; simpl; [done|].
  intros [Hr Hnd]%NoDup_cons. rewrite list_elem_of_In in Hr.
  destruct (p r); [|by apply IH].
  simpl. apply NoDup_cons. split; [|by apply IH].
  rewrite list_elem_of_In. intros Hin. apply Hr. apply In_keys in Hin as (x & Hx & Hk).
  apply filter_In in Hx as [Hx _]. apply In_keys. eauto.
Qed.

Lemma In_keys_join (nl nr : nat) (ls rs : list row) (k : key) :
  NoDup (keys rs) ->
  In k (keys (join_rows nl nr ls rs)) <-> In k (keys ls) \/ In k (keys rs).
Proof.
  intros Hnd. rewrite join_rows_unique by done.
  unfold keys at 1. rewrite map_app. fold (keys (left_rows nr ls rs)).
  fold (keys (right_rows nl ls rs)).
  rewrite in_app_iff, keys_left_rows, keys_right_rows.
  split.
  - intros [H|H]; [by left|]. right.
    apply In_keys in H as (r & Hr & Hk). apply filter_In in Hr as [Hr _].
    apply In_keys. eauto.
  - intros [H|H]; [by left|].
    destruct (has_key k ls) eqn:E; [left; by apply has_key_In|]. right.
    apply In_keys in H as (r & Hr & Hk). apply In_keys. exists r.
    split; [|done]. apply filter_In. split; [done|]. by rewrite Hk, E.
Qed.

Lemma NoDup_keys_join (nl nr : nat) (ls rs : list row) :
  NoDup (keys ls) -> NoDup (keys rs) -> NoDup (keys (join_rows nl nr ls rs)).
Proof.
  intros Hl Hr. rewrite join_rows_unique by done.
  unfold keys. rewrite map_app. fold (keys (left_rows nr ls rs)).
  fold (keys (right_rows nl ls rs)).
  rewrite keys_left_rows, keys_right_rows.
  apply NoDup_app. split; [done|]. split; [|by apply NoDup_keys_filter].
  intros k Hk Hk'. apply list_elem_of_In in Hk, Hk'.
  apply In_keys in Hk' as (r & Hr' & Hrk).
  apply filter_In in Hr' as [_ Hn]. apply negb_true_iff in Hn.
  rewrite Hrk in Hn. apply has_key_In in Hk. congruence.
Qed.

Lemma row_cells_join (nl nr : nat) (ls rs : list row) (r : row) :
  NoDup (keys ls) -> NoDup (keys rs) ->
  In r (join_rows nl nr ls rs) ->
  row_cells r = lookup_cells ls nl (row_key r) ++ lookup_cells rs nr (row_key r).
Proof.
  intros Hl Hr. rewrite join_rows_unique by done.
  rewrite in_app_iff. unfold left_rows, right_rows. rewrite !in_map_iff.
  intros [(l & <- & Hin)|(x & <- & Hin)]; simpl.
  - f_equal. unfold lookup_cells. by rewrite find_present.
  - apply filter_In in Hin as [Hin Hn]. apply negb_true_iff in Hn.
    f_equal; unfold lookup_cells.
    + rewrite find_absent; [done|]. intros H%has_key_In. congruence.
    + by rewrite find_present.
Qed.

Lemma insert_row_perm (r : row) (rs : list row) :
  Permutation (insert_row r rs) (r :: rs).
Proof.
  induction rs as [|x rs IH]; simpl; [done|].
  destruct (key_ltb (row_key x) (row_key r)); [|done].
  rewrite IH. apply perm_swap.
Qed.

Lemma sort_rows_perm (rs : list row) : Permutation (sort_rows rs) rs.
Proof.
  unfold sort_rows. induction rs as [|r rs IH]; simpl; [done|].
  rewrite insert_row_perm. by rewrite IH.
Qed.

Lemma lookup_cells_absent (rs : list row) (n : nat) (k : key) :
  ~ In k (keys rs) -> lookup_cells rs n k = nulls n.
Proof. intros H. unfold lookup_cells. by rewrite find_absent. Qed.

(** The rows of an outer join of two frames with unique keys. *)
Lemma merge_rows_spec (nl nr : nat) (ls rs : list row) :
  NoDup (keys ls) -> NoDup (keys rs) ->
  let out := sort_rows (join_rows nl nr ls rs) in
  NoDup (keys out) /\
  (forall k, In k (keys out) <-> In k (keys ls) \/ In k (keys rs)) /\
  (forall k, lookup_cells out (nl + nr) k
             = lookup_cells ls nl k ++ lookup_cells rs nr k).
Proof.
  intros Hl Hr out.
  assert (Permutation out (join_rows nl nr ls rs)) as Hp by apply sort_rows_perm.
  assert (Permutation (keys out) (keys (join_rows nl nr ls rs))) as Hpk.
  { unfold keys. by apply Permutation_map. }
  assert (NoDup (keys out)) as Hnd.
  { rewrite Hpk. by apply NoDup_keys_join. }
  assert (forall k, In k (keys out) <-> In k (keys ls) \/ In k (keys rs)) as Hin.
  { intros k. rewrite <- In_keys_join by done.
    split; apply Permutation_in; [done|by symmetry]. }
  split; [done|]. split; [done|]. intros k.
  destruct (In_keys_dec k out) as [Hk|Hk].
  - apply In_keys in Hk as (r & Hr' & <-).
    unfold lookup_cells at 1. rewrite find_present by done.
    apply row_cells_join; [done|done|]. by apply (Permutation_in _ Hp).
  - rewrite lookup_cells_absent by done.
    rewrite Hin in Hk.
    rewrite !lookup_cells_absent by tauto.
    unfold nulls. apply replicate_add.
Qed.

End OuterJoin.

Lemma keys_size (rs : list row) (K : gset key) :
  NoDup (keys rs) ->
  (forall k, In k (keys rs) <-> k ∈ K) ->
  length rs = size K.
Proof.
  intros Hnd Hk.
  assert (K = list_to_set (keys rs)) as ->.
  { apply set_eq. intros k. rewrite elem_of_list_to_set, list_elem_of_In.
    symmetry. apply Hk. }
  rewrite size_list_to_set by done.
  unfold keys. by rewrite length_map.
Qed.

(** C3, amended: for three tables that each hold a key once at most, the
    outer joins of [main] give one row per distinct key of the union;
    the row carries the value cells of each table that has the key and
    nulls for each table that lacks it.  [main] then saves the rows of
    the years 2000 to 2025. *)
Theorem outer_join_of_unique_keys (pc tc mc : list pystr) (pr tr mr : list row) :
  NoDup (keys pr) -> NoDup (keys tr) -> NoDup (keys mr) ->
  let P := Frame pc pr in
  let T := Frame tc tr in
  let M := Frame mc mr in
  exists cols rows,
    merge_loop P [T; M] = Some (Frame cols rows) /\
    length rows = size (keys_of P ∪ keys_of T ∪ keys_of M) /\
    NoDup (keys rows) /\
    (forall k, In k (keys rows) <-> k ∈ keys_of P ∪ keys_of T ∪ keys_of M) /\
    (forall r, In r rows ->
       row_cells r = cells_at P (row_key r) ++ cells_at T (row_key r)
                       ++ cells_at M (row_key r)) /\
    (forall k, k ∈ keys_of P -> k ∉ keys_of T -> k ∉ keys_of M ->
       exists r, In r rows /\ row_key r = k /\
         row_cells r = cells_at P k ++ nulls (length tc) ++ nulls (length mc)) /\
    merge_and_save [P; T; M] = Saved cols (map add_date (List.filter year_in_range rows)).
Proof.
  intros Hp Ht Hm P T M.
  destruct (merge_rows_spec (length pc) (length tc) pr tr Hp Ht) as (Hnd1 & Hin1 & Hl1).
  set (rows1 := sort_rows (join_rows (length pc) (length tc) pr tr)) in *.
  set (cols1 := suffixed (lit "_x") tc pc ++ suffixed (lit "_y") pc tc).
  assert (length cols1 = (length pc + length tc)%nat) as Hc1.
  { unfold cols1, suffixed. by rewrite length_app, !length_map. }
  destruct (merge_rows_spec (length cols1) (length mc) rows1 mr Hnd1 Hm)
    as (Hnd2 & Hin2 & Hl2).
  set (rows2 := sort_rows (join_rows (length cols1) (length mc) rows1 mr)) in *.
  set (cols2 := suffixed (lit "_x") mc cols1 ++ suffixed (lit "_y") cols1 mc).
  assert (forall k, In k (keys rows2)
                    <-> k ∈ keys_of P ∪ keys_of T ∪ keys_of M) as Hkeys.
  { intros k. unfold keys_of. simpl.
    rewrite !elem_of_union, !elem_of_list_to_set, !list_elem_of_In.
    rewrite Hin2, Hin1. tauto. }
  assert (forall r, In r rows2 ->
            row_cells r = cells_at P (row_key r) ++ cells_at T (row_key r)
                            ++ cells_at M (row_key r)) as Hcells.
  { intros r Hr. unfold cells_at. simpl.
    rewrite app_assoc, <- Hl1, <- Hc1, <- Hl2.
    unfold lookup_cells at 1. by rewrite find_present. }
  exists cols2, rows2.
  split; [reflexivity|].
  split; [by apply keys_size|].
  split; [done|]. split; [done|]. split; [done|].
  split; [|reflexivity].
  intros k HkP HkT HkM.
  assert (In k (keys rows2)) as Hk.
  { apply Hkeys. by apply elem_of_union_l, elem_of_union_l. }
  apply In_keys in Hk as (r & Hr & <-).
  exists r. split; [done|]. split; [done|].
  rewrite (Hcells r Hr). f_equal.
  unfold keys_of in HkT, HkM. simpl in HkT, HkM.
  rewrite elem_of_list_to_set, list_elem_of_In in HkT, HkM.
  unfold cells_at. simpl. by rewrite !lookup_cells_absent.
Qed.

Lemma outer_join_of_unique_keys_witness :
  exists cols rows,
    merge_loop sample_P [sample_T; sample_M] = Some (Frame cols rows) /\
    length rows = 36%nat /\
    merge_and_save [sample_P; sample_T; sample_M]
      = Saved cols (map add_date (List.filter year_in_range rows)).
Proof.
  destruct (outer_join_of_unique_keys
              [lit "precipitation"] [lit "max_temperature"] [lit "min_temperature"]
              (frame_rows sample_P) (frame_rows sample_T) (frame_rows sample_M))
    as (cols & rows & Hm & Hlen & _ & _ & _ & _ & Hs).
  - apply (bool_decide_unpack _). vm_compute. exact I.
  - apply (bool_decide_unpack _). vm_compute. exact I.
  - apply (bool_decide_unpack _). vm_compute. exact I.
  - exists cols, rows. split; [exact Hm|]. split; [|exact Hs].
    rewrite Hlen. vm_compute. reflexivity.
Defined.

(** ** C6: a failing file and its siblings *)

Lemma process_all_spec (downloaded : list (pystr * file)) (dfs : list table) :
  process_all downloaded dfs
  = dfs ++ omap (fun e => if pystr_eqb (fst e) (lit "readme") then None
                          else process_climate_file (snd e) (fst e)) downloaded.
Proof.
  revert dfs. induction downloaded as [|[dt g] dl IH]; intros dfs;
    cbn [process_all omap list_omap fst snd].
  - by rewrite app_nil_r.
  - destruct (pystr_eqb dt (lit "readme")); [apply IH|].
    destruct (process_climate_file g dt) as [t|]; [|apply IH].
    rewrite IH. by rewrite <- app_assoc.
Qed.

Lemma process_all_drop (pre post : list (pystr * file)) (data_type : pystr)
    (f : file) (dfs : list table) :
  process_climate_file f data_type = None ->
  process_all (pre ++ (data_type, f) :: post) dfs = process_all (pre ++ post) dfs.
Proof.
  intros Hf. rewrite !process_all_spec, !omap_app. cbn [omap list_omap fst snd].
  rewrite Hf. by destruct (pystr_eqb data_type (lit "readme")).
Qed.

Lemma join_rows_left (nl nr : nat) (ls rs : list row) (l : row) :
  In l ls ->
  exists o, In o (join_rows nl nr ls rs) /\ row_key o = row_key l /\
    exists after, row_cells o = row_cells l ++ after.
Proof.
  intros Hl. unfold join_rows.
  destruct (matches (row_key l) rs) as [|m ms] eqn:E.
  - exists (mk_row (row_key l) (row_cells l ++ nulls nr)).
    split; [|split; [done|by eexists]].
    apply in_or_app. left. apply in_flat_map. exists l. split; [done|].
    rewrite E. by left.
  - exists (mk_row (row_key l) (row_cells l ++ row_cells m)).
    split; [|split; [done|by eexists]].
    apply in_or_app. left. apply in_flat_map. exists l. split; [done|].
    rewrite E. apply in_map_iff. exists m. split; [done|by left].
Qed.

Lemma join_rows_right (nl nr : nat) (ls rs : list row) (r : row) :
  In r rs ->
  exists o, In o (join_rows nl nr ls rs) /\ row_key o = row_key r /\
    exists before, row_cells o = before ++ row_cells r.
Proof.
  intros Hr. unfold join_rows.
  destruct (has_key (row_key r) ls) eqn:Hk.
  - unfold has_key in Hk. apply existsb_exists in Hk as (l & Hl & Hkl).
    apply key_eqb_eq in Hkl.
    exists (mk_row (row_key l) (row_cells l ++ row_cells r)).
    split; [|split; [done|by eexists]].
    apply in_or_app. left. apply in_flat_map. exists l. split; [done|].
    assert (In r (matches (row_key l) rs)) as Hm.
    { unfold matches. apply filter_In. split; [done|].
      rewrite Hkl. apply key_eqb_refl. }
    destruct (matches (row_key l) rs) as [|m ms]; [done|].
    apply in_map_iff. by exists r.
  - exists (mk_row (row_key r) (nulls nl ++ row_cells r)).
    split; [|split; [done|by eexists]].
    apply in_or_app. right. apply in_map_iff. exists r. split; [done|].
    apply filter_In. split; [done|]. by rewrite Hk.
Qed.

Lemma row_carries_trans (o m r : row) :
  row_carries o m -> row_carries m r -> row_carries o r.
Proof.
  intros [Hk1 (a1 & b1 & E1)] [Hk2 (a2 & b2 & E2)].
  split; [congruence|]. exists (a1 ++ a2), (b2 ++ b1).
  rewrite E1, E2. by rewrite <- !app_assoc.
Qed.

Lemma merge_outer_carries (l r m : frame) :
  merge_outer l r = Some m ->
  forall x, In x (frame_rows l) \/ In x (frame_rows r) ->
    exists o, In o (frame_rows m) /\ row_carries o x.
Proof.
  destruct l as [|lc ls], r as [|rc rs]; try done. intros [= <-] x Hx.
  cbn [frame_rows] in *.
  assert (exists o, In o (join_rows (length lc) (length rc) ls rs) /\ row_carries o x)
    as (o & Ho & Hc).
  { destruct Hx as [Hx|Hx].
    - destruct (join_rows_left (length lc) (length rc) ls rs x Hx)
        as (o & Ho & Hk & after & E).
      exists o. split; [done|]. split; [done|]. by exists [], after.
    - destruct (join_rows_right (length lc) (length rc) ls rs x Hx)
        as (o & Ho & Hk & before & E).
      exists o. split; [done|]. split; [done|]. exists before, [].
      by rewrite app_nil_r. }
  exists o. split; [|done].
  apply (Permutation_in _ (Permutation_sym (sort_rows_perm _))). done.
Qed.

Lemma merge_loop_carries (dfs : list frame) (first m : frame) :
  merge_loop first dfs = Some m ->
  forall df x, In df (first :: dfs) -> In x (frame_rows df) ->
    exists o, In o (frame_rows m) /\ row_carries o x.
Proof.
  revert first. induction dfs as [|d dfs IH]; intros first; cbn [merge_loop].
  - intros [= <-] df x [<-|[]] Hx. exists x. split; [done|].
    split; [done|]. exists [], []. by rewrite app_nil_r.
  - destruct (merge_outer first d) as [m1|] eqn:E1; [|done]. intros Hm df x Hdf Hx.
    assert (exists o1, In o1 (frame_rows m1) /\ row_carries o1 x \/
                       (exists df', In df' dfs /\ In x (frame_rows df') /\ o1 = x))
      as (o1 & [[Ho1 Hc1]|(df' & Hdf' & Hx' & ->)]).
    { destruct Hdf as [<-|[<-|Hdf]].
      - destruct (merge_outer_carries _ _ _ E1 x (or_introl Hx)) as (o1 & ? & ?).
        exists o1. by left.
      - destruct (merge_outer_carries _ _ _ E1 x (or_intror Hx)) as (o1 & ? & ?).
        exists o1. by left.
      - exists x. right. by exists df. }
    + destruct (IH m1 Hm m1 o1 (or_introl eq_refl) Ho1) as (o & Ho & Hc).
      exists o. split; [done|]. by apply (row_carries_trans o o1 x).
    + by apply (IH m1 Hm df' x (or_intror Hdf')).
Qed.

Lemma merge_loop_Frame (dfs : list frame) (first : frame) :
  has_columns first = true -> Forall (fun df => has_columns df = true) dfs ->
  exists cs rs, merge_loop first dfs = Some (Frame cs rs).
Proof.
  revert first. induction dfs as [|d dfs IH]; intros first Hf Hd; cbn [merge_loop].
  - destruct first; [done|]. by eexists _, _.
  - apply Forall_cons in Hd as [Hd Hds].
    destruct first as [|lc ls], d as [|rc rs]; try done. cbn [merge_outer].
    by apply IH.
Qed.

(** C6: when reading a file raises, or a line of it fails to decode,
    [process_climate_file] returns no table for that file, and that is
    all: the loop collects exactly what it collects without the failing
    file, every table a sibling file decodes to is collected, and the
    collected tables are merged and saved, each of their rows of the
    years 2000 to 2025 being carried, key and values, by a saved row. *)
Theorem failing_file_is_isolated (f : file) (data_type : pystr) :
  existsb raises f = true ->
  process_climate_file f data_type = None /\
  forall (pre post : list (pystr * file)),
    let tables := process_all (pre ++ (data_type, f) :: post) [] in
    tables = process_all (pre ++ post) [] /\
    (forall dt g t, In (dt, g) (pre ++ post) -> dt <> lit "readme" ->
       process_climate_file g dt = Some t -> In t tables) /\
    (keyed_frames tables <> [] ->
     Forall (fun df => has_columns df = true) (keyed_frames tables) ->
     exists cols rows,
       merge_and_save (keyed_frames tables) = Saved cols rows /\
       forall df r, In df (keyed_frames tables) -> In r (frame_rows df) ->
         year_in_range r = true ->
         exists o, In o rows /\ row_carries (out_data o) r).
Proof.
  intros Hf.
  assert (process_climate_file f data_type = None) as Hn.
  { unfold process_climate_file. by rewrite read_lines_raises. }
  split; [done|]. intros pre post tables. subst tables.
  rewrite (process_all_drop pre post data_type f [] Hn).
  split; [done|]. split.
  - intros dt g t Hin Hne Ht. rewrite process_all_spec. cbn [app].
    apply list_elem_of_In, list_elem_of_omap. exists (dt, g).
    split; [by apply list_elem_of_In|]. cbn [fst snd].
    unfold pystr_eqb. by rewrite bool_decide_eq_false_2.
  - generalize (keyed_frames (process_all (pre ++ post) [])). intros dfs Hne Hcols.
    destruct dfs as [|first rest]; [done|].
    apply Forall_cons in Hcols as [Hfirst Hrest].
    destruct (merge_loop_Frame rest first Hfirst Hrest) as (cs & merged & Hm).
    exists cs, (map add_date (List.filter year_in_range merged)).
    split; [unfold merge_and_save; by rewrite Hm|].
    intros df r Hdf Hr Hy.
    destruct (merge_loop_carries rest first _ Hm df r Hdf Hr) as (o & Ho & Hc).
    exists (add_date o). split; [|done].
    apply in_map. apply filter_In. split; [done|].
    unfold year_in_range in *. by rewrite (proj1 Hc).
Qed.

Lemma failing_file_is_isolated_witness :
  process_climate_file bad_year_file (lit "max_temperature") = None /\
  exists cols rows o,
    merge_and_save
      (keyed_frames
         (process_all [ (lit "precipitation", [Line line_29; Line line_2001]);
                        (lit "max_temperature", bad_year_file);
                        (lit "min_temperature", [Line line_abcde]) ] []))
    = Saved cols rows /\
    length rows = 24%nat /\
    In o rows /\
    row_carries (out_data o) (mk_row (lit "0401", 2001, 12) [Some (fdiv 120%float hundred)]).
Proof.
  destruct (failing_file_is_isolated bad_year_file (lit "max_temperature")
              ltac:(vm_compute; reflexivity)) as [H1 H2].
  split; [exact H1|].
  destruct (H2 [ (lit "precipitation", [Line line_29; Line line_2001]) ]
               [ (lit "min_temperature", [Line line_abcde]) ])
    as (_ & _ & H3).
  destruct H3 as (cols & rows & Hs & Hrows).
  - vm_compute. discriminate.
  - apply (proj2 (List.Forall_forall _ _)). vm_compute. intuition (subst; reflexivity).
  - destruct (Hrows (table_of [Line line_29; Line line_2001] (lit "precipitation"))
                    (mk_row (lit "0401", 2001, 12) [Some (fdiv 120%float hundred)]))
      as (o & Ho & Hc).
    + vm_compute. left. reflexivity.
    + vm_compute. do 23 right. left. reflexivity.
    + vm_compute. reflexivity.
    + exists cols, rows, o. split; [exact Hs|]. split; [|by split].
      cbv zeta in Hs. vm_compute in Hs. injection Hs as _ <-. reflexivity.
Defined.

(** ** Decimal file names *)

Lemma lit_cons (c : ascii) (s : string) : lit (String c s) = c :: lit s.
Proof. reflexivity. Qed.

Lemma lit_inj (s t : string) : lit s = lit t -> s = t.
Proof.
  unfold lit. intros H.
  rewrite <- (string_of_list_ascii_of_string s), <- (string_of_list_ascii_of_string t).
  by rewrite H.
Qed.

Lemma to_int_not_nil (n : Z) :
  Z.to_int n <> Decimal.Pos Decimal.Nil /\ Z.to_int n <> Decimal.Neg Decimal.Nil.
Proof.
  destruct n as [|p|p]; simpl; split; try discriminate;
    intros [= H]; by apply (DecimalPos.Unsigned.to_uint_nonnil p).
Qed.

Lemma str_of_int_inj (n m : Z) : str_of_int n = str_of_int m -> n = m.
Proof.
  unfold str_of_int. intros H%lit_inj.
  apply DecimalZ.to_int_inj.
  destruct (to_int_not_nil n) as [Hn1 Hn2], (to_int_not_nil m) as [Hm1 Hm2].
  pose proof (NilZero.isi (Z.to_int n) Hn1 Hn2) as En.
  pose proof (NilZero.isi (Z.to_int m) Hm1 Hm2) as Em.
  rewrite H in En. rewrite En in Em. by injection Em.
Qed.

Lemma uint_chars (d : Decimal.uint) :
  forallb numchar (lit (NilEmpty.string_of_uint d)) = true.
Proof.
  induction d; simpl NilEmpty.string_of_uint; [done|..];
    rewrite lit_cons; apply (andb_true_intro (conj eq_refl IHd)).
Qed.

Lemma str_of_int_chars (n : Z) : forallb numchar (str_of_int n) = true.
Proof.
  unfold str_of_int.
  assert (forall d, forallb numchar (lit (NilZero.string_of_uint d)) = true) as Hu.
  { intros d. destruct d; try apply uint_chars. reflexivity. }
  destruct (Z.to_int n) as [d|d]; simpl NilZero.string_of_int; [apply Hu|].
  rewrite lit_cons. apply (andb_true_intro (conj eq_refl (Hu d))).
Qed.

Import Weather WeatherUnits.

Lemma yearly_file_inj (y y' : Z) : yearly_file y = yearly_file y' -> y = y'.
Proof.
  unfold yearly_file. intros H%app_inv_head%app_inv_tail.
  by apply str_of_int_inj.
Qed.

Lemma yearly_not_combined (y s e : Z) : yearly_file y <> combined_file s e.
Proof.
  unfold yearly_file, combined_file. intros H%app_inv_head.
  apply (f_equal (@rev ascii)) in H.
  rewrite !rev_app_distr in H.
  change (rev (lit ".csv")) with (lit "vsc.") in H.
  change (rev (lit "_combined.csv")) with (lit "vsc." ++ lit "denibmoc_") in H.
  rewrite <- !app_assoc in H. apply app_inv_head in H.
  pose proof (str_of_int_chars y) as Hc.
  assert (forallb numchar (rev (str_of_int y)) = true) as Hr.
  { rewrite forallb_forall in *. intros c Hin. apply Hc. by apply in_rev. }
  rewrite H in Hr. vm_compute in Hr. discriminate.
Qed.

(** ** The year-chunked weather loop *)

Section WeatherLoop.
Import Weather WeatherUnits.

Variable srv : server.
Variable dataset_id : pystr.
Variable station_id : option pystr.

Lemma fetch_one_spec (year : Z) (st : state) (dt : pystr) :
  let rq := make_request dataset_id station_id year dt in
  let st' := fetch_one srv dataset_id station_id year st dt in
  all_data st' = all_data st ++ unit_of srv rq /\
  issued st' = issued st ++ [rq] /\
  files st' = files st.
Proof.
  unfold fetch_one, unit_of. cbv zeta.
  destruct (srv _) as [|code b]; [|destruct b; destruct (code =? 200)];
    simpl; by rewrite ?app_nil_r.
Qed.

Lemma fetch_datatypes_spec (year : Z) (dts : list pystr) (st : state) :
  let st' := fold_left (fetch_one srv dataset_id station_id year) dts st in
  all_data st'
    = all_data st ++ flat_map (unit_of srv) (map (make_request dataset_id station_id year) dts) /\
  issued st' = issued st ++ map (make_request dataset_id station_id year) dts /\
  files st' = files st.
Proof.
  revert st. induction dts as [|dt dts IH]; intros st; cbn [fold_left map flat_map].
  - by rewrite !app_nil_r.
  - destruct (fetch_one_spec year st dt) as (Ha & Hi & Hf).
    destruct (IH (fetch_one srv dataset_id station_id year st dt)) as (Ha' & Hi' & Hf').
    cbv zeta in *. rewrite Ha', Hi', Hf', Ha, Hi, Hf.
    by rewrite <- !app_assoc.
Qed.

Lemma fetch_year_spec (st : state) (year : Z) :
  let st' := fetch_year srv dataset_id station_id st year in
  all_data st' = all_data st ++ units_of_year srv dataset_id station_id year /\
  issued st' = issued st ++ requests_of_year dataset_id station_id year /\
  files st' = match all_data st' with
              | [] => files st
              | _ :: _ => <[yearly_file year := concat (all_data st')]> (files st)
              end.
Proof.
  unfold fetch_year, units_of_year, requests_of_year. cbv zeta.
  destruct (fetch_datatypes_spec year datatypes st) as (Ha & Hi & Hf).
  cbv zeta in *.
  set (st1 := fold_left (fetch_one srv dataset_id station_id year) datatypes st) in *.
  unfold save_yearly.
  destruct (all_data st1) as [|d ds] eqn:E.
  - rewrite E. by rewrite Hf.
  - cbn [all_data issued files]. by rewrite Hf.
Qed.

Lemma fetch_years_spec (years : list Z) (st : state) :
  let st' := fetch_years srv dataset_id station_id years st in
  all_data st' = all_data st ++ units_of_years srv dataset_id station_id years /\
  issued st' = issued st ++ flat_map (requests_of_year dataset_id station_id) years.
Proof.
  revert st. unfold fetch_years, units_of_years.
  induction years as [|y ys IH]; intros st; cbn [fold_left flat_map].
  - by rewrite !app_nil_r.
  - destruct (fetch_year_spec st y) as (Ha & Hi & _).
    destruct (IH (fetch_year srv dataset_id station_id st y)) as (Ha' & Hi').
    cbv zeta in *. rewrite Ha', Hi', Ha, Hi. by rewrite <- !app_assoc.
Qed.

Lemma fetch_years_app (ys1 ys2 : list Z) (st : state) :
  fetch_years srv dataset_id station_id (ys1 ++ ys2) st
  = fetch_years srv dataset_id station_id ys2
      (fetch_years srv dataset_id station_id ys1 st).
Proof. unfold fetch_years. apply fold_left_app. Qed.

Lemma save_combined_spec (start_year end_year : Z) (st : state) :
  let '(st', df) := save_combined start_year end_year st in
  all_data st' = all_data st /\ issued st' = issued st /\
  df = concat (all_data st) /\
  (all_data st <> [] -> files st' !! combined_file start_year end_year = Some df).
Proof.
  unfold save_combined. destruct (all_data st) as [|d ds] eqn:E.
  - rewrite E. done.
  - simpl. split; [done|]. split; [done|]. split; [done|].
    intros _. apply lookup_insert_eq.
Qed.

Lemma In_unit_of (rq : request) (u : dataframe) :
  srv rq = Http 200 (Results u) -> In u (unit_of srv rq).
Proof. unfold unit_of. intros ->. simpl. by left. Qed.

Lemma In_units_of_years (years : list Z) (y : Z) (dt : pystr) (u : dataframe) :
  In y years -> In dt datatypes ->
  srv (make_request dataset_id station_id y dt) = Http 200 (Results u) ->
  In u (units_of_years srv dataset_id station_id years).
Proof.
  intros Hy Hdt Hu. unfold units_of_years. apply in_flat_map.
  exists y. split; [done|]. unfold units_of_year. apply in_flat_map.
  exists (make_request dataset_id station_id y dt).
  split; [|by apply In_unit_of].
  unfold requests_of_year. by apply in_map.
Qed.

(** C4: whatever the provider answers, one request is issued for every
    year of the range and every datatype, in order; and the combined file
    holds every frame that was fetched with status 200 and results. *)
Theorem failures_do_not_stop_the_run
    (fs : gmap pystr dataframe) (start_year end_year : Z) :
  let run := download_weather_data_yearly srv fs dataset_id start_year end_year station_id in
  issued (fst run)
    = flat_map (requests_of_year dataset_id station_id)
               (range_int start_year (end_year + 1)) /\
  snd run = concat (units_of_years srv dataset_id station_id
                      (range_int start_year (end_year + 1))) /\
  forall (y : Z) (dt : pystr) (u : dataframe),
    In y (range_int start_year (end_year + 1)) -> In dt datatypes ->
    srv (make_request dataset_id station_id y dt) = Http 200 (Results u) ->
    files (fst run) !! combined_file start_year end_year = Some (snd run) /\
    forall o, In o u -> In o (snd run).
Proof.
  unfold download_weather_data_yearly. cbv zeta.
  pose proof (fetch_years_spec (range_int start_year (end_year + 1))
                (mk_state [] 0 fs [])) as (Ha & Hi).
  cbv zeta in Ha, Hi. simpl in Ha, Hi.
  pose proof (save_combined_spec start_year end_year
                (fetch_years srv dataset_id station_id
                   (range_int start_year (end_year + 1)) (mk_state [] 0 fs []))) as Hs.
  destruct (save_combined _ _ _) as [st df].
  destruct Hs as (Ha' & Hi' & Hdf & Hfile). simpl.
  rewrite Hi', Hi, Hdf, Ha.
  split; [done|]. split; [done|].
  intros y dt u Hy Hdt Hu.
  pose proof (In_units_of_years _ y dt u Hy Hdt Hu) as Hin.
  split.
  - rewrite <- Ha, <- Hdf. apply Hfile. rewrite Ha. intros E.
    rewrite E in Hin. done.
  - intros o Ho. apply in_concat. eauto.
Qed.

Lemma fetch_year_files_other (st : state) (y : Z) (name : pystr) :
  name <> yearly_file y ->
  files (fetch_year srv dataset_id station_id st y) !! name = files st !! name.
Proof.
  intros Hne. destruct (fetch_year_spec st y) as (_ & _ & Hf). cbv zeta in Hf.
  rewrite Hf. destruct (all_data _); [done|].
  by apply lookup_insert_ne.
Qed.

Lemma fetch_years_files_other (years : list Z) (st : state) (name : pystr) :
  (forall y, In y years -> name <> yearly_file y) ->
  files (fetch_years srv dataset_id station_id years st) !! name = files st !! name.
Proof.
  revert st. unfold fetch_years.
  induction years as [|y ys IH]; intros st H; cbn [fold_left]; [done|].
  rewrite IH by (intros y' Hy'; apply H; by right).
  apply fetch_year_files_other, H. by left.
Qed.

Lemma range_int_NoDup (a b : Z) : List.NoDup (range_int a b).
Proof.
  unfold range_int. apply Finite.Injective_map_NoDup; [|apply seq_NoDup].
  intros i j. lia.
Qed.

Lemma range_int_split (a b : Z) (before after : list Z) (y : Z) :
  range_int a b = before ++ y :: after -> ~ In y after.
Proof.
  intros H. pose proof (range_int_NoDup a b) as Hnd. rewrite H in Hnd.
  apply List.NoDup_remove_2 in Hnd. rewrite in_app_iff in Hnd. tauto.
Qed.

(** C5: once the datatype loop of a year is over, the snapshot of that
    year holds everything fetched since the start of the run, earlier
    years included, and it is still there, unchanged, when the run ends;
    the combined file written at the end holds everything fetched in the
    run. *)
Theorem snapshots_hold_the_accumulation
    (fs : gmap pystr dataframe) (start_year end_year : Z) :
  let years := range_int start_year (end_year + 1) in
  let run := download_weather_data_yearly srv fs dataset_id start_year end_year station_id in
  (forall (before after : list Z) (y : Z),
     years = before ++ y :: after ->
     let st := fetch_years srv dataset_id station_id (before ++ [y]) (initial fs) in
     fetch_years srv dataset_id station_id years (initial fs)
       = fetch_years srv dataset_id station_id after st /\
     all_data st = units_of_years srv dataset_id station_id (before ++ [y]) /\
     (all_data st <> [] ->
        files st !! yearly_file y = Some (concat (all_data st)) /\
        files (fst run) !! yearly_file y = Some (concat (all_data st)))) /\
  all_data (fst run) = units_of_years srv dataset_id station_id years /\
  snd run = concat (all_data (fst run)) /\
  (all_data (fst run) <> [] ->
     files (fst run) !! combined_file start_year end_year
       = Some (concat (all_data (fst run)))).
Proof.
  intros years run.
  assert (fst run = fst (save_combined start_year end_year
                           (fetch_years srv dataset_id station_id years (initial fs)))
          /\ snd run = snd (save_combined start_year end_year
                              (fetch_years srv dataset_id station_id years (initial fs))))
    as [Hrun1 Hrun2] by done.
  pose proof (fetch_years_spec years (initial fs)) as (Hall & _).
  cbv zeta in Hall. simpl in Hall.
  pose proof (save_combined_spec start_year end_year
                (fetch_years srv dataset_id station_id years (initial fs))) as Hs.
  destruct (save_combined _ _ _) as [st' df] eqn:Esave.
  destruct Hs as (Ha' & _ & Hdf & Hfile). simpl in Hrun1, Hrun2.
  split.
  - intros before after y Hr. cbv zeta.
    assert (fetch_years srv dataset_id station_id years (initial fs)
            = fetch_years srv dataset_id station_id after
                (fetch_years srv dataset_id station_id (before ++ [y]) (initial fs)))
      as Hsplit.
    { rewrite Hr. rewrite <- fetch_years_app, <- app_assoc. done. }
    split; [exact Hsplit|].
    pose proof (fetch_years_spec (before ++ [y]) (initial fs)) as (Ha & _).
    cbv zeta in Ha. simpl in Ha.
    split; [exact Ha|].
    intros Hne.
    assert (files (fetch_years srv dataset_id station_id (before ++ [y]) (initial fs))
              !! yearly_file y
            = Some (concat (all_data
                (fetch_years srv dataset_id station_id (before ++ [y]) (initial fs)))))
      as Hsnap.
    { revert Hne. rewrite fetch_years_app.
      set (st0 := fetch_years srv dataset_id station_id before (initial fs)).
      change (fetch_years srv dataset_id station_id [y] st0)
        with (fetch_year srv dataset_id station_id st0 y).
      destruct (fetch_year_spec st0 y) as (_ & _ & Hf). cbv zeta in Hf.
      intros Hne. rewrite Hf.
      destruct (all_data (fetch_year srv dataset_id station_id st0 y)); [done|].
      apply lookup_insert_eq. }
    split; [exact Hsnap|].
    rewrite Hrun1, <- Hsnap.
    trans (files (fetch_years srv dataset_id station_id years (initial fs))
             !! yearly_file y).
    { unfold save_combined in Esave.
      destruct (all_data (fetch_years srv dataset_id station_id years (initial fs)));
        injection Esave as <- _; [done|].
      cbn [files]. apply lookup_insert_ne. apply not_eq_sym, yearly_not_combined. }
    rewrite Hsplit. apply fetch_years_files_other.
    intros y' Hy' E. apply yearly_file_inj in E. subst y'.
    by apply (range_int_split _ _ _ _ _ Hr).
  - rewrite Hrun1, Hrun2, Ha', Hall. split; [done|].
    rewrite Hdf, Hall. split; [done|].
    intros Hne. rewrite <- Hall, <- Hdf. apply Hfile. by rewrite Hall.
Qed.

End WeatherLoop.

Import Weather WeatherUnits.

Lemma failures_do_not_stop_the_run_witness :
  let run := download_weather_data_yearly flaky_server ∅ (lit "GHCND") 2020 2022
               (Some []) in
  length (issued (fst run)) = 9%nat /\
  map stationid (issued (fst run)) = replicate 9 None /\
  files (fst run) !! combined_file 2020 2022 = Some (snd run) /\
  length (snd run) = 5%nat.
Proof.
  destruct (failures_do_not_stop_the_run flaky_server (lit "GHCND") (Some []) ∅ 2020 2022)
    as (Hi & Hs & Hall).
  cbv zeta. split; [rewrite Hi; reflexivity|].
  split; [rewrite Hi; reflexivity|].
  split; [|rewrite Hs; reflexivity].
  refine (proj1 (Hall 2022 (lit "PRCP")
            [mk_obs (lit "GHCND:USW00023234") (lit "2022-01-01") (lit "PRCP") 12.5%float]
            _ _ _)).
  - vm_compute. tauto.
  - vm_compute. tauto.
  - vm_compute. reflexivity.
Defined.

Lemma snapshots_hold_the_accumulation_witness :
  let st := fetch_years flaky_server (lit "GHCND") None [2020; 2021] (initial ∅) in
  files st !! yearly_file 2021 = Some (concat (all_data st)) /\
  length (concat (all_data st)) = 3%nat.
Proof.
  destruct (snapshots_hold_the_accumulation flaky_server (lit "GHCND") None ∅ 2020 2022)
    as (Hyear & _).
  destruct (Hyear [2020] [2022] 2021 ltac:(reflexivity)) as (_ & Ha & Hf).
  cbv zeta. split.
  - apply Hf. rewrite Ha. vm_compute. discriminate.
  - change ([2020] ++ [2021]) with [2020; 2021] in Ha. rewrite Ha. reflexivity.
Defined.

(** ** The Census download *)

Section CensusFacts.
Import Census CensusShape CensusCells.

Context {number : Type}.
Variable pd : @pandas number.

Local Abbreviation frame := (@frame number).
Local Abbreviation cell := (@cell number).

Lemma pystr_eqb_eq (a b : pystr) : pystr_eqb a b = true <-> a = b.
Proof. unfold pystr_eqb. apply bool_decide_eq_true. Qed.

Lemma pystr_eqb_neq (a b : pystr) : pystr_eqb a b = false <-> a <> b.
Proof. unfold pystr_eqb. apply bool_decide_eq_false. Qed.

Lemma pystr_eqb_refl (a : pystr) : pystr_eqb a a = true.
Proof. by apply pystr_eqb_eq. Qed.

(** *** Counting and finding columns *)

Lemma count_col_cons (c x : pystr) (cs : list pystr) :
  count_col c (x :: cs) = ((if pystr_eqb c x then 1 else 0) + count_col c cs)%nat.
Proof. unfold count_col. simpl. by destruct (pystr_eqb c x). Qed.

Lemma count_col_app (c : pystr) (cs1 cs2 : list pystr) :
  count_col c (cs1 ++ cs2) = (count_col c cs1 + count_col c cs2)%nat.
Proof. unfold count_col. by rewrite List.filter_app, length_app. Qed.

Lemma count_col_snoc (c x : pystr) (cs : list pystr) :
  count_col c (cs ++ [x]) = (count_col c cs + (if pystr_eqb c x then 1 else 0))%nat.
Proof.
  rewrite count_col_app, count_col_cons.
  change (count_col c []) with 0%nat. by destruct (pystr_eqb c x); lia.
Qed.

Lemma count_col_lookup (c : pystr) (cs : list pystr) (j : nat) :
  cs !! j = Some c -> (1 <= count_col c cs)%nat.
Proof.
  revert j. induction cs as [|x cs IH]; intros [|j]; simpl; try done;
    rewrite count_col_cons.
  - intros [= ->]. rewrite pystr_eqb_refl. lia.
  - intros H. specialize (IH j H). lia.
Qed.

(** A label that names one column names the column [index_of] finds. *)
Lemma index_of_unique (c : pystr) (cs : list pystr) (j : nat) :
  count_col c cs = 1%nat -> cs !! j = Some c -> index_of c cs = j.
Proof.
  revert j. induction cs as [|x cs IH]; intros j; simpl; [done|].
  rewrite count_col_cons. destruct (pystr_eqb c x) eqn:E; simpl.
  - intros Hc. destruct j as [|j]; [done|]. simpl. intros H.
    apply count_col_lookup in H. lia.
  - intros Hc. destruct j as [|j]; simpl.
    + intros [= ->]. apply pystr_eqb_neq in E. done.
    + intros H. f_equal. by apply IH.
Qed.

Lemma index_of_lookup (c : pystr) (cs : list pystr) :
  (1 <= count_col c cs)%nat -> cs !! index_of c cs = Some c.
Proof.
  induction cs as [|x cs IH]; simpl; [unfold count_col; simpl; lia|].
  rewrite count_col_cons. destruct (pystr_eqb c x) eqn:E; simpl.
  - intros _. apply pystr_eqb_eq in E. by subst.
  - apply IH.
Qed.

(** Fewer columns named [c] stand before a column named [c] than there
    are in all. *)
Lemma rank_lt (c : pystr) (cs : list pystr) (j : nat) :
  cs !! j = Some c -> (rank c cs j < count_col c cs)%nat.
Proof.
  intros H. unfold rank.
  rewrite <- (take_drop_middle cs j c H) at 2.
  rewrite count_col_app, count_col_cons, pystr_eqb_refl. lia.
Qed.

(** *** Rows under an assignment *)

Lemma set_where_length (c : pystr) (cs : list pystr) (v : cell) (r : list cell) :
  length (set_where c cs v r) = length r.
Proof.
  revert r. induction cs as [|x cs IH]; intros [|y r]; simpl; auto.
Qed.

Lemma set_where_lookup (c : pystr) (cs : list pystr) (v : cell) (r : list cell) (j : nat) :
  set_where c cs v r !! j =
  match r !! j with
  | None => None
  | Some y =>
      match cs !! j with
      | Some x => Some (if pystr_eqb c x then v else y)
      | None => Some y
      end
  end.
Proof.
  revert r j. induction cs as [|x cs IH]; intros [|y r] [|j]; simpl; try done;
    try (by destruct (r !! j)); apply IH.
Qed.

Lemma set_each_length (c : pystr) (cs : list pystr) (vs r : list cell) :
  length (set_each c cs vs r) = length r.
Proof.
  revert vs r. induction cs as [|x cs IH]; intros vs [|y r]; simpl; try done.
  destruct (pystr_eqb c x); simpl; by rewrite IH.
Qed.

Lemma set_each_lookup (c : pystr) (cs : list pystr) (vs r : list cell) (j : nat) :
  set_each c cs vs r !! j =
  match r !! j with
  | None => None
  | Some y =>
      match cs !! j with
      | Some x => Some (if pystr_eqb c x then default y (vs !! rank c cs j) else y)
      | None => Some y
      end
  end.
Proof.
  revert vs r j. induction cs as [|x cs IH]; intros vs [|y r] [|j];
    cbn [set_each lookup list_lookup]; try done; try (by destruct (r !! j)).
  - unfold rank. rewrite take_0. cbn.
    destruct (pystr_eqb c x); [|done]. cbn. by rewrite head_lookup.
  - unfold rank. cbn [take]. rewrite count_col_cons.
    destruct (pystr_eqb c x) eqn:E; cbn [lookup list_lookup]; rewrite IH.
    + destruct (r !! j) as [y'|]; [|done]. destruct (cs !! j) as [x'|]; [|done].
      destruct (pystr_eqb c x'); [|done]. by rewrite lookup_tail.
    + done.
Qed.

Lemma columns_assign_scalar (c : pystr) (v : cell) (f : frame) :
  columns (assign_scalar c v f)
  = if Nat.eqb (count_col c (columns f)) 0 then columns f ++ [c] else columns f.
Proof. unfold assign_scalar. by destruct (Nat.eqb _ 0). Qed.

Lemma columns_assign_eq (c : pystr) (vs : list cell) (f : frame) :
  columns (assign c vs f)
  = if Nat.eqb (count_col c (columns f)) 0 then columns f ++ [c] else columns f.
Proof.
  unfold assign. destruct (Nat.eqb _ 0); [done|]. by destruct (one_per_column _ _ _).
Qed.

(** What holds of the columns after [df[c] = ...], for a scalar or a
    column: [cs'] are the columns after, [cs] those before. *)
Lemma columns_after (c : pystr) (cs cs' : list pystr) :
  cs' = (if Nat.eqb (count_col c cs) 0 then cs ++ [c] else cs) ->
  (forall j x, cs !! j = Some x -> cs' !! j = Some x) /\
  (forall j x, cs' !! j = Some x -> x <> c -> cs !! j = Some x) /\
  (forall c', c' <> c -> count_col c' cs' = count_col c' cs) /\
  (exists j, cs' !! j = Some c) /\
  (forall j, cs' !! j = Some c -> (j <= length cs)%nat) /\
  (1 <= count_col c cs')%nat.
Proof.
  intros ->. destruct (Nat.eqb_spec (count_col c cs) 0) as [E|E].
  - split; [|split; [|split; [|split; [|split]]]].
    + intros j x H. rewrite lookup_app_l; [done|]. by apply lookup_lt_Some in H.
    + intros j x H Hne. apply lookup_snoc_Some in H as [[_ H]|[_ H]]; [done|congruence].
    + intros c' Hne. rewrite count_col_snoc.
      rewrite (proj2 (pystr_eqb_neq c' c) Hne). lia.
    + exists (length cs). by rewrite list_lookup_middle.
    + intros j H. apply lookup_lt_Some in H. rewrite length_app in H. simpl in H. lia.
    + rewrite count_col_snoc, pystr_eqb_refl. lia.
  - split; [|split; [|split; [|split; [|split]]]]; try done.
    + exists (index_of c cs). apply index_of_lookup. lia.
    + intros j H. apply lookup_lt_Some in H. lia.
    + lia.
Qed.

Lemma rectangular_lookup (f : frame) (i : nat) (r : list cell) :
  rectangular f -> rows f !! i = Some r -> length r = length (columns f).
Proof.
  intros Hrect Hr. unfold rectangular in Hrect.
  apply (proj1 (Forall_forall _ _) Hrect). by apply list_elem_of_lookup_2 in Hr.
Qed.

Lemma rectangular_intro (f : frame) :
  (forall i r, rows f !! i = Some r -> length r = length (columns f)) -> rectangular f.
Proof.
  intros H. unfold rectangular. apply Forall_forall. intros r Hr.
  apply list_elem_of_lookup_1 in Hr as [i Hi]. by apply (H i).
Qed.

Lemma assign_scalar_rows (c : pystr) (v : cell) (f : frame) :
  length (rows (assign_scalar c v f)) = length (rows f).
Proof. unfold assign_scalar. destruct (Nat.eqb _ 0); cbn [rows]; by rewrite length_map. Qed.

Lemma assign_rows (c : pystr) (vs : list cell) (f : frame) :
  length vs = length (rows f) -> length (rows (assign c vs f)) = length (rows f).
Proof.
  intros H. unfold assign. destruct (Nat.eqb _ 0); cbn [rows].
  - rewrite length_zip_with. lia.
  - destruct (one_per_column _ _ _); cbn [rows];
      [by rewrite length_map|rewrite length_zip_with; lia].
Qed.

(** The cell of a row at a column, after [df[c] = v] for a scalar. *)
Lemma assign_scalar_cell (c : pystr) (v : cell) (f : frame) (i : nat) (r : list cell) :
  rectangular f -> rows f !! i = Some r ->
  exists r', rows (assign_scalar c v f) !! i = Some r' /\
    length r' = length (columns (assign_scalar c v f)) /\
    (forall j x, columns f !! j = Some x -> x <> c -> r' !! j = r !! j) /\
    (forall j, columns (assign_scalar c v f) !! j = Some c -> r' !! j = Some v).
Proof.
  intros Hrect Hr. pose proof (rectangular_lookup f i r Hrect Hr) as Hw.
  unfold assign_scalar.
  destruct (Nat.eqb_spec (count_col c (columns f)) 0) as [E|E]; cbn [rows columns];
    change (map ?g ?l) with (g <$> l); rewrite list_lookup_fmap, Hr; cbn [fmap option_fmap option_map];
    eexists; (split; [reflexivity|]).
  - split; [rewrite !length_app; simpl; lia|]. split.
    + intros j x Hx Hne. rewrite lookup_app_l; [done|].
      rewrite Hw. by apply lookup_lt_Some in Hx.
    + intros j Hj. apply lookup_snoc_Some in Hj as [[_ Hj]|[-> _]].
      * apply count_col_lookup in Hj. lia.
      * rewrite <- Hw. by rewrite list_lookup_middle.
  - split; [by rewrite set_where_length|]. split.
    + intros j x Hx Hne. rewrite set_where_lookup, Hx.
      destruct (r !! j); [|done].
      by rewrite (proj2 (pystr_eqb_neq c x)) by congruence.
    + intros j Hj. rewrite set_where_lookup, Hj, pystr_eqb_refl.
      destruct (lookup_lt_is_Some_2 r j) as [y ->]; [|done].
      rewrite Hw. by apply lookup_lt_Some in Hj.
Qed.

(** The cell of a row at a column, after [df[c] = vs] for a column. *)
Lemma assign_cell (c : pystr) (vs : list cell) (f : frame) (i : nat)
    (r : list cell) (v : cell) :
  rectangular f -> length vs = length (rows f) ->
  rows f !! i = Some r -> vs !! i = Some v ->
  exists r', rows (assign c vs f) !! i = Some r' /\
    length r' = length (columns (assign c vs f)) /\
    (forall j x, columns f !! j = Some x -> x <> c -> r' !! j = r !! j) /\
    (forall j, columns (assign c vs f) !! j = Some c ->
       r' !! j = if one_per_column c (columns f) vs
                 then vs !! rank c (columns f) j
                 else Some v).
Proof.
  intros Hrect Hlen Hr Hv. pose proof (rectangular_lookup f i r Hrect Hr) as Hw.
  unfold assign.
  destruct (Nat.eqb_spec (count_col c (columns f)) 0) as [E|E]; cbn [rows columns].
  - rewrite lookup_zip_with, Hr, Hv. cbn. eexists. split; [reflexivity|].
    split; [rewrite !length_app; simpl; lia|]. split.
    + intros j x Hx Hne. rewrite lookup_app_l; [done|].
      rewrite Hw. by apply lookup_lt_Some in Hx.
    + intros j Hj. unfold one_per_column. rewrite E. cbn.
      apply lookup_snoc_Some in Hj as [[_ Hj]|[-> _]].
      * apply count_col_lookup in Hj. lia.
      * rewrite <- Hw. by rewrite list_lookup_middle.
  - destruct (one_per_column c (columns f) vs) eqn:Eone; cbn [rows columns].
    + change (map ?g ?l) with (g <$> l). rewrite list_lookup_fmap, Hr.
      cbn [fmap option_fmap option_map]. eexists. split; [reflexivity|].
      split; [by rewrite set_each_length|]. split.
      * intros j x Hx Hne. rewrite set_each_lookup, Hx.
        destruct (r !! j); [|done].
        by rewrite (proj2 (pystr_eqb_neq c x)) by congruence.
      * intros j Hj. rewrite set_each_lookup, Hj, pystr_eqb_refl.
        destruct (lookup_lt_is_Some_2 r j) as [y ->];
          [rewrite Hw; by apply lookup_lt_Some in Hj|].
        unfold one_per_column in Eone. apply andb_prop in Eone as [_ Ek].
        apply Nat.eqb_eq in Ek.
        destruct (lookup_lt_is_Some_2 vs (rank c (columns f) j)) as [w ->]; [|done].
        rewrite <- Ek. by apply rank_lt.
    + rewrite lookup_zip_with, Hr, Hv. cbn. eexists. split; [reflexivity|].
      split; [by rewrite set_where_length|]. split.
      * intros j x Hx Hne. rewrite set_where_lookup, Hx.
        destruct (r !! j); [|done].
        by rewrite (proj2 (pystr_eqb_neq c x)) by congruence.
      * intros j Hj. rewrite set_where_lookup, Hj, pystr_eqb_refl.
        destruct (lookup_lt_is_Some_2 r j) as [y ->]; [|done].
        rewrite Hw. by apply lookup_lt_Some in Hj.
Qed.

Lemma assign_scalar_rectangular (c : pystr) (v : cell) (f : frame) :
  rectangular f -> rectangular (assign_scalar c v f).
Proof.
  intros Hrect. apply rectangular_intro. intros i r' Hr'.
  destruct (lookup_lt_is_Some_2 (rows f) i) as [r Hr].
  { rewrite <- (assign_scalar_rows c v f). by apply lookup_lt_Some in Hr'. }
  destruct (assign_scalar_cell c v f i r Hrect Hr) as (r2 & Hr2 & Hw & _).
  congruence.
Qed.

Lemma assign_rectangular (c : pystr) (vs : list cell) (f : frame) :
  rectangular f -> length vs = length (rows f) -> rectangular (assign c vs f).
Proof.
  intros Hrect Hlen. apply rectangular_intro. intros i r' Hr'.
  destruct (lookup_lt_is_Some_2 (rows f) i) as [r Hr].
  { rewrite <- (assign_rows c vs f Hlen). by apply lookup_lt_Some in Hr'. }
  destruct (lookup_lt_is_Some_2 vs i) as [v Hv].
  { rewrite Hlen. by apply lookup_lt_Some in Hr. }
  destruct (assign_cell c vs f i r v Hrect Hlen Hr Hv) as (r2 & Hr2 & Hw & _).
  congruence.
Qed.

(** *** Columns as wholes *)

Lemma column_at_lookup (j : nat) (f : frame) (i : nat) (r : list cell) :
  rows f !! i = Some r -> column_at j f !! i = Some (default CNull (r !! j)).
Proof.
  intros H. unfold column_at. change (map ?g ?l) with (g <$> l).
  by rewrite list_lookup_fmap, H.
Qed.

Lemma column_at_length (j : nat) (f : frame) : length (column_at j f) = length (rows f).
Proof. unfold column_at. by rewrite length_map. Qed.

Lemma column_at_ext (j : nat) (f f' : frame) :
  length (rows f') = length (rows f) ->
  (forall i r r', rows f !! i = Some r -> rows f' !! i = Some r' -> r' !! j = r !! j) ->
  column_at j f' = column_at j f.
Proof.
  intros Hlen H. apply list_eq. intros i.
  destruct (rows f !! i) as [r|] eqn:Er.
  - destruct (lookup_lt_is_Some_2 (rows f') i) as [r' Er'].
    { rewrite Hlen. by apply lookup_lt_Some in Er. }
    rewrite (column_at_lookup j f i r Er), (column_at_lookup j f' i r' Er').
    by rewrite (H i r r' Er Er').
  - rewrite !lookup_ge_None_2; [done|..].
    + rewrite column_at_length. by apply lookup_ge_None.
    + rewrite column_at_length, Hlen. by apply lookup_ge_None.
Qed.

Lemma column_at_assign_scalar_other (c : pystr) (v : cell) (f : frame) (j : nat) (x : pystr) :
  rectangular f -> columns f !! j = Some x -> x <> c ->
  column_at j (assign_scalar c v f) = column_at j f.
Proof.
  intros Hrect Hx Hne. apply column_at_ext; [apply assign_scalar_rows|].
  intros i r r' Hr Hr'.
  destruct (assign_scalar_cell c v f i r Hrect Hr) as (r2 & Hr2 & _ & Hkeep & _).
  rewrite Hr' in Hr2. injection Hr2 as <-. by apply (Hkeep j x).
Qed.

Lemma column_at_assign_scalar (c : pystr) (v : cell) (f : frame) (j : nat) :
  rectangular f -> columns (assign_scalar c v f) !! j = Some c ->
  column_at j (assign_scalar c v f) = map (fun _ => v) (rows f).
Proof.
  intros Hrect Hj. apply list_eq. intros i.
  change (map ?g ?l) with (g <$> l). rewrite list_lookup_fmap.
  destruct (rows f !! i) as [r|] eqn:Er.
  - destruct (assign_scalar_cell c v f i r Hrect Er) as (r2 & Hr2 & _ & _ & Hset).
    by rewrite (column_at_lookup j _ i r2 Hr2), (Hset j Hj).
  - apply lookup_ge_None_2. rewrite column_at_length, assign_scalar_rows.
    by apply lookup_ge_None.
Qed.

Lemma column_at_assign_other (c : pystr) (vs : list cell) (f : frame) (j : nat) (x : pystr) :
  rectangular f -> length vs = length (rows f) ->
  columns f !! j = Some x -> x <> c ->
  column_at j (assign c vs f) = column_at j f.
Proof.
  intros Hrect Hlen Hx Hne. apply column_at_ext; [by apply assign_rows|].
  intros i r r' Hr Hr'.
  destruct (lookup_lt_is_Some_2 vs i) as [v Hv].
  { rewrite Hlen. by apply lookup_lt_Some in Hr. }
  destruct (assign_cell c vs f i r v Hrect Hlen Hr Hv) as (r2 & Hr2 & _ & Hkeep & _).
  rewrite Hr' in Hr2. injection Hr2 as <-. by apply (Hkeep j x).
Qed.

(** The columns named [c] after [df[c] = vs]: the whole of [vs], or in
    the branch for a duplicated label one of its values all the way
    down. *)
Lemma column_at_assign (c : pystr) (vs : list cell) (f : frame) (j : nat) :
  rectangular f -> length vs = length (rows f) ->
  columns (assign c vs f) !! j = Some c ->
  column_at j (assign c vs f)
  = if one_per_column c (columns f) vs
    then map (fun _ => default CNull (vs !! rank c (columns f) j)) (rows f)
    else vs.
Proof.
  intros Hrect Hlen Hj. apply list_eq. intros i.
  destruct (rows f !! i) as [r|] eqn:Er.
  - destruct (lookup_lt_is_Some_2 vs i) as [v Hv].
    { rewrite Hlen. by apply lookup_lt_Some in Er. }
    destruct (assign_cell c vs f i r v Hrect Hlen Er Hv) as (r2 & Hr2 & _ & _ & Hset).
    rewrite (column_at_lookup j _ i r2 Hr2), (Hset j Hj).
    destruct (one_per_column c (columns f) vs) eqn:Eone.
    + change (map ?g ?l) with (g <$> l). by rewrite list_lookup_fmap, Er.
    + by rewrite Hv.
  - assert (column_at j (assign c vs f) !! i = None) as ->.
    { apply lookup_ge_None_2. rewrite column_at_length, assign_rows by done.
      by apply lookup_ge_None. }
    destruct (one_per_column c (columns f) vs).
    + change (map ?g ?l) with (g <$> l). by rewrite list_lookup_fmap, Er.
    + symmetry. apply lookup_ge_None_2. rewrite Hlen. by apply lookup_ge_None.
Qed.

(** *** Reading and converting a column *)

Lemma series_Some (c : pystr) (f : frame) :
  count_col c (columns f) = 1%nat ->
  series c f = Some (column_at (index_of c (columns f)) f).
Proof. intros H. unfold series. by rewrite H. Qed.

Lemma series_None (c : pystr) (f : frame) :
  count_col c (columns f) <> 1%nat -> series c f = None.
Proof.
  intros H. unfold series.
  by destruct (Nat.eqb_spec (count_col c (columns f)) 1).
Qed.

Lemma series_inv (c : pystr) (f : frame) (vs : list cell) :
  series c f = Some vs -> count_col c (columns f) = 1%nat.
Proof.
  intros H. destruct (Nat.eq_dec (count_col c (columns f)) 1%nat) as [E|E]; [done|].
  by rewrite (series_None c f E) in H.
Qed.

Lemma one_per_column_one (c : pystr) (cs : list pystr) (vs : list cell) :
  count_col c cs = 1%nat -> one_per_column c cs vs = false.
Proof. intros H. unfold one_per_column. by rewrite H. Qed.

(** Lines 111-112 on one column that is there once, at position [j]. *)
Lemma coerce_column_spec (c : pystr) (f : frame) (j : nat) :
  rectangular f -> count_col c (columns f) = 1%nat -> columns f !! j = Some c ->
  exists f', coerce_column pd (Some f) c = Some f' /\
    columns f' = columns f /\
    length (rows f') = length (rows f) /\
    rectangular f' /\
    column_at j f' = to_numeric pd (column_at j f) /\
    forall j' x, columns f !! j' = Some x -> x <> c -> column_at j' f' = column_at j' f.
Proof.
  intros Hrect Hc Hj. unfold coerce_column. rewrite (series_Some c f Hc).
  rewrite (index_of_unique c (columns f) j Hc Hj).
  assert (length (to_numeric pd (column_at j f)) = length (rows f)) as Hlen.
  { by rewrite to_numeric_length, column_at_length. }
  assert (columns (assign c (to_numeric pd (column_at j f)) f) = columns f) as Hcols.
  { rewrite columns_assign_eq, Hc. done. }
  eexists. split; [reflexivity|]. split; [done|].
  split; [by apply assign_rows|]. split; [by apply assign_rectangular|]. split.
  - rewrite column_at_assign by (by rewrite ?Hcols).
    by rewrite (one_per_column_one c _ _ Hc).
  - intros j' x Hx Hne. by apply (column_at_assign_other c _ f j' x).
Qed.

Lemma coerce_column_inv (o : option frame) (c : pystr) (f' : frame) :
  coerce_column pd o c = Some f' ->
  exists f, o = Some f /\ count_col c (columns f) = 1%nat /\ columns f' = columns f.
Proof.
  destruct o as [f|]; [|done]. simpl.
  destruct (series c f) as [vs|] eqn:Es; [|done].
  apply series_inv in Es. intros [= <-]. exists f.
  split; [done|]. split; [done|]. by rewrite columns_assign_eq, Es.
Qed.

(** *** The frame of an answer *)

Lemma max_len_ge {A} (rs : list (list A)) (r : list A) :
  In r rs -> (length r <= max_len rs)%nat.
Proof.
  induction rs as [|x rs IH]; simpl; [done|].
  intros [->|H]; [lia|]. specialize (IH H). lia.
Qed.

Lemma DataFrame_ok (header : list pystr) (rs : list (list json_value)) :
  match rs with [] => true | _ :: _ => Nat.eqb (max_len rs) (length header) end = true ->
  DataFrame (number := number) header rs = Some (mk_frame header (map (padded (number := number) header) rs)).
Proof.
  unfold DataFrame. destruct rs as [|r rs]; [done|]. by intros ->.
Qed.

Lemma DataFrame_inv (header : list pystr) (rs : list (list json_value)) (df0 : frame) :
  DataFrame header rs = Some df0 ->
  match rs with [] => true | _ :: _ => Nat.eqb (max_len rs) (length header) end = true /\
  df0 = mk_frame header (map (padded (number := number) header) rs).
Proof.
  unfold DataFrame. destruct rs as [|r rs]; [by intros [= <-]|].
  destruct (Nat.eqb _ _); [|done]. by intros [= <-].
Qed.

Lemma row_fits (year : Z) (header : list pystr) (rs : list (list json_value))
    (i : nat) (r : list json_value) :
  match rs with [] => true | _ :: _ => Nat.eqb (max_len rs) (length header) end = true ->
  rs !! i = Some r -> (length r <= length header)%nat.
Proof.
  intros Hlen Hr.
  assert (In r rs) as Hin.
  { apply list_elem_of_In. by apply list_elem_of_lookup_2 in Hr. }
  destruct rs as [|r0 rs]; [done|]. apply Nat.eqb_eq in Hlen.
  apply max_len_ge in Hin. lia.
Qed.

Lemma padded_length (header : list pystr) (r : list json_value) :
  (length r <= length header)%nat ->
  length (padded (number := number) header r) = length header.
Proof.
  intros H. unfold padded, pad_row.
  rewrite length_app, length_replicate, length_map. lia.
Qed.

Lemma padded_lookup (header : list pystr) (r : list json_value) (j : nat) :
  (j < length header)%nat -> (length r <= length header)%nat ->
  padded (number := number) header r !! j = Some (raw_cell r j).
Proof.
  intros Hj Hr. unfold padded, pad_row, raw_cell.
  destruct (r !! j) as [v|] eqn:E.
  - rewrite lookup_app_l by (rewrite length_map; by apply lookup_lt_Some in E).
    change (map ?g ?l) with (g <$> l). rewrite list_lookup_fmap.
    unfold json_value in *. by rewrite E.
  - apply lookup_ge_None in E.
    rewrite lookup_app_r by (rewrite length_map; lia).
    rewrite length_map. apply lookup_replicate_2. lia.
Qed.

Lemma renamed_header_length (year : Z) (header : list pystr) :
  length (renamed_header year header) = length header.
Proof. unfold renamed_header. by rewrite length_map. Qed.

Lemma first_frame_rectangular (year : Z) (header : list pystr) (rs : list (list json_value)) :
  match rs with [] => true | _ :: _ => Nat.eqb (max_len rs) (length header) end = true ->
  rectangular (rename (rename_map year) (mk_frame header (map (padded (number := number) header) rs))).
Proof.
  intros Hlen. apply rectangular_intro. intros i r'. cbn [rows columns rename].
  change (map ?g ?l) with (g <$> l). rewrite list_lookup_fmap, length_fmap.
  destruct (rs !! i) as [r|] eqn:Er; [|done]. intros [= <-].
  apply padded_length. by apply (row_fits year header rs i).
Qed.

Lemma first_frame_column (year : Z) (header : list pystr) (rs : list (list json_value))
    (j : nat) :
  match rs with [] => true | _ :: _ => Nat.eqb (max_len rs) (length header) end = true ->
  (j < length header)%nat ->
  column_at j (rename (rename_map year) (mk_frame header (map (padded (number := number) header) rs)))
  = raw_column rs j.
Proof.
  intros Hlen Hj. unfold column_at, raw_column. cbn [rows rename].
  rewrite map_map. apply map_ext_in. intros r Hr.
  apply list_elem_of_In, list_elem_of_lookup_1 in Hr as [i Hi].
  rewrite padded_lookup; [done|done|]. by apply (row_fits year header rs i).
Qed.

Ltac eval_eqb :=
  repeat match goal with
  | |- context [pystr_eqb (lit ?a) (lit ?b)] =>
      let v := eval vm_compute in (pystr_eqb (lit a) (lit b)) in
      change (pystr_eqb (lit a) (lit b)) with v
  end; cbv iota.

Lemma shape_ok_inv (year : Z) (header : list pystr) (rs : list (list json_value)) :
  shape_ok year header rs = true ->
  match rs with [] => true | _ :: _ => Nat.eqb (max_len rs) (length header) end = true /\
  count_col (lit "total_population") (renamed_header year header) = 1%nat /\
  count_col (lit "male_population") (renamed_header year header) = 1%nat /\
  count_col (lit "female_population") (renamed_header year header) = 1%nat /\
  count_col (lit "county_fips") (renamed_header year header) = 1%nat.
Proof.
  unfold shape_ok. intros [Hlen Hcnt]%andb_prop.
  cbn [forallb app population_cols] in Hcnt.
  apply andb_prop in Hcnt as [Ht Hcnt]. apply andb_prop in Hcnt as [Hm Hcnt].
  apply andb_prop in Hcnt as [Hf Hcnt]. apply andb_prop in Hcnt as [Hc _].
  by apply Nat.eqb_eq in Ht, Hm, Hf, Hc.
Qed.

Lemma is_population_In (x : pystr) : is_population x = true <-> In x population_cols.
Proof.
  unfold is_population. rewrite existsb_exists. split.
  - intros (c & Hin & Hc). apply pystr_eqb_eq in Hc. by subst.
  - intros H. exists x. split; [done|]. apply pystr_eqb_refl.
Qed.

(** The names the last assignment looks up, one for each row. *)
Local Abbreviation names jf rs := (map (county_cell (number := number) jf) rs).

(** The frame [download_census_data] builds from an answer of the
    expected shape, column by column. *)
Lemma build_frame_columns (year : Z) (header : list pystr) (rs : list (list json_value)) :
  shape_ok year header rs = true ->
  exists df (cs : list pystr),
    build_frame pd year (Table header rs) = Some df /\
    rectangular df /\
    length (rows df) = length rs /\
    cs = (if Nat.eqb (count_col (lit "year") (renamed_header year header)) 0
          then renamed_header year header ++ [lit "year"] else renamed_header year header) /\
    columns df = (if Nat.eqb (count_col (lit "county_name") cs) 0
                  then cs ++ [lit "county_name"] else cs) /\
    (forall j x, renamed_header year header !! j = Some x -> columns df !! j = Some x) /\
    (forall j, columns df !! j = Some (lit "year") ->
       column_at j df = map (fun _ => CInt year) rs) /\
    (forall j x, renamed_header year header !! j = Some x ->
       is_population x = true ->
       column_at j df = to_numeric pd (raw_column rs j)) /\
    (forall j x, renamed_header year header !! j = Some x ->
       is_population x = false -> x <> lit "year" -> x <> lit "county_name" ->
       column_at j df = raw_column rs j) /\
    (forall j jf, columns df !! j = Some (lit "county_name") ->
       renamed_header year header !! jf = Some (lit "county_fips") ->
       column_at j df
       = if one_per_column (lit "county_name") cs (names jf rs)
         then map (fun _ => default CNull (names jf rs !! rank (lit "county_name") cs j)) rs
         else names jf rs).
Proof.
  intros Hshape. destruct (shape_ok_inv year header rs Hshape) as (Hlen & Ht & Hm & Hf & Hc).
  unfold build_frame. rewrite (DataFrame_ok header rs Hlen).
  set (df1 := rename (rename_map year) (mk_frame header (map (padded (number := number) header) rs))).
  assert (columns df1 = renamed_header year header) as Hcols1 by done.
  assert (length (rows df1) = length rs) as Hrows1.
  { unfold df1. cbn [rows rename]. by rewrite length_map. }
  pose proof (first_frame_rectangular year header rs Hlen) as Hrect1. fold df1 in Hrect1.
  assert (forall j, (j < length header)%nat -> column_at j df1 = raw_column rs j) as Hraw.
  { intros j Hj. by apply first_frame_column. }
  set (df2 := assign_scalar (lit "year") (CInt year) df1).
  pose proof (assign_scalar_rectangular (lit "year") (CInt year) df1 Hrect1) as Hrect2.
  fold df2 in Hrect2.
  pose proof (columns_assign_scalar (lit "year") (CInt year) df1) as Hcols2.
  fold df2 in Hcols2. rewrite Hcols1 in Hcols2.
  destruct (columns_after (lit "year") (renamed_header year header) (columns df2) Hcols2)
    as (Hkeep2 & Hinv2 & Hcount2 & _ & Hyle & _).
  assert (length (rows df2) = length rs) as Hrows2.
  { unfold df2. by rewrite assign_scalar_rows. }
  (* the three conversions *)
  assert (forall c j, c <> lit "year" -> columns df2 !! j = Some c ->
            renamed_header year header !! j = Some c) as Hback2.
  { intros c j Hne Hj. by apply Hinv2. }
  set (jt := index_of (lit "total_population") (renamed_header year header)).
  set (jm := index_of (lit "male_population") (renamed_header year header)).
  set (jw := index_of (lit "female_population") (renamed_header year header)).
  set (jc := index_of (lit "county_fips") (renamed_header year header)).
  assert (renamed_header year header !! jt = Some (lit "total_population")) as Hjt
    by (apply index_of_lookup; lia).
  assert (renamed_header year header !! jm = Some (lit "male_population")) as Hjm
    by (apply index_of_lookup; lia).
  assert (renamed_header year header !! jw = Some (lit "female_population")) as Hjw
    by (apply index_of_lookup; lia).
  assert (renamed_header year header !! jc = Some (lit "county_fips")) as Hjc
    by (apply index_of_lookup; lia).
  destruct (coerce_column_spec (lit "total_population") df2 jt Hrect2)
    as (dfa & Ea & Hca & Hla & Hrecta & Hcola & Hotha).
  { rewrite Hcount2; [done|]. vm_compute. discriminate. }
  { by apply Hkeep2. }
  destruct (coerce_column_spec (lit "male_population") dfa jm Hrecta)
    as (dfb & Eb & Hcb & Hlb & Hrectb & Hcolb & Hothb).
  { rewrite Hca, Hcount2; [done|]. vm_compute. discriminate. }
  { rewrite Hca. by apply Hkeep2. }
  destruct (coerce_column_spec (lit "female_population") dfb jw Hrectb)
    as (dfc & Ec & Hcc & Hlc & Hrectc & Hcolc & Hothc).
  { rewrite Hcb, Hca, Hcount2; [done|]. vm_compute. discriminate. }
  { rewrite Hcb, Hca. by apply Hkeep2. }
  assert (columns dfc = columns df2) as Hcolsc by (by rewrite Hcc, Hcb, Hca).
  assert (length (rows dfc) = length rs) as Hrowsc by lia.
  cbn [fold_left population_cols]. rewrite Ea, Eb, Ec.
  (* a column of the answer in [dfc] *)
  assert (forall j x, renamed_header year header !! j = Some x -> x <> lit "year" ->
            column_at j dfc
            = if is_population x then to_numeric pd (raw_column rs j) else raw_column rs j)
    as Hcolumn.
  { intros j x Hx Hy.
    assert ((j < length header)%nat) as Hjlt.
    { rewrite <- (renamed_header_length year). by apply lookup_lt_Some in Hx. }
    assert (column_at j df2 = raw_column rs j) as H2.
    { unfold df2. rewrite (column_at_assign_scalar_other _ _ df1 j x Hrect1); [by apply Hraw| |done].
      by rewrite Hcols1. }
    assert (columns df2 !! j = Some x) as Hx2 by (by apply Hkeep2).
    assert (forall c jc', renamed_header year header !! jc' = Some c ->
              count_col c (renamed_header year header) = 1%nat -> x = c -> j = jc') as Huniq.
    { intros c jc' Hjc' Hcnt ->.
      rewrite <- (index_of_unique c _ j Hcnt Hx). by apply index_of_unique. }
    destruct (decide (x = lit "total_population")) as [->|Nt].
    { rewrite (Huniq _ jt Hjt Ht eq_refl) in *.
      rewrite (Hothc jt (lit "total_population")), (Hothb jt (lit "total_population")), Hcola, H2;
        [done|by rewrite Hca|vm_compute; discriminate|by rewrite Hcb, Hca|vm_compute; discriminate]. }
    destruct (decide (x = lit "male_population")) as [->|Nm].
    { rewrite (Huniq _ jm Hjm Hm eq_refl) in *.
      rewrite (Hothc jm (lit "male_population")), Hcolb, (Hotha jm (lit "male_population")), H2;
        [done|done|vm_compute; discriminate|by rewrite Hcb, Hca|vm_compute; discriminate]. }
    destruct (decide (x = lit "female_population")) as [->|Nw].
    { rewrite (Huniq _ jw Hjw Hf eq_refl) in *.
      rewrite Hcolc, (Hothb jw (lit "female_population")), (Hotha jw (lit "female_population")), H2;
        [done|done|vm_compute; discriminate|by rewrite Hca|vm_compute; discriminate]. }
    assert (is_population x = false) as ->.
    { unfold is_population. cbn [existsb population_cols].
      by rewrite !(proj2 (pystr_eqb_neq x _)). }
    rewrite (Hothc j x), (Hothb j x), (Hotha j x), H2; try done.
    - by rewrite Hca.
    - by rewrite Hcb, Hca. }
  assert (forall j, columns df2 !! j = Some (lit "year") ->
            column_at j dfc = map (fun _ => CInt year) rs) as Hyear.
  { intros j Hj.
    rewrite (Hothc j (lit "year")), (Hothb j (lit "year")), (Hotha j (lit "year"));
      [|done|vm_compute; discriminate|by rewrite Hca|vm_compute; discriminate
       |by rewrite Hcb, Hca|vm_compute; discriminate].
    unfold df2. rewrite column_at_assign_scalar by done.
    apply list_eq. intros i. change (map ?g ?l) with (g <$> l).
    rewrite !list_lookup_fmap.
    destruct (rs !! i) eqn:E1.
    - destruct (lookup_lt_is_Some_2 (rows df1) i) as [r1 ->]; [|done].
      rewrite Hrows1. by apply lookup_lt_Some in E1.
    - rewrite (lookup_ge_None_2 (rows df1)); [done|]. rewrite Hrows1.
      by apply lookup_ge_None. }
  (* the county names *)
  assert (count_col (lit "county_fips") (columns dfc) = 1%nat) as Hfips.
  { rewrite Hcolsc, Hcount2; [done|]. vm_compute. discriminate. }
  rewrite (series_Some (lit "county_fips") dfc Hfips).
  assert (index_of (lit "county_fips") (columns dfc) = jc) as ->.
  { apply index_of_unique; [done|]. rewrite Hcolsc. by apply Hkeep2. }
  assert (map county_name_of (column_at jc dfc) = names jc rs) as ->.
  { rewrite (Hcolumn jc _ Hjc) by (vm_compute; discriminate).
    change (is_population (lit "county_fips")) with false. cbv iota.
    unfold raw_column. rewrite map_map. done. }
  set (df4 := assign (lit "county_name") (names jc rs) dfc).
  assert (length (names jc rs) = length (rows dfc)) as Hnlen.
  { rewrite length_map. lia. }
  pose proof (columns_assign_eq (lit "county_name") (names jc rs) dfc) as Hcols4.
  fold df4 in Hcols4. rewrite Hcolsc in Hcols4.
  destruct (columns_after (lit "county_name") (columns df2) (columns df4) Hcols4)
    as (Hkeep4 & Hinv4 & Hcount4 & _ & Hnle & _).
  exists df4, (columns df2).
  split; [reflexivity|]. split; [by apply assign_rectangular|].
  split; [unfold df4; rewrite assign_rows by done; lia|].
  split; [exact Hcols2|]. split; [exact Hcols4|]. split.
  { intros j x Hx. by apply Hkeep4, Hkeep2. }
  split.
  { intros j Hj.
    assert (columns dfc !! j = Some (lit "year")) as Hjc'.
    { rewrite Hcolsc. apply Hinv4; [done|]. vm_compute. discriminate. }
    unfold df4. rewrite (column_at_assign_other _ _ dfc j (lit "year")); try done.
    apply Hyear. by rewrite <- Hcolsc. }
  split.
  { intros j x Hx Hpop.
    assert (x <> lit "year") as Hy.
    { intros ->. vm_compute in Hpop. discriminate. }
    assert (x <> lit "county_name") as Hn.
    { intros ->. vm_compute in Hpop. discriminate. }
    unfold df4. rewrite (column_at_assign_other _ _ dfc j x); try done.
    - rewrite (Hcolumn j x Hx Hy). by rewrite Hpop.
    - rewrite Hcolsc. by apply Hkeep2. }
  split.
  { intros j x Hx Hpop Hy Hn.
    unfold df4. rewrite (column_at_assign_other _ _ dfc j x); try done.
    - rewrite (Hcolumn j x Hx Hy). by rewrite Hpop.
    - rewrite Hcolsc. by apply Hkeep2. }
  intros j jf Hj Hjf.
  assert (jf = jc) as ->.
  { rewrite <- (index_of_unique _ _ jf Hc Hjf). done. }
  unfold df4. rewrite column_at_assign by done.
  rewrite Hcolsc. destruct (one_per_column _ _ _); [|done].
  apply list_eq. intros i. change (map ?g ?l) with (g <$> l).
  rewrite !list_lookup_fmap.
  destruct (rs !! i) eqn:E1.
  - destruct (lookup_lt_is_Some_2 (rows dfc) i) as [r1 ->]; [|done].
    rewrite Hrowsc. by apply lookup_lt_Some in E1.
  - rewrite (lookup_ge_None_2 (rows dfc)); [done|]. rewrite Hrowsc.
    by apply lookup_ge_None.
Qed.

(** A cell of a rectangular frame is the cell of its column. *)
Lemma cell_of_column (f : frame) (i j : nat) (r : list cell) (x : pystr) :
  rectangular f -> rows f !! i = Some r -> columns f !! j = Some x ->
  exists y, r !! j = Some y /\ column_at j f !! i = Some y.
Proof.
  intros Hrect Hr Hx.
  destruct (lookup_lt_is_Some_2 r j) as [y Hy].
  { rewrite (rectangular_lookup f i r Hrect Hr). by apply lookup_lt_Some in Hx. }
  exists y. split; [done|]. by rewrite (column_at_lookup j f i r Hr), Hy.
Qed.

(** Lines 88-120 raise on any answer that is not of the expected shape. *)
Lemma build_frame_shape (year : Z) (header : list pystr) (rs : list (list json_value))
    (df : frame) :
  build_frame pd year (Table header rs) = Some df ->
  shape_ok year header rs = true.
Proof.
  unfold build_frame, shape_ok.
  destruct (DataFrame header rs) as [df0|] eqn:E0; [|done].
  apply DataFrame_inv in E0 as [Hlen ->].
  cbn [fold_left population_cols].
  set (df1 := rename (rename_map year) (mk_frame header (map (padded (number := number) header) rs))).
  assert (columns df1 = renamed_header year header) as Hcols1 by done.
  set (df2 := assign_scalar (lit "year") (CInt year) df1).
  destruct (coerce_column pd
              (coerce_column pd
                 (coerce_column pd (Some df2) (lit "total_population"))
                 (lit "male_population"))
              (lit "female_population")) as [df3|] eqn:E3; [|done].
  destruct (series (lit "county_fips") df3) as [fips|] eqn:Es; [|done]. intros _.
  apply series_inv in Es.
  apply coerce_column_inv in E3 as (fb & Eb & Hcb & Hcolb).
  apply coerce_column_inv in Eb as (fa & Ea & Hca & Hcola).
  apply coerce_column_inv in Ea as (f2 & E2 & Hc2 & Hcol2).
  injection E2 as <-.
  pose proof (columns_assign_scalar (lit "year") (CInt year) df1) as Hcols2.
  fold df2 in Hcols2. rewrite Hcols1 in Hcols2.
  destruct (columns_after _ _ _ Hcols2) as (_ & _ & Hcount & _).
  rewrite Hcolb, Hcola, Hcol2 in Es. rewrite Hcola, Hcol2 in Hcb. rewrite Hcol2 in Hca.
  rewrite Hcount in Es, Hcb, Hca, Hc2 by (vm_compute; discriminate).
  rewrite Hlen. cbn [forallb app population_cols].
  by rewrite Hc2, Hca, Hcb, Es.
Qed.

Lemma download_frame_of (srv : server) (api_key : pystr) (fs : gmap pystr frame) (year : Z) :
  download_census_data pd srv api_key fs year
  = (frame_of pd srv api_key year,
     match frame_of pd srv api_key year with
     | Some df => <[population_file year := df]> fs
     | None => fs
     end).
Proof.
  unfold download_census_data, frame_of.
  destruct (srv _) as [|p]; [done|]. by destruct (build_frame _ _ _).
Qed.

Lemma download_Some_build (srv : server) (api_key : pystr) (fs : gmap pystr frame)
    (year : Z) (header : list pystr) (rs : list (list json_value)) (df : frame) :
  srv (census_request year api_key) = Answer (Table header rs) ->
  fst (download_census_data pd srv api_key fs year) = Some df ->
  build_frame pd year (Table header rs) = Some df.
Proof.
  intros Hsrv. rewrite download_frame_of. unfold frame_of. by rewrite Hsrv.
Qed.

(** C8: when the answer is a table of the expected shape, a population
    field that is not numeric raises nothing: the frame is built, saved
    under the year's file name and returned, it has one row per row of
    the answer, and the field is null in its row. *)
Theorem non_numeric_population_is_null
    (srv : server) (api_key : pystr) (fs : gmap pystr frame) (year : Z)
    (header : list pystr) (rs : list (list json_value)) :
  srv (census_request year api_key) = Answer (Table header rs) ->
  shape_ok year header rs = true ->
  exists df,
    download_census_data pd srv api_key fs year
      = (Some df, <[population_file year := df]> fs) /\
    length (rows df) = length rs /\
    forall i r j col s,
      rs !! i = Some r -> In col population_cols ->
      renamed_header year header !! j = Some col ->
      r !! j = Some (Some s) -> parse_number pd s = None ->
      exists r', rows df !! i = Some r' /\
        columns df !! j = Some col /\ r' !! j = Some CNull.
Proof.
  intros Hsrv Hshape.
  destruct (build_frame_columns year header rs Hshape)
    as (df & cs & Hdf & Hrect & Hlen & _ & _ & Hkeep & _ & Hpop & _).
  exists df. unfold download_census_data. rewrite Hsrv, Hdf.
  split; [done|]. split; [done|].
  intros i r j col s Hr Hin Hcol Hs Hparse.
  destruct (lookup_lt_is_Some_2 (rows df) i) as [r' Hr'].
  { rewrite Hlen. by apply lookup_lt_Some in Hr. }
  exists r'. split; [done|]. split; [by apply Hkeep|].
  destruct (cell_of_column df i j r' col Hrect Hr' (Hkeep j col Hcol)) as (y & Hy & Hcy).
  rewrite Hy. rewrite (Hpop j col Hcol (proj2 (is_population_In col) Hin)) in Hcy.
  rewrite (to_numeric_coerce pd (raw_column rs j) i s) in Hcy; [done| |done].
  unfold raw_column. change (map ?g ?l) with (g <$> l).
  rewrite list_lookup_fmap, Hr. cbn. unfold raw_cell.
  unfold json_value in *. by rewrite Hs.
Qed.

(** *** Two years, one answer *)

Lemma assign_same_but_year (c : pystr) (vs : list cell) (f1 f2 : frame) :
  same_but_year f1 f2 -> same_but_year (assign c vs f1) (assign c vs f2).
Proof.
  intros [Hc HF]. pose proof (Forall2_length _ _ _ HF) as HL.
  unfold assign. rewrite <- Hc.
  destruct (Nat.eqb (count_col c (columns f1)) 0);
    [|destruct (one_per_column c (columns f1) vs)];
    (split; [done|]); cbn [rows columns];
    apply Forall2_same_length_lookup.
  - split; [rewrite !length_zip_with; lia|].
    intros i x y; rewrite !lookup_zip_with.
    destruct (rows f1 !! i) as [r1|] eqn:E1; [|done].
    destruct (rows f2 !! i) as [r2|] eqn:E2; [|done].
    destruct (vs !! i) as [v|]; [|done]. simpl. intros [= <-] [= <-].
    destruct (Forall2_lookup_lr _ _ _ _ _ _ HF E1 E2) as [Hlen Hag].
    split; [rewrite !length_app; simpl; lia|].
    intros j Hj. destruct (decide (j < length r1)%nat) as [Hlt|Hge].
    + rewrite !lookup_app_l by lia. apply Hag. intros E. apply Hj.
      rewrite lookup_app_l; [done|]. by apply lookup_lt_Some in E.
    + rewrite !lookup_app_r by lia. by rewrite Hlen.
  - split; [by rewrite !length_map|].
    intros i x y. change (map ?g ?l) with (g <$> l). rewrite !list_lookup_fmap.
    destruct (rows f1 !! i) as [r1|] eqn:E1; [|done].
    destruct (rows f2 !! i) as [r2|] eqn:E2; [|done].
    simpl. intros [= <-] [= <-].
    destruct (Forall2_lookup_lr _ _ _ _ _ _ HF E1 E2) as [Hlen Hag].
    split; [by rewrite !set_each_length|].
    intros j Hj. rewrite !set_each_lookup. by rewrite (Hag j Hj).
  - split; [rewrite !length_zip_with; lia|].
    intros i x y; rewrite !lookup_zip_with.
    destruct (rows f1 !! i) as [r1|] eqn:E1; [|done].
    destruct (rows f2 !! i) as [r2|] eqn:E2; [|done].
    destruct (vs !! i) as [v|]; [|done]. simpl. intros [= <-] [= <-].
    destruct (Forall2_lookup_lr _ _ _ _ _ _ HF E1 E2) as [Hlen Hag].
    split; [by rewrite !set_where_length|].
    intros j Hj. rewrite !set_where_lookup. by rewrite (Hag j Hj).
Qed.

Lemma assign_year_same_but_year (v1 v2 : cell) (f : frame) :
  rectangular f ->
  same_but_year (assign_scalar (lit "year") v1 f) (assign_scalar (lit "year") v2 f).
Proof.
  intros Hrect. unfold assign_scalar.
  destruct (Nat.eqb (count_col (lit "year") (columns f)) 0); (split; [done|]);
    cbn [rows columns];
    apply Forall2_same_length_lookup; (split; [by rewrite !length_map|]);
    intros i x y; change (map ?g ?l) with (g <$> l); rewrite !list_lookup_fmap;
    destruct (rows f !! i) as [r|] eqn:E; [|done| |done]; simpl;
    intros [= <-] [= <-].
  - split; [by rewrite !length_app|].
    pose proof (rectangular_lookup f i r Hrect E) as Hw.
    intros j Hj. destruct (decide (j < length r)%nat) as [Hlt|Hge].
    + by rewrite !lookup_app_l by lia.
    + destruct (decide (j = length r)) as [->|Hne].
      * exfalso. apply Hj. rewrite Hw. by rewrite list_lookup_middle.
      * rewrite !lookup_ge_None_2; [done|rewrite length_app; simpl; lia..].
  - split; [by rewrite !set_where_length|].
    intros j Hj. rewrite !set_where_lookup.
    destruct (r !! j) as [y|]; [|done].
    destruct (columns f !! j) as [x|] eqn:Ex; [|done].
    destruct (pystr_eqb _ x) eqn:Ey; [|done].
    apply pystr_eqb_eq in Ey. subst x. exfalso. by apply Hj.
Qed.

Lemma series_same_but_year (c : pystr) (f1 f2 : frame) :
  c <> lit "year" -> same_but_year f1 f2 -> series c f1 = series c f2.
Proof.
  intros Hne [Hc HF]. unfold series. rewrite <- Hc.
  destruct (Nat.eqb_spec (count_col c (columns f1)) 1) as [E|]; [|done].
  f_equal. apply list_eq. intros i.
  change (map ?g ?l) with (g <$> l). rewrite !list_lookup_fmap.
  destruct (proj1 (Forall2_lookup _ _ _) HF i) as [r1 r2 [_ Hag]|]; [|done].
  simpl. do 2 f_equal. apply Hag.
  rewrite index_of_lookup by lia. intros [= ?]. done.
Qed.

Lemma coerce_same_but_year (c : pystr) (o1 o2 : option frame) :
  c <> lit "year" -> opt_same_but_year o1 o2 ->
  opt_same_but_year (coerce_column pd o1 c) (coerce_column pd o2 c).
Proof.
  intros Hne. destruct o1 as [f1|], o2 as [f2|]; simpl; try done.
  intros HR. rewrite <- (series_same_but_year c f1 f2 Hne HR).
  destruct (series c f1); [|done]. simpl. by apply assign_same_but_year.
Qed.

Lemma build_frame_same_but_year (y1 y2 : Z) (p : payload) :
  2010 <= y1 -> 2010 <= y2 ->
  opt_same_but_year (build_frame pd y1 p) (build_frame pd y2 p).
Proof.
  intros H1 H2. unfold build_frame. destruct p as [| |header rs]; try done.
  destruct (DataFrame header rs) as [df0|] eqn:E0; [|done].
  apply DataFrame_inv in E0 as [Hlen ->].
  assert (rename_map y1 = rename_map y2) as <-.
  { unfold rename_map.
    destruct (Z.leb_spec 2010 y1); [|lia]. by destruct (Z.leb_spec 2010 y2); [|lia]. }
  set (df1 := rename (rename_map y1) (mk_frame header (map (padded (number := number) header) rs))).
  pose proof (first_frame_rectangular y1 header rs Hlen) as Hrect. fold df1 in Hrect.
  pose proof (assign_year_same_but_year (CInt y1) (CInt y2) df1 Hrect) as HR.
  set (a := assign_scalar (lit "year") (CInt y1) df1) in *.
  set (b := assign_scalar (lit "year") (CInt y2) df1) in *.
  assert (opt_same_but_year
            (fold_left (coerce_column pd) population_cols (Some a))
            (fold_left (coerce_column pd) population_cols (Some b))) as HR3.
  { cbn [fold_left population_cols].
    repeat apply coerce_same_but_year; try (vm_compute; discriminate). exact HR. }
  destruct (fold_left _ population_cols (Some a)) as [fa|],
           (fold_left _ population_cols (Some b)) as [fb|]; try done.
  simpl in HR3.
  rewrite <- (series_same_but_year (lit "county_fips") fa fb
                ltac:(vm_compute; discriminate) HR3).
  destruct (series (lit "county_fips") fa); [|done].
  simpl. by apply assign_same_but_year.
Qed.

(** C10: for two years from 2010 on, the request is the same, and for
    one and the same answer the two frames returned have the same
    columns and the same cells in every column but [year]; either none
    or both are returned. *)
Theorem year_is_only_a_label (y1 y2 : Z) (api_key : pystr) :
  2010 <= y1 -> 2010 <= y2 ->
  census_request y1 api_key = census_request y2 api_key /\
  url (census_request y1 api_key) = lit "https://api.census.gov/data/2022/acs/acs5" /\
  forall (srv : server) (fs : gmap pystr frame),
    opt_same_but_year
      (fst (download_census_data pd srv api_key fs y1))
      (fst (download_census_data pd srv api_key fs y2)).
Proof.
  intros H1 H2.
  assert (census_request y1 api_key = census_request y2 api_key) as Hreq.
  { unfold census_request.
    destruct (Z.leb_spec 2010 y1); [|lia]. by destruct (Z.leb_spec 2010 y2); [|lia]. }
  split; [done|]. split.
  { unfold census_request. by destruct (Z.leb_spec 2010 y1); [|lia]. }
  intros srv fs.
  unfold download_census_data. rewrite <- Hreq.
  destruct (srv (census_request y1 api_key)) as [|p]; [done|].
  pose proof (build_frame_same_but_year y1 y2 p H1 H2) as HR.
  destruct (build_frame pd y1 p), (build_frame pd y2 p); done.
Qed.

End CensusFacts.

Import Census CensusShape CensusCells.

Lemma non_numeric_population_is_null_witness :
  exists df r',
    download_census_data sample_pandas sample_server [] ∅ 2020
      = (Some df, <[population_file 2020 := df]> ∅) /\
    length (rows df) = 2%nat /\
    rows df !! 0%nat = Some r' /\
    columns df !! 1%nat = Some (lit "male_population") /\
    r' !! 1%nat = Some CNull.
Proof.
  destruct (non_numeric_population_is_null sample_pandas sample_server [] ∅ 2020
              sample_header sample_rows eq_refl ltac:(vm_compute; reflexivity))
    as (df & Hd & Hl & Hc).
  destruct (Hc 0%nat
              [Some (lit "1682353"); Some (lit "N/A"); Some (lit "852672");
               Some (lit "06"); Some (lit "001")]
              1%nat (lit "male_population") (lit "N/A")
              eq_refl ltac:(right; left; reflexivity) eq_refl eq_refl
              ltac:(vm_compute; reflexivity))
    as (r' & Hr & Hcol & Hv).
  exists df, r'. split; [exact Hd|]. split; [exact Hl|].
  split; [exact Hr|]. split; [exact Hcol|exact Hv].
Defined.

Lemma year_is_only_a_label_witness :
  census_request 2015 (lit "k") = census_request 2022 (lit "k") /\
  opt_same_but_year
    (fst (download_census_data sample_pandas sample_server (lit "k") ∅ 2015))
    (fst (download_census_data sample_pandas sample_server (lit "k") ∅ 2022)).
Proof.
  destruct (year_is_only_a_label sample_pandas 2015 2022 (lit "k") ltac:(lia) ltac:(lia))
    as (Hreq & _ & Hout).
  split; [exact Hreq|]. apply Hout.
Defined.

(** * Further properties of the climate-division script *)

Section ClimateFiles.
Import ClimateDivisions Reencode Tables FileRecords.

Lemma decode_line_cases (raw : pystr) :
  decode_line raw = Skipped /\ (length (strip raw) < 68)%nat /\ records_of raw = [] \/
  decode_line raw = Raised /\ (68 <= length (strip raw))%nat \/
  exists y, (68 <= length (strip raw))%nat /\
    py_int (slice 4 8 (strip raw)) = Some y /\
    decode_line raw = Decoded (records_of raw) /\
    records_of raw
    = map (fun k => mk_record (strip (slice 0 4 (strip raw))) y (Z.of_nat k + 1)
                      (decode_field (monthly_field k (strip raw))))
          (seq 0 12).
Proof.
  unfold records_of, decode_line.
  destruct (Nat.ltb_spec (length (strip raw)) 68) as [Hlt|Hge]; [by left|].
  right. destruct (py_int _) as [y|] eqn:Hy; [right|by left].
  exists y. split; [done|]. split; [done|]. split; reflexivity.
Qed.

Lemma read_lines_records (f : file) (data : list record) :
  existsb raises f = false -> read_lines f data = Some (data ++ file_records f).
Proof.
  revert data. unfold file_records.
  induction f as [|ev f IH]; intros data; simpl.
  - intros _. by rewrite app_nil_r.
  - destruct ev as [l|]; simpl; [|done].
    unfold records_of. destruct (decode_line l); simpl; intros H; try done.
    + by apply IH.
    + rewrite IH by done. by rewrite app_assoc.
Qed.

Lemma event_records_length (ev : read_event) :
  raises ev = false ->
  length (event_records ev) = if is_long ev then 12%nat else 0%nat.
Proof.
  destruct ev as [l|]; [|done]. unfold event_records, is_long, raises.
  destruct (decode_line_cases l) as [(_ & Hlt & ->)|[(Hr & Hge)|(y & Hge & _ & _ & ->)]].
  - intros _. by destruct (Nat.leb_spec 68 (length (strip l))); [lia|].
  - by rewrite Hr.
  - intros _. rewrite length_map, length_seq.
    by destruct (Nat.leb_spec 68 (length (strip l))); [|lia].
Qed.

Lemma file_records_length (f : file) :
  existsb raises f = false -> length (file_records f) = (12 * long_lines f)%nat.
Proof.
  unfold file_records, long_lines.
  induction f as [|ev f IH]; simpl; [done|].
  intros [Hev Hf]%orb_false_elim.
  rewrite length_app, (event_records_length ev Hev), (IH Hf).
  destruct (is_long ev); simpl; lia.
Qed.

Lemma DataFrame_len (col : pystr) (data : list record) :
  table_len (DataFrame col data) = length data.
Proof.
  destruct data as [|d data]; [done|]. unfold DataFrame.
  destruct (is_key_label col); [done|].
  unfold table_len, frame_len. cbn [frame_rows]. by rewrite length_map.
Qed.

Lemma DataFrame_keyed (col : pystr) (data : list record) :
  is_key_label col = false ->
  exists df, DataFrame col data = Keyed df /\
    frame_rows df = map (fun r => mk_row (record_key r) [value r]) data.
Proof.
  intros Hk. destruct data as [|d data]; [by exists NoColumns|].
  unfold DataFrame. rewrite Hk. by eexists.
Qed.

(** X1: a file that reads and decodes without error gives a table with
    twelve rows for each line of 68 characters or more (after stripping)
    and none for the others; the table has columns exactly when there is
    such a line. *)
Theorem twelve_rows_per_long_line (f : file) (data_type : pystr) :
  existsb raises f = false ->
  exists df,
    process_climate_file f data_type = Some df /\
    table_len df = (12 * long_lines f)%nat /\
    (df = Keyed NoColumns <-> long_lines f = 0%nat).
Proof.
  intros Hf. unfold process_climate_file.
  rewrite (read_lines_records f [] Hf). cbn [app].
  eexists. split; [done|].
  pose proof (file_records_length f Hf) as Hlen.
  split.
  - by rewrite DataFrame_len.
  - destruct (file_records f) as [|r rs]; cbn [length] in Hlen.
    + split; [intros _; lia|done].
    + unfold DataFrame. split; [|lia].
      by destruct (is_key_label (lower data_type)).
Qed.

Lemma twelve_rows_per_long_line_witness :
  exists df,
    process_climate_file [Line line_29; Line (lit "0401 2000"); Line line_2001]
                         (lit "precipitation") = Some df /\
    table_len df = 24%nat.
Proof.
  destruct (twelve_rows_per_long_line
              [Line line_29; Line (lit "0401 2000"); Line line_2001]
              (lit "precipitation") ltac:(vm_compute; reflexivity))
    as (df & Hdf & Hlen & _).
  exists df. split; [exact Hdf|]. rewrite Hlen. reflexivity.
Defined.

Lemma event_records_id (ev : read_event) (r : record) :
  In r (event_records ev) -> line_id ev = Some (division_code r, year r).
Proof.
  destruct ev as [l|]; [|done]. unfold line_id. simpl.
  destruct (decode_line_cases l) as [(_ & _ & ->)|[(Hr & _)|(y & _ & _ & _ & ->)]].
  - done.
  - unfold records_of. by rewrite Hr.
  - intros (k & <- & _)%in_map_iff. reflexivity.
Qed.

Lemma event_records_NoDup (ev : read_event) :
  NoDup (map record_key (event_records ev)).
Proof.
  destruct ev as [l|]; [|constructor]. simpl.
  destruct (decode_line_cases l) as [(_ & _ & ->)|[(Hr & _)|(y & _ & _ & _ & ->)]].
  - constructor.
  - unfold records_of. rewrite Hr. constructor.
  - rewrite map_map. change (map ?g ?l) with (g <$> l).
    apply NoDup_fmap_2; [|apply NoDup_seq].
    intros a b [= H]. lia.
Qed.

(** X2: when [data_type] is not, in lower case, the label of a key
    column, and the lines of a file that decode stand for pairwise
    distinct (division code, year) pairs, the table is a keyed frame in
    which no key occurs twice. *)
Theorem distinct_lines_give_unique_keys (f : file) (data_type : pystr) (t : table) :
  is_key_label (lower data_type) = false ->
  NoDup (line_ids f) ->
  process_climate_file f data_type = Some t ->
  exists df, t = Keyed df /\ NoDup (keys (frame_rows df)).
Proof.
  intros Hlabel Hids. unfold process_climate_file.
  destruct (read_lines f []) as [data|] eqn:Hread; [|done].
  intros [= <-].
  assert (existsb raises f = false) as Hf.
  { destruct (existsb raises f) eqn:E; [|done].
    by rewrite (read_lines_raises f [] E) in Hread. }
  rewrite (read_lines_records f [] Hf) in Hread.
  destruct (DataFrame_keyed (lower data_type) data Hlabel) as (df & -> & Hrows).
  exists df. split; [done|]. rewrite Hrows.
  injection Hread as Hread. subst data. cbn [app].
  unfold keys. rewrite map_map. simpl.
  change (map (fun x => record_key x) (file_records f))
    with (map record_key (file_records f)).
  clear Hf Hrows df. unfold file_records, line_ids in *.
  induction f as [|ev f IH]; simpl; [constructor|].
  rewrite map_app. apply NoDup_app.
  assert (NoDup (omap line_id f) /\
          forall r, In r (event_records ev) -> (division_code r, year r) ∉ omap line_id f)
    as [Hrest Hfresh].
  { simpl in Hids. destruct (line_id ev) as [id|] eqn:Eid.
    - apply NoDup_cons in Hids as [Hid Hrest]. split; [done|].
      intros r Hr. apply event_records_id in Hr.
      rewrite Eid in Hr. by injection Hr as <-.
    - split; [done|]. intros r Hr. apply event_records_id in Hr. congruence. }
  split; [apply event_records_NoDup|]. split; [|by apply IH].
  intros k Hk Hk'.
  apply list_elem_of_In, in_map_iff in Hk as (r & <- & Hr).
  apply list_elem_of_In, in_map_iff in Hk' as (r' & Hkey & Hr').
  apply in_flat_map in Hr' as (ev' & Hev' & Hr').
  apply (Hfresh r Hr). apply list_elem_of_omap. exists ev'.
  split; [by apply list_elem_of_In|].
  rewrite (event_records_id ev' r' Hr').
  unfold record_key in Hkey. by injection Hkey as -> -> _.
Qed.

Lemma distinct_lines_give_unique_keys_witness :
  exists df,
    process_climate_file [Line line_29; Line line_2001] (lit "Precipitation")
      = Some (Keyed df) /\
    length (frame_rows df) = 24%nat /\
    NoDup (keys (frame_rows df)).
Proof.
  destruct (distinct_lines_give_unique_keys [Line line_29; Line line_2001]
              (lit "Precipitation") (Keyed sample_P)) as (df & Hdf & Hnd).
  - vm_compute. reflexivity.
  - apply (bool_decide_unpack _). vm_compute. exact I.
  - vm_compute. reflexivity.
  - exists df. injection Hdf as <-. split; [|split; [|exact Hnd]]; vm_compute; reflexivity.
Defined.

Lemma merge_and_save_Saved (dfs : list frame) (cols : list pystr) (rows : list out_row) :
  merge_and_save dfs = Saved cols rows ->
  exists first rest merged,
    dfs = first :: rest /\
    merge_loop first rest = Some (Frame cols merged) /\
    rows = map add_date (List.filter year_in_range merged).
Proof.
  unfold merge_and_save. destruct dfs as [|first rest]; [done|].
  destruct (merge_loop first rest) as [[|cs merged]|] eqn:Hm; try done.
  cbn [filter_years]. intros [= <- <-]. by exists first, rest, merged.
Qed.

(** X3: whatever [main] saves lies in the years 2000 to 2025: the saved
    rows are the merged rows of those years, in their order, each dated
    the first day of its month; a merged row of another year is dropped. *)
Theorem saved_rows_are_in_range (dfs : list frame) (cols : list pystr)
    (rows : list out_row) :
  merge_and_save dfs = Saved cols rows ->
  exists first rest merged,
    dfs = first :: rest /\
    merge_loop first rest = Some (Frame cols merged) /\
    rows = map add_date (List.filter year_in_range merged) /\
    (forall o, In o rows ->
       2000 <= key_year (row_key (out_data o)) <= 2025 /\
       out_date o = (key_year (row_key (out_data o)),
                     key_month (row_key (out_data o)), 1)) /\
    (forall r, In r merged ->
       (In (add_date r) rows <-> 2000 <= key_year (row_key r) <= 2025)).
Proof.
  unfold merge_and_save. destruct dfs as [|first rest]; [done|].
  destruct (merge_loop first rest) as [[|cs merged]|] eqn:Hm; try done.
  cbn [filter_years]. intros [= <- <-].
  exists first, rest, merged. split; [done|]. split; [done|]. split; [done|].
  split.
  - intros o (r & <- & Hr)%in_map_iff. apply filter_In in Hr as [_ Hy].
    unfold year_in_range in Hy. apply andb_prop in Hy as [H1 H2].
    apply Z.leb_le in H1, H2. simpl. split; [lia|done].
  - intros r Hr. split.
    + intros (r' & Heq & Hr')%in_map_iff.
      assert (r' = r) as -> by (by injection Heq).
      apply filter_In in Hr' as [_ Hy].
      unfold year_in_range in Hy. apply andb_prop in Hy as [H1 H2].
      apply Z.leb_le in H1, H2. lia.
    + intros Hy. apply in_map, filter_In. split; [done|].
      unfold year_in_range. apply andb_true_intro.
      split; apply Z.leb_le; lia.
Qed.

Lemma saved_rows_are_in_range_witness :
  exists cols rows,
    merge_and_save [sample_P; sample_T; sample_M] = Saved cols rows /\
    length rows = 24%nat /\
    forall o, In o rows -> 2000 <= key_year (row_key (out_data o)) <= 2025.
Proof.
  eexists _, _. split; [vm_compute; reflexivity|]. split; [reflexivity|].
  intros o Ho.
  destruct (saved_rows_are_in_range [sample_P; sample_T; sample_M] _ _
              ltac:(vm_compute; reflexivity)) as (_ & _ & _ & _ & _ & _ & Hin & _).
  exact (proj1 (Hin o Ho)).
Defined.

Lemma merge_loop_no_columns (first : frame) (dfs : list frame) :
  In NoColumns dfs -> merge_loop first dfs = None.
Proof.
  revert first. induction dfs as [|df dfs IH]; intros first; simpl; [done|].
  intros [->|Hin].
  - by destruct first.
  - destruct (merge_outer first df); [by apply IH|done].
Qed.

(** X4: a file that is read without error but has no line of 68
    characters is not skipped: it gives a table without any column, and
    a table without columns among those to merge makes [main] end in an
    exception instead of saving. *)
Theorem table_without_columns_stops_main (f : file) (data_type : pystr) :
  existsb raises f = false -> long_lines f = 0%nat ->
  process_climate_file f data_type = Some (Keyed NoColumns) /\
  forall pre post : list frame,
    merge_and_save (pre ++ NoColumns :: post) = Crashed.
Proof.
  intros Hf Hlong. split.
  - unfold process_climate_file. rewrite (read_lines_records f [] Hf). simpl.
    pose proof (file_records_length f Hf) as Hlen. rewrite Hlong in Hlen.
    by destruct (file_records f).
  - intros pre post. unfold merge_and_save.
    destruct pre as [|first pre]; simpl.
    + destruct post as [|df post]; [done|]. done.
    + rewrite merge_loop_no_columns; [done|]. apply in_app_iff. right. by left.
Qed.

Lemma table_without_columns_stops_main_witness :
  process_climate_file [Line (lit "0401 2000"); Line (lit "")] (lit "precipitation")
    = Some (Keyed NoColumns) /\
  merge_and_save [sample_P; NoColumns; sample_M] = Crashed.
Proof.
  destruct (table_without_columns_stops_main
              [Line (lit "0401 2000"); Line (lit "")] (lit "precipitation")
              ltac:(vm_compute; reflexivity) ltac:(vm_compute; reflexivity))
    as [H1 H2].
  split; [exact H1|]. exact (H2 [sample_P] [sample_M]).
Defined.

Lemma join_rows_width (nl nr : nat) (ls rs : list row) :
  Forall (fun r => length (row_cells r) = nl) ls ->
  Forall (fun r => length (row_cells r) = nr) rs ->
  Forall (fun r => length (row_cells r) = (nl + nr)%nat) (join_rows nl nr ls rs).
Proof.
  rewrite !Forall_forall. intros Hl Hr r Hin.
  apply list_elem_of_In in Hin. unfold join_rows in Hin.
  apply in_app_iff in Hin as [Hin|Hin].
  - apply in_flat_map in Hin as (l & Hlin & Hin).
    pose proof (Hl l (proj2 (list_elem_of_In _ _) Hlin)) as Hw.
    destruct (matches (row_key l) rs) as [|m ms] eqn:Em.
    + destruct Hin as [<-|[]]. simpl.
      unfold nulls. rewrite length_app, length_replicate. lia.
    + apply in_map_iff in Hin as (x & <- & Hx). simpl.
      rewrite <- Em in Hx. unfold matches in Hx. apply filter_In in Hx as [Hx _].
      rewrite length_app, (Hr x (proj2 (list_elem_of_In _ _) Hx)). lia.
  - apply in_map_iff in Hin as (x & <- & Hx). simpl.
    apply filter_In in Hx as [Hx _].
    unfold nulls. rewrite length_app, length_replicate,
      (Hr x (proj2 (list_elem_of_In _ _) Hx)). lia.
Qed.

Lemma merge_outer_rect (l r m : frame) :
  rect l -> rect r -> merge_outer l r = Some m -> rect m.
Proof.
  destruct l as [|lc ls], r as [|rc rs]; try done. simpl.
  intros Hl Hr [= <-]. simpl.
  rewrite sort_rows_perm.
  unfold suffixed. rewrite length_app, !length_map.
  by apply join_rows_width.
Qed.

Lemma merge_loop_rect (first : frame) (dfs : list frame) (m : frame) :
  rect first -> Forall rect dfs -> merge_loop first dfs = Some m -> rect m.
Proof.
  revert first. induction dfs as [|df dfs IH]; intros first Hf Hd; simpl.
  - by intros [= <-].
  - apply Forall_cons in Hd as [Hdf Hd].
    destruct (merge_outer first df) as [x|] eqn:Ex; [|done].
    apply IH; [|done]. by apply (merge_outer_rect first df).
Qed.

Lemma process_climate_file_rect (f : file) (data_type : pystr) (df : frame) :
  process_climate_file f data_type = Some (Keyed df) -> rect df.
Proof.
  unfold process_climate_file. destruct (read_lines f []) as [data|]; [|done].
  intros [= E]. destruct data as [|d data]; [by injection E as <-|].
  unfold DataFrame in E. destruct (is_key_label (lower data_type)); [done|].
  injection E as <-. unfold rect. apply Forall_forall. intros r Hr.
  apply list_elem_of_In in Hr.
  change (In r (map (fun x => mk_row (record_key x) [value x]) (d :: data))) in Hr.
  by apply in_map_iff in Hr as (x & <- & _).
Qed.

Lemma process_all_rect (downloaded : list (pystr * file)) (acc : list table) :
  Forall rect (keyed_frames acc) ->
  Forall rect (keyed_frames (process_all downloaded acc)).
Proof.
  revert acc. induction downloaded as [|[dt f] dl IH]; intros acc Hacc;
    cbn [process_all]; [done|].
  destruct (pystr_eqb dt (lit "readme")); [by apply IH|].
  destruct (process_climate_file f dt) as [t|] eqn:E; [|by apply IH].
  apply IH. unfold keyed_frames. rewrite omap_app. apply Forall_app. split; [done|].
  destruct t as [df|label data]; cbn [omap list_omap]; [|done].
  apply Forall_cons. split; [|done]. by apply (process_climate_file_rect f dt).
Qed.

Lemma process_climate_file_keyed (f : file) (data_type : pystr) (t : table) :
  is_key_label (lower data_type) = false ->
  process_climate_file f data_type = Some t -> exists df, t = Keyed df.
Proof.
  intros Hk. unfold process_climate_file.
  destruct (read_lines f []) as [data|]; [|done]. intros [= <-].
  destruct (DataFrame_keyed (lower data_type) data Hk) as (df & -> & _). by exists df.
Qed.

(** X22: [main] never overwrites a key column: none of its data types is,
    in lower case, the label of a key column, so every table it collects
    is a keyed frame with one value column, or the frame without columns,
    and each of them goes into the merge. *)
Theorem main_never_overwrites_a_key (web : provider) :
  Forall (fun t => exists df, t = Keyed df) (process_all (download_all web) []) /\
  length (keyed_frames (process_all (download_all web) []))
  = length (process_all (download_all web) []).
Proof.
  assert (Forall (fun t => exists df, t = Keyed df) (process_all (download_all web) []))
    as Hall.
  { rewrite process_all_spec. cbn [app]. apply Forall_forall. intros t Ht.
    apply list_elem_of_omap in Ht as ([dt f] & He & Ht). cbn [fst snd] in Ht.
    destruct (pystr_eqb dt (lit "readme")); [done|].
    apply (process_climate_file_keyed f dt); [|done].
    unfold download_all in He. apply list_elem_of_omap in He as ([dt' name] & Hin & He).
    cbn [fst snd] in He. destruct (web name); [|done]. injection He as -> ->.
    apply list_elem_of_In in Hin. vm_compute in Hin.
    destruct Hin as [[= <- _]|[[= <- _]|[[= <- _]|[[= <- _]|[]]]]]; reflexivity. }
  split; [done|].
  induction Hall as [|t ts [df ->] _ IH]; [done|].
  unfold keyed_frames in *. cbn [omap list_omap length]. by rewrite IH.
Qed.

(** X5: in the file [main] saves, every row has exactly one value cell
    per value column, whichever files were downloaded and however the
    keys of the tables overlap or repeat. *)
Theorem saved_rows_are_rectangular (web : provider) (cols : list pystr)
    (rows : list out_row) :
  main web = Saved cols rows ->
  Forall (fun o => length (row_cells (out_data o)) = length cols) rows.
Proof.
  unfold main. intros Hs.
  pose proof (process_all_rect (download_all web) [] ltac:(constructor)) as Hrect.
  destruct (merge_and_save_Saved _ _ _ Hs) as (first & rest & merged & Hd & Hm & ->).
  rewrite Hd in Hrect. apply Forall_cons in Hrect as [Hf Hr].
  pose proof (merge_loop_rect first rest _ Hf Hr Hm) as Hmr. simpl in Hmr.
  apply Forall_forall. intros o Ho.
  apply list_elem_of_In, in_map_iff in Ho as (r & <- & Hin).
  apply filter_In in Hin as [Hin _]. simpl.
  apply (proj1 (Forall_forall _ _) Hmr). by apply list_elem_of_In.
Qed.

Lemma saved_rows_are_rectangular_witness :
  exists cols rows,
    main one_file_provider = Saved cols rows /\
    Forall (fun o => length (row_cells (out_data o)) = length cols) rows.
Proof.
  eexists _, _. split; [vm_compute; reflexivity|].
  apply (saved_rows_are_rectangular one_file_provider). vm_compute. reflexivity.
Defined.

(** X6: the readme is downloaded but never decoded: what [main] does is
    fixed by the three data files alone. *)
Theorem readme_is_not_processed (web web' : provider) :
  (forall name, In name data_files -> web name = web' name) ->
  main web = main web'.
Proof.
  intros H. unfold main, download_all, files_to_download.
  cbn [omap list_omap fst snd].
  rewrite !H by (vm_compute; tauto).
  destruct (web' (lit "climdiv-ca-pcpncy-v1.0.0-20250905.txt")),
           (web' (lit "climdiv-ca-tmaxcy-v1.0.0-20250905.txt")),
           (web' (lit "climdiv-ca-tmincy-v1.0.0-20250905.txt")),
           (web (lit "climdiv-inv-readme.txt")),
           (web' (lit "climdiv-inv-readme.txt")); reflexivity.
Qed.

Lemma readme_is_not_processed_witness :
  main (fun name => if pystr_eqb name (lit "climdiv-inv-readme.txt")
                    then Some [ReadError] else one_file_provider name)
  = main one_file_provider.
Proof.
  apply readme_is_not_processed.
  intros name Hin. vm_compute in Hin.
  destruct Hin as [<-|[<-|[<-|[]]]]; vm_compute; reflexivity.
Defined.

Lemma slice_take (i j n : nat) (l : pystr) :
  (j <= n)%nat -> slice i j (take n l) = slice i j l.
Proof.
  intros H. unfold slice. rewrite skipn_firstn_comm, firstn_firstn.
  f_equal. lia.
Qed.

(** X7: only the first 68 characters of the stripped line are read: two
    lines that agree on them decode alike, whatever follows. *)
Theorem characters_after_68_are_ignored (a b : pystr) :
  (68 <= length (strip a))%nat -> (68 <= length (strip b))%nat ->
  take 68 (strip a) = take 68 (strip b) ->
  decode_line a = decode_line b.
Proof.
  intros Ha Hb H.
  assert (forall raw, (68 <= length (strip raw))%nat ->
            decode_line raw
            = match py_int (slice 4 8 (take 68 (strip raw))) with
              | None => Raised
              | Some y =>
                  Decoded (map (fun mv => mk_record
                                            (strip (slice 0 4 (take 68 (strip raw))))
                                            y (fst mv) (snd mv))
                               (enumerate1 (monthly_values (take 68 (strip raw)))))
              end) as Hcut.
  { intros raw Hraw. unfold decode_line.
    destruct (Nat.ltb_spec (length (strip raw)) 68); [lia|].
    rewrite !slice_take by lia.
    assert (monthly_values (take 68 (strip raw)) = monthly_values (strip raw)) as ->;
      [|done].
    unfold monthly_values. apply map_ext_in. intros i Hi.
    rewrite slice_take; [done|].
    vm_compute in Hi. intuition lia. }
  by rewrite (Hcut a Ha), (Hcut b Hb), H.
Qed.

Lemma characters_after_68_are_ignored_witness :
  decode_line (line_29 ++ lit "   31   32 trailing") = decode_line line_29.
Proof.
  apply characters_after_68_are_ignored;
    [vm_compute; lia | vm_compute; lia | vm_compute; reflexivity].
Defined.

End ClimateFiles.

(** * Further properties of the weather loop *)

Section WeatherMore.
Import Weather WeatherUnits.

Variable srv : server.
Variable dataset_id : pystr.
Variable station_id : option pystr.

Lemma fetch_one_total (year : Z) (st : state) (dt : pystr) :
  total_records st = length (concat (all_data st)) ->
  let st' := fetch_one srv dataset_id station_id year st dt in
  total_records st' = length (concat (all_data st')).
Proof.
  intros H. unfold fetch_one. cbv zeta.
  destruct (srv _) as [|code b]; [|destruct b; destruct (code =? 200)];
    cbn [total_records all_data]; try done.
  rewrite concat_app, length_app, H. simpl. by rewrite app_nil_r.
Qed.

Lemma save_yearly_fields (year : Z) (st : state) :
  total_records (save_yearly year st) = total_records st /\
  all_data (save_yearly year st) = all_data st.
Proof. unfold save_yearly. by destruct (all_data st) eqn:E. Qed.

Lemma fetch_year_total (st : state) (year : Z) :
  total_records st = length (concat (all_data st)) ->
  let st' := fetch_year srv dataset_id station_id st year in
  total_records st' = length (concat (all_data st')).
Proof.
  intros H. unfold fetch_year. cbv zeta.
  assert (forall dts st0, total_records st0 = length (concat (all_data st0)) ->
            total_records (fold_left (fetch_one srv dataset_id station_id year) dts st0)
            = length (concat (all_data
                (fold_left (fetch_one srv dataset_id station_id year) dts st0)))) as Hfold.
  { induction dts as [|dt dts IH]; intros st0 H0; cbn [fold_left]; [done|].
    apply IH. by apply fetch_one_total. }
  specialize (Hfold datatypes st H).
  by rewrite (proj1 (save_yearly_fields year _)), (proj2 (save_yearly_fields year _)).
Qed.

(** X8: the running count [total_records] is always the number of rows
    fetched so far, so the count printed with each snapshot is the number
    of rows of that snapshot, and at the end the number of rows returned. *)
Theorem total_records_counts_the_rows
    (fs : gmap pystr dataframe) (start_year end_year : Z) :
  (forall years,
     let st := fetch_years srv dataset_id station_id years (initial fs) in
     total_records st = length (concat (all_data st))) /\
  let run := download_weather_data_yearly srv fs dataset_id start_year end_year station_id in
  total_records (fst run) = length (snd run).
Proof.
  assert (forall years st, total_records st = length (concat (all_data st)) ->
            total_records (fetch_years srv dataset_id station_id years st)
            = length (concat (all_data (fetch_years srv dataset_id station_id years st))))
    as Hyears.
  { unfold fetch_years. induction years as [|y ys IH]; intros st H; cbn [fold_left]; [done|].
    apply IH. by apply fetch_year_total. }
  split; [intros years; by apply Hyears|].
  unfold download_weather_data_yearly. cbv zeta.
  specialize (Hyears (range_int start_year (end_year + 1)) (mk_state [] 0 fs []) eq_refl).
  unfold save_combined.
  destruct (all_data (fetch_years _ _ _ _ _)) as [|d ds] eqn:E; simpl in *; done.
Qed.

Lemma range_int_length (a b : Z) : length (range_int a b) = Z.to_nat (b - a).
Proof. unfold range_int. by rewrite length_map, length_seq. Qed.

Lemma fetch_years_nothing (years : list Z) (st : state) :
  all_data st = [] ->
  units_of_years srv dataset_id station_id years = [] ->
  files (fetch_years srv dataset_id station_id years st) = files st.
Proof.
  revert st. unfold fetch_years, units_of_years.
  induction years as [|y ys IH]; intros st Hst Hu; cbn [fold_left flat_map] in *; [done|].
  apply app_eq_nil in Hu as [Hy Hys].
  destruct (fetch_year_spec srv dataset_id station_id st y) as (Ha & _ & Hf).
  cbv zeta in Ha, Hf. rewrite Hst, Hy in Ha. simpl in Ha.
  rewrite IH by done. rewrite Hf. by rewrite Ha.
Qed.

Lemma flat_map_NoDup {A B} (f : A -> list B) (l : list A) :
  NoDup l -> (forall x, NoDup (f x)) ->
  (forall x y z, x <> y -> In z (f x) -> In z (f y) -> False) ->
  NoDup (flat_map f l).
Proof.
  intros Hl Hf Hdis. induction l as [|x l IH]; cbn [flat_map]; [constructor|].
  apply NoDup_cons in Hl as [Hx Hl]. apply NoDup_app.
  split; [apply Hf|]. split; [|by apply IH].
  intros z Hz Hz'. apply list_elem_of_In in Hz.
  apply list_elem_of_In, in_flat_map in Hz' as (y & Hy & Hz').
  apply (Hdis x y z); [|done..]. intros ->. by apply Hx, list_elem_of_In.
Qed.

(** X9: the run issues exactly one request for each year of the range
    and each of TMAX, TMIN and PRCP, in that order, whatever the
    answers: the year's first and last day as dates, limit 1000,
    offset 1, and a [stationid] only when [station_id] is a non-empty
    string.  No request is issued twice (there is no retry and no second
    page), so there are three for each year; for an empty range none is
    issued, nothing is written and an empty frame is returned. *)
Theorem three_requests_per_year
    (fs : gmap pystr dataframe) (start_year end_year : Z) :
  let run := download_weather_data_yearly srv fs dataset_id start_year end_year station_id in
  issued (fst run)
  = flat_map (fun y =>
      map (fun dt =>
             mk_request dataset_id (lit "FIPS:06") dt
               (str_of_int y ++ lit "-01-01") (str_of_int y ++ lit "-12-31")
               (lit "metric") 1000 1
               (match station_id with Some (c :: s) => Some (c :: s) | _ => None end))
          [lit "TMAX"; lit "TMIN"; lit "PRCP"])
      (range_int start_year (end_year + 1)) /\
  NoDup (issued (fst run)) /\
  length (issued (fst run)) = (3 * Z.to_nat (end_year + 1 - start_year))%nat /\
  (end_year < start_year ->
     issued (fst run) = [] /\ files (fst run) = fs /\ snd run = []).
Proof.
  unfold download_weather_data_yearly. cbv zeta.
  pose proof (fetch_years_spec srv dataset_id station_id
                (range_int start_year (end_year + 1)) (mk_state [] 0 fs [])) as (Ha & Hi).
  cbv zeta in Ha, Hi. simpl in Ha, Hi.
  pose proof (save_combined_spec start_year end_year
                (fetch_years srv dataset_id station_id
                   (range_int start_year (end_year + 1)) (mk_state [] 0 fs []))) as Hs.
  destruct (save_combined _ _ _) as [st df] eqn:Esave.
  destruct Hs as (_ & Hi' & Hdf & _). cbn [fst snd].
  assert (issued st
          = flat_map (fun y =>
              map (fun dt =>
                     mk_request dataset_id (lit "FIPS:06") dt
                       (str_of_int y ++ lit "-01-01") (str_of_int y ++ lit "-12-31")
                       (lit "metric") 1000 1
                       (match station_id with Some (c :: s) => Some (c :: s) | _ => None end))
                  [lit "TMAX"; lit "TMIN"; lit "PRCP"])
              (range_int start_year (end_year + 1))) as Hissued.
  { rewrite Hi', Hi. apply flat_map_ext. intros y.
    unfold requests_of_year, datatypes, make_request, if_station.
    by destruct station_id as [[|c s]|]. }
  split; [exact Hissued|]. split; [|split].
  - rewrite Hissued. apply flat_map_NoDup.
    + apply NoDup_ListNoDup, range_int_NoDup.
    + intros y. change (map ?g ?l) with (g <$> l). apply NoDup_fmap_2.
      * intros dt dt' E. by injection E.
      * apply (bool_decide_unpack _). vm_compute. exact I.
    + intros y y' rq Hne (dt & <- & _)%in_map_iff (dt' & E & _)%in_map_iff.
      injection E as _ E _. apply app_inv_tail in E.
      by apply Hne, eq_sym, str_of_int_inj.
  - rewrite Hi', Hi.
    assert (forall ys, length (flat_map (requests_of_year dataset_id station_id) ys)
                       = (3 * length ys)%nat) as Hlen.
    { induction ys as [|y ys IH]; simpl; [done|]. rewrite IH. lia. }
    by rewrite Hlen, range_int_length.
  - intros Hlt.
    assert (range_int start_year (end_year + 1) = []) as Hr.
    { unfold range_int. by replace (Z.to_nat (end_year + 1 - start_year)) with 0%nat by lia. }
    rewrite Hr in *. cbn in Esave. injection Esave as <- <-. done.
Qed.

(** X10: the run writes only its own files: a file of the output
    directory that is neither a snapshot of a year of the range nor the
    combined file is left as it was; and when no request brings data, no
    file is written at all. *)
Theorem other_files_are_untouched
    (fs : gmap pystr dataframe) (start_year end_year : Z) :
  let years := range_int start_year (end_year + 1) in
  let run := download_weather_data_yearly srv fs dataset_id start_year end_year station_id in
  (forall name,
     (forall y, In y years -> name <> yearly_file y) ->
     name <> combined_file start_year end_year ->
     files (fst run) !! name = fs !! name) /\
  (units_of_years srv dataset_id station_id years = [] ->
     files (fst run) = fs /\ snd run = []).
Proof.
  intros years run.
  pose proof (fetch_years_spec srv dataset_id station_id years (initial fs)) as (Hall & _).
  cbv zeta in Hall. simpl in Hall.
  assert (run = save_combined start_year end_year
                  (fetch_years srv dataset_id station_id years (initial fs))) as Hrun by done.
  split.
  - intros name Hy Hc. rewrite Hrun. unfold save_combined.
    destruct (all_data (fetch_years srv dataset_id station_id years (initial fs)));
      cbn [fst files].
    + by rewrite (fetch_years_files_other srv dataset_id station_id years (initial fs) name Hy).
    + rewrite lookup_insert_ne by done.
      by rewrite (fetch_years_files_other srv dataset_id station_id years (initial fs) name Hy).
  - intros Hu. rewrite Hrun. unfold save_combined. rewrite Hall, Hu. simpl.
    split; [|done]. by apply fetch_years_nothing.
Qed.

End WeatherMore.

Section WeatherMoreWitnesses.
Import Weather WeatherUnits.

Lemma three_requests_per_year_witness :
  (let run := download_weather_data_yearly flaky_server ∅ (lit "GHCND") 2020 2021
                (Some []) in
   map (fun rq => (startdate rq, datatypeid rq, stationid rq)) (issued (fst run))
   = [ (lit "2020-01-01", lit "TMAX", None); (lit "2020-01-01", lit "TMIN", None);
       (lit "2020-01-01", lit "PRCP", None); (lit "2021-01-01", lit "TMAX", None);
       (lit "2021-01-01", lit "TMIN", None); (lit "2021-01-01", lit "PRCP", None) ] /\
   NoDup (issued (fst run))) /\
  (let run := download_weather_data_yearly flaky_server ∅ (lit "GHCND") 2024 2020 None in
   issued (fst run) = [] /\ files (fst run) = ∅ /\ snd run = []).
Proof.
  split.
  - destruct (three_requests_per_year flaky_server (lit "GHCND") (Some []) ∅ 2020 2021)
      as (Hi & Hnd & _).
    cbv zeta. split; [rewrite Hi; vm_compute; reflexivity|exact Hnd].
  - exact (proj2 (proj2 (proj2
             (three_requests_per_year flaky_server (lit "GHCND") None ∅ 2024 2020)))
             ltac:(lia)).
Defined.

Lemma other_files_are_untouched_witness :
  let run := download_weather_data_yearly (fun _ => Raises)
               {[ lit "notes.txt" := [] ]} (lit "GHCND") 2020 2022 None in
  files (fst run) = {[ lit "notes.txt" := [] ]} /\ snd run = [].
Proof.
  exact (proj2 (other_files_are_untouched (fun _ => Raises) (lit "GHCND") None
                  {[ lit "notes.txt" := [] ]} 2020 2022) eq_refl).
Defined.

End WeatherMoreWitnesses.

Section WeatherSnapshots.
Import Weather WeatherUnits.

Variable srv : server.
Variable dataset_id : pystr.
Variable station_id : option pystr.

Lemma units_of_years_app (ys1 ys2 : list Z) :
  units_of_years srv dataset_id station_id (ys1 ++ ys2)
  = units_of_years srv dataset_id station_id ys1
      ++ units_of_years srv dataset_id station_id ys2.
Proof. unfold units_of_years. apply flat_map_app. Qed.

(** The snapshot of a year as the finished run leaves it. *)
Lemma snapshot_at_the_end (fs : gmap pystr dataframe) (start_year end_year : Z)
    (before after : list Z) (y : Z) :
  range_int start_year (end_year + 1) = before ++ y :: after ->
  units_of_years srv dataset_id station_id (before ++ [y]) <> [] ->
  files (fst (download_weather_data_yearly srv fs dataset_id start_year end_year station_id))
    !! yearly_file y
  = Some (concat (units_of_years srv dataset_id station_id (before ++ [y]))).
Proof.
  intros Hr Hne. unfold download_weather_data_yearly. rewrite Hr.
  replace (before ++ y :: after) with ((before ++ [y]) ++ after)
    by (by rewrite <- app_assoc).
  rewrite fetch_years_app, (fetch_years_app srv dataset_id station_id before [y]).
  set (st0 := fetch_years srv dataset_id station_id before (mk_state [] 0 fs [])).
  change (fetch_years srv dataset_id station_id [y] st0)
    with (fetch_year srv dataset_id station_id st0 y).
  set (st1 := fetch_year srv dataset_id station_id st0 y).
  assert (all_data st1 = units_of_years srv dataset_id station_id (before ++ [y])) as Ha.
  { destruct (fetch_years_spec srv dataset_id station_id before (mk_state [] 0 fs []))
      as (Ha0 & _).
    destruct (fetch_year_spec srv dataset_id station_id st0 y) as (Ha1 & _).
    cbv zeta in Ha0, Ha1. fold st0 in Ha0. fold st1 in Ha1.
    rewrite Ha1, Ha0, units_of_years_app. simpl. unfold units_of_years at 2. simpl.
    by rewrite app_nil_r. }
  assert (files st1 !! yearly_file y = Some (concat (all_data st1))) as Hsnap.
  { destruct (fetch_year_spec srv dataset_id station_id st0 y) as (_ & _ & Hf).
    cbv zeta in Hf. fold st1 in Hf. rewrite Hf.
    destruct (all_data st1); [by rewrite <- Ha in Hne|]. apply lookup_insert_eq. }
  rewrite <- Ha, <- Hsnap.
  trans (files (fetch_years srv dataset_id station_id after st1) !! yearly_file y).
  { unfold save_combined.
    destruct (all_data (fetch_years srv dataset_id station_id after st1)); [done|].
    cbn [fst files]. apply lookup_insert_ne. apply not_eq_sym, yearly_not_combined. }
  apply fetch_years_files_other.
  intros y' Hy' E. apply yearly_file_inj in E. subst y'.
  by apply (range_int_split _ _ _ _ _ Hr).
Qed.

(** X11: the snapshots only grow: the snapshot of each year is an
    initial segment of the frame the run returns and writes to the
    combined file. *)
Theorem snapshot_is_a_prefix_of_the_combined_file
    (fs : gmap pystr dataframe) (start_year end_year : Z)
    (before after : list Z) (y : Z) :
  range_int start_year (end_year + 1) = before ++ y :: after ->
  units_of_years srv dataset_id station_id (before ++ [y]) <> [] ->
  let run := download_weather_data_yearly srv fs dataset_id start_year end_year station_id in
  exists snapshot,
    files (fst run) !! yearly_file y = Some snapshot /\
    files (fst run) !! combined_file start_year end_year = Some (snd run) /\
    snapshot `prefix_of` snd run.
Proof.
  intros Hr Hne run.
  exists (concat (units_of_years srv dataset_id station_id (before ++ [y]))).
  split; [exact (snapshot_at_the_end fs start_year end_year before after y Hr Hne)|].
  pose proof (fetch_years_spec srv dataset_id station_id
                (range_int start_year (end_year + 1)) (mk_state [] 0 fs [])) as (Ha & _).
  cbv zeta in Ha. simpl in Ha.
  pose proof (save_combined_spec start_year end_year
                (fetch_years srv dataset_id station_id
                   (range_int start_year (end_year + 1)) (mk_state [] 0 fs []))) as Hs.
  unfold run, download_weather_data_yearly.
  destruct (save_combined _ _ _) as [st df].
  destruct Hs as (_ & _ & Hdf & Hfile). simpl.
  assert (df = concat (units_of_years srv dataset_id station_id (before ++ [y]))
                 ++ concat (units_of_years srv dataset_id station_id after)) as Hsplit.
  { rewrite Hdf, Ha, Hr.
    replace (before ++ y :: after) with ((before ++ [y]) ++ after)
      by (by rewrite <- app_assoc).
    by rewrite units_of_years_app, concat_app. }
  split.
  - apply Hfile. rewrite Ha, Hr.
    replace (before ++ y :: after) with ((before ++ [y]) ++ after)
      by (by rewrite <- app_assoc).
    rewrite units_of_years_app. intros E. apply app_eq_nil in E as [E _]. done.
  - rewrite Hsplit. by eexists.
Qed.

End WeatherSnapshots.

Section WeatherSnapshotsWitness.
Import Weather WeatherUnits.

Lemma snapshot_is_a_prefix_of_the_combined_file_witness :
  let run := download_weather_data_yearly flaky_server ∅ (lit "GHCND") 2020 2022 None in
  exists snapshot,
    files (fst run) !! yearly_file 2021 = Some snapshot /\
    files (fst run) !! combined_file 2020 2022 = Some (snd run) /\
    snapshot `prefix_of` snd run.
Proof.
  apply (snapshot_is_a_prefix_of_the_combined_file flaky_server (lit "GHCND") None
           ∅ 2020 2022 [2020] [2022] 2021).
  - reflexivity.
  - vm_compute. discriminate.
Defined.

End WeatherSnapshotsWitness.

(** * Further properties of the Census download *)

Section CensusMore.
Import Census CensusShape CensusCells.

Context {number : Type}.
Variable pd : @pandas number.

Local Abbreviation frame := (@frame number).
Local Abbreviation cell := (@cell number).

(** ** The outcome of one download *)

(** X12: [download_census_data] returns a frame exactly when the request
    is answered by a table of the expected shape; it then saves that frame
    under the year's file name.  In every other case (the request fails,
    the answer is not JSON or is an empty array, a row is longer than the
    header, a column the code reads is missing or repeated) it returns
    [None] and leaves the files as they were. *)
Theorem frame_exactly_for_a_table_of_the_expected_shape
    (srv : server) (api_key : pystr) (fs : gmap pystr frame) (year : Z) :
  match srv (census_request year api_key) with
  | Answer (Table header rs) =>
      if shape_ok year header rs
      then exists df, download_census_data pd srv api_key fs year
                      = (Some df, <[population_file year := df]> fs)
      else download_census_data pd srv api_key fs year = (None, fs)
  | _ => download_census_data pd srv api_key fs year = (None, fs)
  end.
Proof.
  unfold download_census_data.
  destruct (srv (census_request year api_key)) as [|[| |header rs]]; try done.
  destruct (shape_ok year header rs) eqn:Hshape.
  - destruct (build_frame_columns pd year header rs Hshape) as (df & cs & Hdf & _).
    exists df. by rewrite Hdf.
  - destruct (build_frame pd year (Table header rs)) as [df|] eqn:Hdf; [|done].
    apply build_frame_shape in Hdf. congruence.
Qed.

(** X13: every frame [download_census_data] returns has a column named
    [year], and every row holds the requested year, as an integer, in
    every column of that name, whatever the answer held there. *)
Theorem every_row_carries_the_requested_year
    (srv : server) (api_key : pystr) (fs : gmap pystr frame) (year : Z) (df : frame) :
  fst (download_census_data pd srv api_key fs year) = Some df ->
  (exists j, columns df !! j = Some (lit "year")) /\
  forall r j, In r (rows df) -> columns df !! j = Some (lit "year") ->
    r !! j = Some (CInt year).
Proof.
  rewrite download_frame_of. unfold frame_of. cbn [fst].
  destruct (srv (census_request year api_key)) as [|[| |header rs]]; try done.
  intros Hdf.
  pose proof (build_frame_shape pd year header rs df Hdf) as Hshape.
  destruct (build_frame_columns pd year header rs Hshape)
    as (df' & cs & Hdf' & Hrect & Hlen & Hcs & Hcols & _ & Hyear & _).
  rewrite Hdf in Hdf'. injection Hdf' as <-.
  destruct (columns_after _ _ _ Hcs) as (_ & _ & _ & [jy Hjy] & _).
  destruct (columns_after _ _ _ Hcols) as (Hkeep & _).
  split; [exists jy; by apply Hkeep|]. intros r j Hin Hj.
  apply list_elem_of_In, list_elem_of_lookup_1 in Hin as [i Hi].
  destruct (cell_of_column df i j r _ Hrect Hi Hj) as (y & Hy & Hcy).
  rewrite Hy. rewrite (Hyear j Hj) in Hcy.
  change (map ?g ?l) with (g <$> l) in Hcy. rewrite list_lookup_fmap in Hcy.
  destruct (rs !! i); simpl in Hcy; congruence.
Qed.

(** X14: the [county_name] of a row is looked up from the value the
    answer holds under [county]: the name the FIPS dictionary gives for
    it, and null when the value is null, missing from a short row, or no
    key of the dictionary.  Each row gets the name of its own county,
    with one exception that pandas makes: when the answer itself has
    several columns named [county_name], and as many rows as such
    columns, the first of these columns holds the name of the first
    row in every row, the second that of the second row, and so on. *)
Theorem county_name_is_looked_up_from_the_fips_code
    (srv : server) (api_key : pystr) (fs : gmap pystr frame) (year : Z)
    (header : list pystr) (rs : list (list json_value)) (df : frame)
    (i jf : nat) (r : list json_value) :
  srv (census_request year api_key) = Answer (Table header rs) ->
  fst (download_census_data pd srv api_key fs year) = Some df ->
  rs !! i = Some r ->
  renamed_header year header !! jf = Some (lit "county_fips") ->
  (exists j, columns df !! j = Some (lit "county_name")) /\
  exists r', rows df !! i = Some r' /\
    forall j, columns df !! j = Some (lit "county_name") ->
      if Nat.ltb 1 (count_col (lit "county_name") (columns df))
         && Nat.eqb (count_col (lit "county_name") (columns df)) (length rs)
      then exists r0, rs !! rank (lit "county_name") (columns df) j = Some r0 /\
                      r' !! j = Some (county_name_of (raw_cell r0 jf))
      else r' !! j = Some (county_name_of (raw_cell r jf)).
Proof.
  intros Hsrv Hret Hr Hjf.
  pose proof (download_Some_build pd srv api_key fs year header rs df Hsrv Hret) as Hdf.
  pose proof (build_frame_shape pd year header rs df Hdf) as Hshape.
  destruct (build_frame_columns pd year header rs Hshape)
    as (df' & cs & Hdf' & Hrect & Hlen & Hcs & Hcols & _ & _ & _ & _ & Hname).
  rewrite Hdf in Hdf'. injection Hdf' as <-.
  destruct (columns_after _ _ _ Hcols) as (_ & _ & _ & Hex & _ & _).
  split; [done|].
  destruct (lookup_lt_is_Some_2 (rows df) i) as [r' Hr'].
  { rewrite Hlen. by apply lookup_lt_Some in Hr. }
  exists r'. split; [done|]. intros j Hj.
  destruct (cell_of_column df i j r' _ Hrect Hr' Hj) as (y & Hy & Hcy).
  rewrite Hy. rewrite (Hname j jf Hj Hjf) in Hcy.
  assert (one_per_column (lit "county_name") cs
            (map (county_cell (number := number) jf) rs)
          = Nat.ltb 1 (count_col (lit "county_name") (columns df))
            && Nat.eqb (count_col (lit "county_name") (columns df)) (length rs)) as Hone.
  { unfold one_per_column. rewrite length_map, Hcols.
    destruct (Nat.eqb_spec (count_col (lit "county_name") cs) 0) as [E|E]; [|done].
    rewrite count_col_snoc, E, pystr_eqb_refl. done. }
  rewrite Hone in Hcy.
  destruct (Nat.ltb 1 _ && Nat.eqb _ (length rs)) eqn:Eb.
  - apply andb_prop in Eb as [E1 E2]. apply Nat.ltb_lt in E1. apply Nat.eqb_eq in E2.
    assert (columns df = cs) as Hsame.
    { revert E1. rewrite Hcols.
      destruct (Nat.eqb_spec (count_col (lit "county_name") cs) 0) as [E|E]; [|done].
      rewrite count_col_snoc, E, pystr_eqb_refl. lia. }
    rewrite <- Hsame in Hcy.
    destruct (lookup_lt_is_Some_2 rs (rank (lit "county_name") (columns df) j)) as [r0 Hr0].
    { rewrite <- E2. by apply rank_lt. }
    exists r0. split; [done|].
    change (map ?g ?l) with (g <$> l) in Hcy.
    rewrite !list_lookup_fmap, Hr, Hr0 in Hcy. simpl in Hcy.
    unfold county_cell in Hcy. congruence.
  - change (map ?g ?l) with (g <$> l) in Hcy.
    rewrite list_lookup_fmap, Hr in Hcy. simpl in Hcy.
    unfold county_cell in Hcy. congruence.
Qed.

(** X15: inverting the county dictionary loses no county: each of the 58
    FIPS codes of [get_california_counties] is mapped back to its county,
    and any other string, like a null, is mapped to null. *)
Theorem every_listed_code_maps_back_to_its_county (s : pystr) :
  (forall name, In (name, s) california_counties ->
     county_name_of (number := number) (CStr s) = CStr name) /\
  ((forall name, ~ In (name, s) california_counties) ->
     county_name_of (number := number) (CStr s) = CNull) /\
  length california_counties = 58%nat.
Proof.
  assert (forall name, In (name, s) california_counties -> fips_to_name !! s = Some name)
    as Hin.
  { intros name H.
    assert (Forall (fun p => fips_to_name !! snd p = Some (fst p)) california_counties) as HF.
    { apply (bool_decide_unpack _). vm_compute. exact I. }
    exact (proj1 (List.Forall_forall _ _) HF (name, s) H). }
  split; [|split; [|reflexivity]].
  - intros name H. unfold county_name_of. by rewrite (Hin name H).
  - intros Hno. unfold county_name_of.
    destruct (fips_to_name !! s) as [n|] eqn:E; [|done]. exfalso.
    unfold fips_to_name in E. apply elem_of_list_to_map_2 in E.
    apply list_elem_of_In, in_rev, in_map_iff in E as ([n' s'] & [= <- <-] & Hp).
    exact (Hno _ Hp).
Qed.

(** X16: a column of the answer that is neither a population column nor
    named [year] or [county_name] reaches the saved frame unchanged, under
    its renamed label and at its place: a string stays that string, a null
    stays null, and a row shorter than the header is filled with nulls. *)
Theorem other_columns_pass_through
    (srv : server) (api_key : pystr) (fs : gmap pystr frame) (year : Z)
    (header : list pystr) (rs : list (list json_value)) (df : frame)
    (i j : nat) (r : list json_value) (x : pystr) :
  srv (census_request year api_key) = Answer (Table header rs) ->
  fst (download_census_data pd srv api_key fs year) = Some df ->
  rs !! i = Some r ->
  renamed_header year header !! j = Some x ->
  ~ In x population_cols -> x <> lit "year" -> x <> lit "county_name" ->
  exists r', rows df !! i = Some r' /\ columns df !! j = Some x /\
    r' !! j = Some (match r !! j with Some v => cell_of_json v | None => CNull end).
Proof.
  intros Hsrv Hret Hr Hx Hpop Hy Hn.
  pose proof (download_Some_build pd srv api_key fs year header rs df Hsrv Hret) as Hdf.
  pose proof (build_frame_shape pd year header rs df Hdf) as Hshape.
  destruct (build_frame_columns pd year header rs Hshape)
    as (df' & cs & Hdf' & Hrect & Hlen & _ & _ & Hkeep & _ & _ & Hother & _).
  rewrite Hdf in Hdf'. injection Hdf' as <-.
  destruct (lookup_lt_is_Some_2 (rows df) i) as [r' Hr'].
  { rewrite Hlen. by apply lookup_lt_Some in Hr. }
  exists r'. split; [done|]. split; [by apply Hkeep|].
  destruct (cell_of_column df i j r' x Hrect Hr' (Hkeep j x Hx)) as (y & Hy' & Hcy).
  rewrite Hy'. rewrite (Hother j x Hx) in Hcy; [|  |done|done].
  - unfold raw_column in Hcy. change (map ?g ?l) with (g <$> l) in Hcy.
    rewrite list_lookup_fmap, Hr in Hcy. simpl in Hcy. by rewrite <- Hcy.
  - apply not_true_is_false. intros H. by apply Hpop, is_population_In.
Qed.

(** X17: a population column of the returned frame is what
    [pd.to_numeric] makes of the whole column of the answer, the strings
    and nulls as the API sent them and null where a row is too short:
    the cell of a row is the cell of that row in the converted column.
    What a numeric string becomes can so depend on the other cells of its
    column, and on nothing else; a null of the answer and the padding of
    a short row stay null. *)
Theorem population_column_is_converted_as_a_whole
    (srv : server) (api_key : pystr) (fs : gmap pystr frame) (year : Z)
    (header : list pystr) (rs : list (list json_value)) (df : frame)
    (i j : nat) (r : list json_value) (col : pystr) :
  srv (census_request year api_key) = Answer (Table header rs) ->
  fst (download_census_data pd srv api_key fs year) = Some df ->
  rs !! i = Some r ->
  renamed_header year header !! j = Some col ->
  In col population_cols ->
  exists r', rows df !! i = Some r' /\ columns df !! j = Some col /\
    r' !! j = to_numeric pd (raw_column rs j) !! i /\
    (r !! j = Some None \/ r !! j = None -> r' !! j = Some CNull).
Proof.
  intros Hsrv Hret Hr Hx Hpop.
  pose proof (download_Some_build pd srv api_key fs year header rs df Hsrv Hret) as Hdf.
  pose proof (build_frame_shape pd year header rs df Hdf) as Hshape.
  destruct (build_frame_columns pd year header rs Hshape)
    as (df' & cs & Hdf' & Hrect & Hlen & _ & _ & Hkeep & _ & Hcol & _).
  rewrite Hdf in Hdf'. injection Hdf' as <-.
  destruct (lookup_lt_is_Some_2 (rows df) i) as [r' Hr'].
  { rewrite Hlen. by apply lookup_lt_Some in Hr. }
  exists r'. split; [done|]. split; [by apply Hkeep|].
  destruct (cell_of_column df i j r' col Hrect Hr' (Hkeep j col Hx)) as (y & Hy & Hcy).
  rewrite (Hcol j col Hx (proj2 (is_population_In col) Hpop)) in Hcy.
  split; [congruence|].
  intros Hnull. rewrite Hy, <- Hcy. apply to_numeric_null.
  unfold raw_column. change (map ?g ?l) with (g <$> l).
  rewrite list_lookup_fmap, Hr. simpl. unfold raw_cell.
  unfold json_value in *. by destruct Hnull as [-> | ->].
Qed.

(** X18: before 2010 the year is part of the URL, so two different years
    are never asked of the same address (from 2010 on every year is). *)
Theorem early_years_have_their_own_url (y1 y2 : Z) (k1 k2 : pystr) :
  y1 < 2010 -> y2 < 2010 -> y1 <> y2 ->
  url (census_request y1 k1) <> url (census_request y2 k2).
Proof.
  intros H1 H2 Hne. unfold census_request.
  destruct (Z.leb_spec 2010 y1); [lia|]. destruct (Z.leb_spec 2010 y2); [lia|].
  cbn [url]. intros E%app_inv_head%app_inv_tail. by apply Hne, str_of_int_inj.
Qed.

End CensusMore.

(** ** The run over all years *)

Section CensusAllYears.
Import Census CensusShape CensusCells.

Context {number : Type}.
Variable pd : @pandas number.
Variable pd_concat : list (@frame number) -> option (@frame number).
Variable web : provider_by_call.
Variable api_key : pystr.

Local Abbreviation frame := (@frame number).

Lemma population_file_inj (y y' : Z) : population_file y = population_file y' -> y = y'.
Proof.
  unfold population_file. intros H%app_inv_head%app_inv_tail.
  by apply str_of_int_inj.
Qed.

Lemma population_file_not_combined (y : Z) : population_file y <> combined_population_file.
Proof.
  unfold population_file.
  change combined_population_file
    with (lit "california_population_" ++ lit "combined.csv").
  intros H%app_inv_head.
  pose proof (str_of_int_chars y) as Hc.
  destruct (str_of_int y) as [|c t].
  - vm_compute in H. discriminate.
  - change (lit "combined.csv") with ("c"%char :: lit "ombined.csv") in H.
    injection H as -> _. vm_compute in Hc. discriminate.
Qed.

Lemma turns_cons (k : nat) (y : Z) (years : list Z) :
  turns k (y :: years) = (k, y) :: turns (S k) years.
Proof.
  unfold turns. rewrite imap_cons. f_equal; [by rewrite Nat.add_0_r|].
  apply imap_ext. intros i x _. simpl. f_equal. lia.
Qed.

Lemma In_turns (k : nat) (years : list Z) (t : nat * Z) :
  In t (turns k years) <-> exists i, years !! i = Some (snd t) /\ fst t = (k + i)%nat.
Proof.
  unfold turns. rewrite <- list_elem_of_In, list_elem_of_lookup. split.
  - intros [i Hi]. rewrite list_lookup_imap in Hi.
    destruct (years !! i) as [y|] eqn:E; [|done]. injection Hi as <-. by exists i.
  - intros (i & Hi & Hk). exists i. rewrite list_lookup_imap, Hi. destruct t. simpl in *.
    by subst.
Qed.

Lemma collect_year_frame_of (srv : server) (acc : list frame) (fs : gmap pystr frame)
    (y : Z) :
  collect_year pd srv api_key (acc, fs) y
  = match frame_of pd srv api_key y with
    | Some df => (acc ++ [df], <[population_file y := df]> fs)
    | None => (acc, fs)
    end.
Proof.
  unfold collect_year. cbn [fst snd]. rewrite (download_frame_of pd).
  by destruct (frame_of pd srv api_key y).
Qed.

(** The loop of lines 145-151 over any list of years, from any turn. *)
Lemma collect_years_spec (years : list Z) (k : nat) (acc : list frame)
    (fs : gmap pystr frame) :
  exists fs1,
    collect_years pd web api_key k years (acc, fs)
      = (acc ++ omap (frame_of_turn pd web api_key) (turns k years), fs1) /\
    (forall y,
       fs1 !! population_file y
       = match last (omap (frame_for pd web api_key y) (turns k years)) with
         | Some df => Some df
         | None => fs !! population_file y
         end) /\
    (forall p, (forall y, In y years -> p <> population_file y) -> fs1 !! p = fs !! p) /\
    (omap (frame_of_turn pd web api_key) (turns k years) = [] -> fs1 = fs).
Proof.
  revert k acc fs. induction years as [|y0 years IH]; intros k acc fs.
  - exists fs. cbn. by rewrite app_nil_r.
  - cbn [collect_years]. rewrite collect_year_frame_of, turns_cons.
    cbn [omap list_omap].
    assert (forall y, frame_for pd web api_key y (k, y0)
                      = if Z.eqb y0 y then frame_of pd (web k) api_key y0 else None) as Hfor
      by done.
    change (frame_of_turn pd web api_key (k, y0)) with (frame_of pd (web k) api_key y0).
    destruct (frame_of pd (web k) api_key y0) as [df|] eqn:Ey.
    + destruct (IH (S k) (acc ++ [df]) (<[population_file y0 := df]> fs))
        as (fs1 & E & Hin & Hout & _).
      exists fs1. split; [by rewrite E, <- app_assoc|]. split; [|split; [|by intros ?]].
      * intros y. rewrite (Hin y), (Hfor y).
        destruct (Z.eqb_spec y0 y) as [->|Hne].
        -- rewrite last_cons.
           destruct (last (omap (frame_for pd web api_key y) (turns (S k) years))); [done|].
           by rewrite lookup_insert_eq.
        -- destruct (last (omap (frame_for pd web api_key y) (turns (S k) years))); [done|].
           apply lookup_insert_ne. by intros ?%population_file_inj.
      * intros p Hp. rewrite Hout.
        -- apply lookup_insert_ne. intros <-. by apply (Hp y0); [left|].
        -- intros y Hy. apply Hp. by right.
    + destruct (IH (S k) acc fs) as (fs1 & E & Hin & Hout & Hnone).
      exists fs1. split; [done|]. split; [|split; [|done]].
      * intros y. rewrite (Hin y), (Hfor y). by destruct (Z.eqb_spec y0 y).
      * intros p Hp. apply Hout. intros y Hy. apply Hp. by right.
Qed.

Lemma omap_nil {A B} (f : A -> option B) (l : list A) :
  omap f l = [] <-> forall x, In x l -> f x = None.
Proof.
  induction l as [|a l IH]; [by split|].
  cbn [omap list_omap]. split.
  - intros H x [<-|Hx].
    + by destruct (f a).
    + destruct (f a); [done|]. by apply IH.
  - intros H. rewrite (H a) by (by left). apply IH. intros x Hx. apply H. by right.
Qed.

Lemma no_frame_iff (k : nat) (years : list Z) :
  omap (frame_of_turn pd web api_key) (turns k years) = [] <->
  forall i y, years !! i = Some y -> frame_of pd (web (k + i)%nat) api_key y = None.
Proof.
  rewrite omap_nil. split.
  - intros H i y Hi. apply (H ((k + i)%nat, y)). apply In_turns. by exists i.
  - intros H [k' y] (i & Hi & Hk)%In_turns. cbn [fst snd] in *. subst k'.
    unfold frame_of_turn. cbn [fst snd]. by apply H.
Qed.

Lemma frame_for_absent (k : nat) (years : list Z) (y : Z) :
  ~ In y years -> omap (frame_for pd web api_key y) (turns k years) = [].
Proof.
  intros Hy. apply omap_nil. intros [k' y'] (i & Hi & _)%In_turns. unfold frame_for.
  cbn [fst snd] in *. destruct (Z.eqb_spec y' y) as [->|]; [|done].
  exfalso. apply Hy, list_elem_of_In. by apply list_elem_of_lookup_2 in Hi.
Qed.

(** The one turn of a year that is listed once. *)
Lemma frame_for_once (years : list Z) (k i : nat) (y : Z) (df : frame) :
  List.NoDup years -> years !! i = Some y ->
  frame_of pd (web (k + i)%nat) api_key y = Some df ->
  omap (frame_for pd web api_key y) (turns k years) = [df].
Proof.
  revert k i. induction years as [|y0 years IH]; intros k i Hnd Hi Hdf; [done|].
  apply List.NoDup_cons_iff in Hnd as [Hy0 Hnd]. rewrite turns_cons.
  cbn [omap list_omap]. unfold frame_for at 1, frame_of_turn. cbn [fst snd].
  destruct i as [|i]; cbn in Hi.
  - injection Hi as ->. rewrite Z.eqb_refl. rewrite Nat.add_0_r in Hdf. rewrite Hdf.
    by rewrite frame_for_absent.
  - destruct (Z.eqb_spec y0 y) as [->|Hne].
    + exfalso. apply Hy0, list_elem_of_In. by apply list_elem_of_lookup_2 in Hi.
    + apply (IH (S k) i Hnd Hi). by replace (S k + i)%nat with (k + S i)%nat by lia.
Qed.

(** X19: the loop hands on, in the order of the turns, exactly the
    frames of the turns whose download returned one, however each
    request of the run is answered; a turn that fails adds nothing and
    stops nothing.  The file of a year holds the frame of the last turn
    for that year that returned one, and is as it was when there is no
    such turn; no other file is touched. *)
Theorem all_data_is_the_frames_of_the_years_that_succeeded
    (years : list Z) (k : nat) (acc : list frame) (fs : gmap pystr frame) :
  exists fs1,
    collect_years pd web api_key k years (acc, fs)
      = (acc ++ omap (frame_of_turn pd web api_key) (turns k years), fs1) /\
    (forall y,
       fs1 !! population_file y
       = match last (omap (frame_for pd web api_key y) (turns k years)) with
         | Some df => Some df
         | None => fs !! population_file y
         end) /\
    (forall p, (forall y, In y years -> p <> population_file y) -> fs1 !! p = fs !! p).
Proof.
  destruct (collect_years_spec years k acc fs) as (fs1 & E & Hin & Hout & _).
  by exists fs1.
Qed.

(** X20: [download_all_population_data] returns [None] exactly when each
    of its six downloads fails, whatever the reason of each failure and
    also when requests that are the same are answered differently; it
    then leaves every file as it was, and no combined file is written. *)
Theorem no_data_exactly_when_every_year_fails (fs : gmap pystr frame) :
  (fst (download_all_population_data pd pd_concat web api_key fs) = NoData
   <-> forall i y, population_years !! i = Some y ->
         frame_of pd (web i) api_key y = None) /\
  (fst (download_all_population_data pd pd_concat web api_key fs) = NoData ->
   snd (download_all_population_data pd pd_concat web api_key fs) = fs).
Proof.
  unfold download_all_population_data.
  destruct (collect_years_spec population_years 0 [] fs) as (fs1 & E & _ & _ & Hnone).
  rewrite E. rewrite app_nil_l in *.
  pose proof (no_frame_iff 0 population_years) as Hiff. cbn [Nat.add] in Hiff.
  destruct (omap (frame_of_turn pd web api_key) (turns 0 population_years))
    as [|df dfs] eqn:Eo.
  - cbn [fst snd]. split; [|intros _; by apply Hnone].
    split; [intros _; by apply Hiff|done].
  - assert (~ forall i y, population_years !! i = Some y ->
                frame_of pd (web i) api_key y = None) as Hno.
    { intros H. by apply Hiff in H. }
    destruct (pd_concat (df :: dfs)) as [c|]; cbn [fst snd].
    + split; [split; [|done]|]; by destruct (_ && _).
    + split; [split; [|done]|]; done.
Qed.

(** X21: whatever the outcome of the run and however the other
    downloads went, a year whose download returned a frame keeps that
    frame in its own file: writing the combined file does not replace a
    yearly file.  The run then does not return [None]; the combined file
    holds the concatenation of the frames that were returned whenever
    [pd.concat] gave one, also when the summary printed after the write
    raises, and it is left as it was when [pd.concat] raises. *)
Theorem yearly_files_survive_the_combined_write
    (fs : gmap pystr frame) (i : nat) (y : Z) (df : frame) :
  population_years !! i = Some y -> frame_of pd (web i) api_key y = Some df ->
  let out := download_all_population_data pd pd_concat web api_key fs in
  snd out !! population_file y = Some df /\
  fst out <> NoData /\
  match pd_concat (omap (frame_of_turn pd web api_key) (turns 0 population_years)) with
  | Some c => snd out !! combined_population_file = Some c /\
              (fst out = Combined c \/ fst out = SummaryRaised)
  | None => snd out !! combined_population_file = fs !! combined_population_file /\
            fst out = ConcatRaised
  end.
Proof.
  intros Hy Hdf out. subst out. unfold download_all_population_data.
  destruct (collect_years_spec population_years 0 [] fs) as (fs1 & E & Hin & Hout & _).
  rewrite E. rewrite app_nil_l in *.
  pose proof (Hin y) as Hfile.
  rewrite (frame_for_once population_years 0 i y df) in Hfile; [|
    apply NoDup_ListNoDup, (bool_decide_unpack _); vm_compute; exact I|done|done].
  cbn [last] in Hfile.
  pose proof (no_frame_iff 0 population_years) as Hiff. cbn [Nat.add] in Hiff.
  destruct (omap (frame_of_turn pd web api_key) (turns 0 population_years))
    as [|d ds] eqn:Eo.
  - rewrite (proj1 Hiff eq_refl i y Hy) in Hdf. done.
  - destruct (pd_concat (d :: ds)) as [c|]; cbn [fst snd].
    + split; [by rewrite lookup_insert_ne by (apply not_eq_sym, population_file_not_combined)|].
      split; [by destruct (_ && _)|].
      split; [by rewrite lookup_insert_eq|].
      destruct (_ && _); [by left|by right].
    + split; [done|]. split; [done|]. split; [|done].
      apply Hout. intros y' _. apply not_eq_sym, population_file_not_combined.
Qed.

End CensusAllYears.

Section CensusMoreWitnesses.
Import Census CensusShape CensusCells.

Lemma every_row_carries_the_requested_year_witness :
  exists df, fst (download_census_data sample_pandas sample_server [] ∅ 2020) = Some df /\
    length (rows df) = 2%nat /\
    (exists j, columns df !! j = Some (lit "year")) /\
    forall r j, In r (rows df) -> columns df !! j = Some (lit "year") ->
      r !! j = Some (CInt 2020).
Proof.
  eexists. split; [vm_compute; reflexivity|]. split; [reflexivity|].
  apply (every_row_carries_the_requested_year sample_pandas sample_server [] ∅ 2020).
  vm_compute. reflexivity.
Defined.

Lemma county_name_is_looked_up_from_the_fips_code_witness :
  (exists df r',
     fst (download_census_data sample_pandas sample_server [] ∅ 2020) = Some df /\
     rows df !! 1%nat = Some r' /\
     columns df !! 6%nat = Some (lit "county_name") /\
     r' !! 6%nat = Some (CStr (lit "Alpine"))) /\
  (exists df r0 r1,
     fst (download_census_data sample_pandas
            (fun _ => Answer (Table named_header named_rows)) [] ∅ 2020) = Some df /\
     rows df = [r0; r1] /\
     columns df !! 3%nat = Some (lit "county_name") /\
     columns df !! 6%nat = Some (lit "county_name") /\
     r0 !! 3%nat = Some (CStr (lit "Alameda")) /\ r0 !! 6%nat = Some (CStr (lit "Alpine")) /\
     r1 !! 3%nat = Some (CStr (lit "Alameda")) /\ r1 !! 6%nat = Some (CStr (lit "Alpine"))).
Proof.
  split.
  - eexists.
    edestruct (county_name_is_looked_up_from_the_fips_code sample_pandas sample_server
                 [] ∅ 2020 sample_header sample_rows _ 1%nat 4%nat
                 [Some (lit "1204"); Some (lit "640"); None; Some (lit "06");
                  Some (lit "003")]
                 eq_refl ltac:(vm_compute; reflexivity) eq_refl eq_refl)
      as (_ & r' & Hr' & Hcell).
    exists r'. split; [vm_compute; reflexivity|]. split; [exact Hr'|].
    split; [reflexivity|]. exact (Hcell 6%nat eq_refl).
  - eexists.
    edestruct (county_name_is_looked_up_from_the_fips_code sample_pandas
                 (fun _ => Answer (Table named_header named_rows))
                 [] ∅ 2020 named_header named_rows _ 1%nat 5%nat
                 [Some (lit "1204"); Some (lit "640"); Some (lit "564"); Some (lit "c");
                  Some (lit "06"); Some (lit "003"); Some (lit "d")]
                 eq_refl ltac:(vm_compute; reflexivity) eq_refl eq_refl)
      as (_ & r1 & Hr1 & Hcell).
    pose proof (Hcell 3%nat eq_refl) as (ra & Hra & H3).
    pose proof (Hcell 6%nat eq_refl) as (rb & Hrb & H6).
    vm_compute in Hra. injection Hra as <-. vm_compute in Hrb. injection Hrb as <-.
    vm_compute in Hr1. injection Hr1 as <-.
    eexists _, _. split; [vm_compute; reflexivity|].
    split; [reflexivity|]. repeat split; reflexivity.
Defined.

Lemma other_columns_pass_through_witness :
  exists df r',
    fst (download_census_data sample_pandas sample_server [] ∅ 2020) = Some df /\
    rows df !! 0%nat = Some r' /\
    columns df !! 3%nat = Some (lit "state_fips") /\
    r' !! 3%nat = Some (CStr (lit "06")).
Proof.
  eexists.
  edestruct (other_columns_pass_through sample_pandas sample_server [] ∅ 2020
               sample_header sample_rows _ 0%nat 3%nat
               [Some (lit "1682353"); Some (lit "N/A"); Some (lit "852672");
                Some (lit "06"); Some (lit "001")]
               (lit "state_fips")
               eq_refl ltac:(vm_compute; reflexivity) eq_refl eq_refl
               ltac:(vm_compute; intuition discriminate)
               ltac:(vm_compute; discriminate) ltac:(vm_compute; discriminate))
    as (r' & Hr' & Hc & Hcell).
  exists r'. split; [vm_compute; reflexivity|]. by split; [|split].
Defined.

Lemma population_column_is_converted_as_a_whole_witness :
  exists df r0 r1 x,
    fst (download_census_data sample_pandas sample_server [] ∅ 2020) = Some df /\
    rows df = [r0; r1] /\
    columns df !! 0%nat = Some (lit "total_population") /\
    r0 !! 0%nat = Some (CInt 1682353) /\ r1 !! 0%nat = Some (CInt 1204) /\
    columns df !! 1%nat = Some (lit "male_population") /\
    r0 !! 1%nat = Some CNull /\
    py_float (lit "640") = Some x /\ r1 !! 1%nat = Some (CNum x) /\
    columns df !! 2%nat = Some (lit "female_population") /\
    r1 !! 2%nat = Some CNull.
Proof.
  eexists.
  edestruct (population_column_is_converted_as_a_whole sample_pandas sample_server
               [] ∅ 2020 sample_header sample_rows _ 1%nat 2%nat
               [Some (lit "1204"); Some (lit "640"); None; Some (lit "06"); Some (lit "003")]
               (lit "female_population")
               eq_refl ltac:(vm_compute; reflexivity) eq_refl eq_refl
               ltac:(right; right; left; reflexivity))
    as (r1 & Hr1 & Hc & _ & Hnull).
  vm_compute in Hr1. injection Hr1 as <-.
  eexists _, _, _. split; [vm_compute; reflexivity|].
  split; [reflexivity|]. split; [reflexivity|]. split; [reflexivity|].
  split; [reflexivity|]. split; [reflexivity|]. split; [reflexivity|].
  split; [vm_compute; reflexivity|]. split; [reflexivity|]. split; [exact Hc|].
  apply Hnull. by left.
Defined.

Lemma early_years_have_their_own_url_witness :
  url (census_request 2000 []) <> url (census_request 2005 []).
Proof.
  apply (early_years_have_their_own_url 2000 2005 [] []); lia.
Defined.

Lemma yearly_files_survive_the_combined_write_witness :
  let out := download_all_population_data sample_pandas stack_frames acs_but_turn_3 [] ∅ in
  exists df c,
    frame_of sample_pandas (acs_but_turn_3 4%nat) [] 2022 = Some df /\
    frame_of sample_pandas (acs_but_turn_3 3%nat) [] 2020 = None /\
    frame_of sample_pandas (acs_but_turn_3 2%nat) [] 2015 <> None /\
    snd out !! population_file 2022 = Some df /\
    snd out !! population_file 2020 = None /\
    snd out !! combined_population_file = Some c /\
    length (rows c) = 8%nat.
Proof.
  cbv zeta.
  destruct (frame_of sample_pandas (acs_but_turn_3 4%nat) [] 2022) as [df|] eqn:Hdf;
    [|vm_compute in Hdf; discriminate].
  destruct (stack_frames
              (omap (frame_of_turn sample_pandas acs_but_turn_3 [])
                    (turns 0 population_years)))
    as [c|] eqn:Hc; [|vm_compute in Hc; discriminate].
  pose proof (yearly_files_survive_the_combined_write sample_pandas stack_frames
                acs_but_turn_3 [] ∅ 4%nat 2022 df eq_refl Hdf) as H.
  cbv zeta in H. rewrite Hc in H. destruct H as (Hfile & _ & Hcomb & _).
  exists df, c. split; [reflexivity|]. split; [vm_compute; reflexivity|].
  split; [vm_compute; discriminate|]. split; [exact Hfile|].
  split; [vm_compute; reflexivity|]. split; [exact Hcomb|].
  vm_compute in Hc. injection Hc as <-. reflexivity.
Defined.

End CensusMoreWitnesses.
